(** * Autopump: the AI analysis core (src/ai)

    A shallow embedding of the provider adapters' response interpreters
    (src/ai/providers/gemini.py, lmstudio.py, ollama.py), of the response
    record (src/ai/providers/base.py) and of the manager that builds the
    provider list, fans a request out and folds the answers into a
    consensus (src/ai/manager.py).

    Conventions of the embedding.
    - A Python [str] is a [string] holding its UTF-8 bytes.  Substring
      search, [startswith] and [split] agree on code points and on UTF-8
      bytes.  The builtins whose result depends on the Unicode tables
      ([str.lower], [str.upper], [str.strip]) and the float formatter are
      operations of the class [PyStrOps]; every statement holds for all
      instances, and [ascii_ops] evaluates them on ASCII text.
    - A Python [float] is a rational ([Q]) and is read in two ways.  In the
      exact reading sums and quotients are those of the rationals
      ([py_sum], [py_div], [consensus]); the statements that do not turn
      on a last digit are made there.  In the binary64 reading ([float],
      [py_sum64], [py_div64], [consensus64]) a literal and the result of
      every operation are rounded to the nearest binary64 number, ties to
      the even significand; the statements about the averages are made
      there.  Infinities and NaN are outside the model.
    - A dynamically typed value is a [pyval]; a [dict] is an association
      list in insertion order, keys unique.
    - Code that may raise lives in the monad [result]; an exception is an
      instance of [Exception], what [except Exception] catches (interrupts
      and task cancellation are outside the model).
    - Logging is left out. *)

From Stdlib Require Import String Ascii List ZArith QArith Qround Lia Lqa Bool.
From Stdlib Require Import Qpower Qabs.
From Stdlib Require Import Permutation.
From Stdlib Require Import Numbers.DecimalString.
From stdpp Require Import base list.
Import ListNotations.

Local Open Scope list_scope.
Local Open Scope string_scope.

(** ** Values, responses, exceptions *)

(** base.py: [AIResponse], together with the values a [Dict[str, Any]] of the
    program holds (the consensus stores the individual responses in its
    metadata). *)
#[warnings="-register-all"]
Inductive pyval : Type :=
| PyNone
| PyBool (b : bool)
| PyInt (z : Z)
| PyFloat (q : Q)
| PyStr (s : string)
| PyList (items : list pyval)
| PyDict (items : list (string * pyval))
| PyResponses (rs : list AIResponse)
with AIResponse : Type :=
| mkAIResponse (success : bool) (analysis : pyval) (confidence : Q)
    (recommendation : string) (risk_score : Q) (reasoning : list string)
    (metadata : list (string * pyval)).

Definition dict : Type := list (string * pyval).

Definition success (r : AIResponse) : bool :=
  match r with mkAIResponse s _ _ _ _ _ _ => s end.
Definition analysis (r : AIResponse) : pyval :=
  match r with mkAIResponse _ a _ _ _ _ _ => a end.
Definition confidence (r : AIResponse) : Q :=
  match r with mkAIResponse _ _ c _ _ _ _ => c end.
Definition recommendation (r : AIResponse) : string :=
  match r with mkAIResponse _ _ _ d _ _ _ => d end.
Definition risk_score (r : AIResponse) : Q :=
  match r with mkAIResponse _ _ _ _ k _ _ => k end.
Definition reasoning (r : AIResponse) : list string :=
  match r with mkAIResponse _ _ _ _ _ l _ => l end.
Definition metadata (r : AIResponse) : dict :=
  match r with mkAIResponse _ _ _ _ _ _ m => m end.

(** [AIResponse(success=s, analysis=a)]: the dataclass defaults, with
    [__post_init__] turning the two [None] fields into [[]] and [{}]. *)
Definition AIResponse_default (s : bool) (a : pyval) : AIResponse :=
  mkAIResponse s a 0.0 "hold" 0.5 [] [].

(** [AIResponse(success=s, analysis=a, metadata=m)]. *)
Definition AIResponse_meta (s : bool) (a : pyval) (m : dict) : AIResponse :=
  mkAIResponse s a 0.0 "hold" 0.5 [] m.

Record PyException : Type := mkExc { exc_class : string; exc_msg : string }.

(** [str(e)] *)
Definition str_exc (e : PyException) : string := exc_msg e.

Definition result (A : Type) : Type := (PyException + A)%type.

Definition ret {A : Type} (a : A) : result A := inr a.
Definition raise {A : Type} (e : PyException) : result A := inl e.
Definition bind {A B : Type} (c : result A) (k : A -> result B) : result B :=
  match c with
  | inl e => inl e
  | inr a => k a
  end.
(** [try: c  except Exception as e: h e] *)
Definition try_except {A : Type} (c : result A) (h : PyException -> result A)
  : result A :=
  match c with
  | inl e => h e
  | inr a => inr a
  end.

Notation "'let*' x ':=' c 'in' k" := (bind c (fun x => k))
  (at level 10, x name, c at level 100, k at level 200).

(** ** Dictionaries *)

Fixpoint dict_lookup {V : Type} (k : string) (d : list (string * V)) : option V :=
  match d with
  | [] => None
  | (k', v) :: d' => if String.eqb k k' then Some v else dict_lookup k d'
  end.

(** [d.get(k, default)] *)
Definition dict_get (d : dict) (k : string) (default : pyval) : pyval :=
  match dict_lookup k d with
  | Some v => v
  | None => default
  end.

(** Python truth value of an object, as [if], [not] and [and] test it. *)
Definition truthy (v : pyval) : bool :=
  match v with
  | PyNone => false
  | PyBool b => b
  | PyInt z => negb (Z.eqb z 0)
  | PyFloat q => negb (Qeq_bool q 0)
  | PyStr s => negb (String.eqb s "")
  | PyList l => match l with [] => false | _ => true end
  | PyDict d => match d with [] => false | _ => true end
  | PyResponses l => match l with [] => false | _ => true end
  end.

(** [type(v).__name__] *)
Definition type_name (v : pyval) : string :=
  match v with
  | PyNone => "NoneType"
  | PyBool _ => "bool"
  | PyInt _ => "int"
  | PyFloat _ => "float"
  | PyStr _ => "str"
  | PyList _ => "list"
  | PyDict _ => "dict"
  | PyResponses _ => "list"
  end.

(** The exception of [v.attr] on an object without that attribute. *)
Definition AttributeError (v : pyval) (attr : string) : PyException :=
  mkExc "AttributeError"
    ("'" ++ type_name v ++ "' object has no attribute '" ++ attr ++ "'").

(** ** Strings *)

Class PyStrOps : Type := {
  lower : string -> string;      (* str.lower *)
  upper : string -> string;      (* str.upper *)
  strip : string -> string;      (* str.strip *)
  format_2f : Q -> string        (* format(x, ".2f") *)
}.

(** [sub in s] *)
Fixpoint contains (sub s : string) : bool :=
  String.prefix sub s ||
  match s with
  | EmptyString => false
  | String _ s' => contains sub s'
  end.

(** [line.startswith((p1, ..., pn))] *)
Definition startswith (line : string) (prefixes : list string) : bool :=
  existsb (fun p => String.prefix p line) prefixes.

(** [s.split(sep)] for a one-character separator. *)
Fixpoint split (sep : ascii) (s : string) : list string :=
  match s with
  | EmptyString => [EmptyString]
  | String c s' =>
      if Ascii.eqb c sep then EmptyString :: split sep s'
      else match split sep s' with
           | [] => [String c EmptyString]
           | l :: ls => String c l :: ls
           end
  end.

Definition newline : ascii := Ascii.ascii_of_nat 10.

(** [v.lower()], [v.upper()] and [v.split('\n')] on a dynamically typed [v]. *)
Definition py_lower `{PyStrOps} (v : pyval) : result string :=
  match v with
  | PyStr s => ret (lower s)
  | _ => raise (AttributeError v "lower")
  end.

Definition py_upper `{PyStrOps} (v : pyval) : result string :=
  match v with
  | PyStr s => ret (upper s)
  | _ => raise (AttributeError v "upper")
  end.

Definition py_split_lines (v : pyval) : result (list string) :=
  match v with
  | PyStr s => ret (split newline s)
  | _ => raise (AttributeError v "split")
  end.

(** [str(n)] for a non-negative integer. *)
Definition str_nat (n : nat) : string :=
  NilZero.string_of_uint (Nat.to_uint n).

(** ASCII instances of the string builtins, for evaluation. *)
Definition ascii_lower_char (c : ascii) : ascii :=
  let n := Ascii.nat_of_ascii c in
  if (65 <=? n)%nat && (n <=? 90)%nat then Ascii.ascii_of_nat (n + 32) else c.

Definition ascii_upper_char (c : ascii) : ascii :=
  let n := Ascii.nat_of_ascii c in
  if (97 <=? n)%nat && (n <=? 122)%nat then Ascii.ascii_of_nat (n - 32) else c.

Fixpoint map_string (f : ascii -> ascii) (s : string) : string :=
  match s with
  | EmptyString => EmptyString
  | String c s' => String (f c) (map_string f s')
  end.

Definition is_ascii_space (c : ascii) : bool :=
  let n := Ascii.nat_of_ascii c in
  ((9 <=? n)%nat && (n <=? 13)%nat) || ((28 <=? n)%nat && (n <=? 32)%nat).

Fixpoint lstrip (s : string) : string :=
  match s with
  | EmptyString => EmptyString
  | String c s' => if is_ascii_space c then lstrip s' else s
  end.

Fixpoint rstrip (s : string) : string :=
  match s with
  | EmptyString => EmptyString
  | String c s' =>
      match rstrip s' with
      | EmptyString => if is_ascii_space c then EmptyString else String c EmptyString
      | t => String c t
      end
  end.

(** Two decimals of a rational, ties to even. *)
Definition round_half_even (q : Q) : Z :=
  let f := Qfloor q in
  let r := (q - inject_Z f)%Q in
  match (r ?= 1 # 2)%Q with
  | Lt => f
  | Gt => (f + 1)%Z
  | Eq => if Z.even f then f else (f + 1)%Z
  end.

Definition str_Z_abs (z : Z) : string := str_nat (Z.abs_nat z).

Definition ascii_format_2f (q : Q) : string :=
  let h := round_half_even (q * 100)%Q in
  let a := Z.abs h in
  let cents := (a mod 100)%Z in
  (if (h <? 0)%Z then "-" else "")
    ++ str_Z_abs (a / 100)%Z ++ "."
    ++ (if (cents <? 10)%Z then "0" else "") ++ str_Z_abs cents.

Definition ascii_ops : PyStrOps := {|
  lower := map_string ascii_lower_char;
  upper := map_string ascii_upper_char;
  strip := fun s => rstrip (lstrip s);
  format_2f := ascii_format_2f
|}.

(** ** The backend boundary

    What one HTTP exchange of an adapter amounts to, seen from the code
    that follows it inside the adapter's [try] block. *)
Inductive backend_reply : Type :=
| Raises (e : PyException)
    (* the request, [response.json()] or the indexing of the payload raises *)
| ErrorStatus (error_text : string)
    (* [response.status != 200], with the text of the reply *)
| FieldMissing
    (* status 200, the payload lacks the field the text is read from:
       Gemini "candidates" (absent or empty), LM Studio "choices",
       Ollama "response" *)
| Reply (analysis_text : pyval).
    (* status 200, the value found at the text field *)

(** The exchange of [analyze_market_conditions], which checks no status. *)
Inductive market_reply : Type :=
| MarketRaises (e : PyException)
| MarketReply (analysis_text : pyval).

(** ** Response interpreters *)

Module Gemini.
Section Interpreter.
Context `{PyStrOps}.

Definition extract_recommendation (text_lower : string) : string :=
  if contains "recommend buy" text_lower || contains "should buy" text_lower
  then "buy"
  else if contains "recommend sell" text_lower || contains "should sell" text_lower
  then "sell"
  else if contains "avoid" text_lower || contains "skip" text_lower
  then "sell"
  else "hold".

Definition extract_confidence (text_lower : string) : Q :=
  if contains "high confidence" text_lower || contains "very confident" text_lower
  then 0.8
  else if contains "low confidence" text_lower || contains "uncertain" text_lower
  then 0.3
  else if contains "extremely confident" text_lower
  then 0.9
  else 0.5.

Definition extract_risk_score (text_lower : string) : Q :=
  if contains "high risk" text_lower || contains "risky" text_lower
  then 0.8
  else if contains "low risk" text_lower || contains "safe" text_lower
  then 0.2
  else if contains "extremely risky" text_lower
  then 0.9
  else 0.5.

Definition markers : list string :=
  ["-"; "•"; "*"; "1."; "2."; "3."; "4."; "5."].

Definition extract_reasoning (lines : list string) : list string :=
  filter (fun line => startswith line markers) (map strip lines).

(** The [try] block of [_parse_analysis_response]. *)
Definition extract_fields (model : pyval) (text : pyval) : result AIResponse :=
  let* text_lower := py_lower text in
  let recommendation := extract_recommendation text_lower in
  let confidence := extract_confidence text_lower in
  let risk_score := extract_risk_score text_lower in
  let* lines := py_split_lines text in
  let reasoning := extract_reasoning lines in
  ret (mkAIResponse true text confidence recommendation risk_score
         (firstn 5 reasoning)
         [("provider", PyStr "gemini"); ("model", model)]).

Definition _parse_analysis_response (model : pyval) (text : pyval) : AIResponse :=
  match extract_fields model text with
  | inr r => r
  | inl e =>
      AIResponse_meta true text
        [("provider", PyStr "gemini"); ("model", model);
         ("parse_error", PyStr (str_exc e))]
  end.

Definition analyze_token (model : pyval) (reply : backend_reply)
  : result AIResponse :=
  try_except
    (match reply with
     | Raises e => raise e
     | ErrorStatus error_text =>
         ret (AIResponse_default false (PyStr ("API Error: " ++ error_text)))
     | FieldMissing =>
         ret (AIResponse_default false (PyStr "No response from Gemini"))
     | Reply analysis_text => ret (_parse_analysis_response model analysis_text)
     end)
    (fun e => ret (AIResponse_default false (PyStr ("Error: " ++ str_exc e)))).

Definition analyze_market_conditions (model : pyval) (reply : market_reply)
  : result AIResponse :=
  try_except
    (match reply with
     | MarketRaises e => raise e
     | MarketReply analysis_text =>
         ret (_parse_analysis_response model analysis_text)
     end)
    (fun e => ret (AIResponse_default false (PyStr ("Error: " ++ str_exc e)))).

End Interpreter.
End Gemini.

Module LMStudio.
Section Interpreter.
Context `{PyStrOps}.

Definition extract_recommendation (text_lower : string) : string :=
  if contains "recommend buy" text_lower || contains "should buy" text_lower
  then "buy"
  else if contains "recommend sell" text_lower || contains "should sell" text_lower
  then "sell"
  else if contains "avoid" text_lower || contains "skip" text_lower
  then "sell"
  else "hold".

Definition extract_confidence (text_lower : string) : Q :=
  if contains "high confidence" text_lower || contains "very confident" text_lower
  then 0.8
  else if contains "low confidence" text_lower || contains "uncertain" text_lower
  then 0.3
  else if contains "extremely confident" text_lower
  then 0.9
  else 0.5.

Definition extract_risk_score (text_lower : string) : Q :=
  if contains "high risk" text_lower || contains "risky" text_lower
  then 0.8
  else if contains "low risk" text_lower || contains "safe" text_lower
  then 0.2
  else if contains "extremely risky" text_lower
          || contains "very dangerous" text_lower
  then 0.9
  else 0.5.

(** The second marker is the byte sequence the source file holds. *)
Definition markers : list string :=
  ["-"; "â€¢"; "*"; "1."; "2."; "3."; "4."; "5."].

Definition extract_reasoning (lines : list string) : list string :=
  filter (fun line => startswith line markers) (map strip lines).

(** The [try] block of [_parse_analysis_response]. *)
Definition extract_fields (model : pyval) (text : pyval) : result AIResponse :=
  let* text_lower := py_lower text in
  let recommendation := extract_recommendation text_lower in
  let confidence := extract_confidence text_lower in
  let risk_score := extract_risk_score text_lower in
  let* lines := py_split_lines text in
  let reasoning := extract_reasoning lines in
  ret (mkAIResponse true text confidence recommendation risk_score
         (firstn 5 reasoning)
         [("provider", PyStr "lmstudio"); ("model", model)]).

Definition _parse_analysis_response (model : pyval) (text : pyval) : AIResponse :=
  match extract_fields model text with
  | inr r => r
  | inl e =>
      AIResponse_meta true text
        [("provider", PyStr "lmstudio"); ("model", model);
         ("parse_error", PyStr (str_exc e))]
  end.

Definition analyze_token (model : pyval) (reply : backend_reply)
  : result AIResponse :=
  try_except
    (match reply with
     | Raises e => raise e
     | ErrorStatus error_text =>
         ret (AIResponse_default false (PyStr ("API Error: " ++ error_text)))
     | FieldMissing => raise (mkExc "KeyError" "'choices'")
     | Reply analysis_text => ret (_parse_analysis_response model analysis_text)
     end)
    (fun e => ret (AIResponse_default false (PyStr ("Error: " ++ str_exc e)))).

Definition analyze_market_conditions (model : pyval) (reply : market_reply)
  : result AIResponse :=
  try_except
    (match reply with
     | MarketRaises e => raise e
     | MarketReply analysis_text =>
         ret (_parse_analysis_response model analysis_text)
     end)
    (fun e => ret (AIResponse_default false (PyStr ("Error: " ++ str_exc e)))).

End Interpreter.
End LMStudio.

Module Ollama.
Section Interpreter.
Context `{PyStrOps}.

Definition extract_recommendation (text_lower : string) : string :=
  if contains "buy" text_lower && contains "recommend" text_lower
  then "buy"
  else if contains "sell" text_lower && contains "recommend" text_lower
  then "sell"
  else "hold".

Definition extract_confidence (text_lower : string) : Q :=
  if contains "high confidence" text_lower
  then 0.8
  else if contains "low confidence" text_lower
  then 0.3
  else if contains "very confident" text_lower
  then 0.9
  else 0.5.

Definition extract_risk_score (text_lower : string) : Q :=
  if contains "high risk" text_lower
  then 0.8
  else if contains "low risk" text_lower
  then 0.2
  else if contains "very risky" text_lower || contains "extremely risky" text_lower
  then 0.9
  else 0.5.

Definition markers : list string := ["-"; "•"; "*"].

Definition keywords : list string := ["because"; "due to"; "reason"].

Definition extract_reasoning (lines : list string) : list string :=
  filter
    (fun line =>
       startswith line markers
       || existsb (fun word => contains word (lower line)) keywords)
    (map strip lines).

(** The [try] block of [_parse_analysis_response]. *)
Definition extract_fields (model : pyval) (text : pyval) : result AIResponse :=
  let* text_lower := py_lower text in
  let recommendation := extract_recommendation text_lower in
  let confidence := extract_confidence text_lower in
  let risk_score := extract_risk_score text_lower in
  let* lines := py_split_lines text in
  let reasoning := extract_reasoning lines in
  ret (mkAIResponse true text confidence recommendation risk_score
         (firstn 5 reasoning)
         [("provider", PyStr "ollama"); ("model", model)]).

Definition _parse_analysis_response (model : pyval) (text : pyval) : AIResponse :=
  match extract_fields model text with
  | inr r => r
  | inl e =>
      AIResponse_meta true text
        [("provider", PyStr "ollama"); ("model", model);
         ("parse_error", PyStr (str_exc e))]
  end.

Definition analyze_token (model : pyval) (reply : backend_reply)
  : result AIResponse :=
  try_except
    (match reply with
     | Raises e => raise e
     | ErrorStatus error_text =>
         ret (AIResponse_default false (PyStr ("API Error: " ++ error_text)))
     | FieldMissing => ret (_parse_analysis_response model (PyStr ""))
     | Reply analysis_text => ret (_parse_analysis_response model analysis_text)
     end)
    (fun e => ret (AIResponse_default false (PyStr ("Error: " ++ str_exc e)))).

Definition analyze_market_conditions (model : pyval) (reply : market_reply)
  : result AIResponse :=
  try_except
    (match reply with
     | MarketRaises e => raise e
     | MarketReply analysis_text =>
         ret (_parse_analysis_response model analysis_text)
     end)
    (fun e => ret (AIResponse_default false (PyStr ("Error: " ++ str_exc e)))).

End Interpreter.
End Ollama.

(** ** Providers (base.py, and the constructors of the adapters) *)

Module Base.

(** [AIProvider]: an object with the abstract methods of the base class.
    The request itself (token and market data) only shapes the prompt sent
    to the backend, so a method is given by what it does with the
    backend's reply. *)
Record AIProvider : Type := {
  name : string;
  config : dict;
  analyze_token : backend_reply -> result AIResponse;
  analyze_market_conditions : market_reply -> result AIResponse
}.

End Base.

Abbreviation AIProvider := Base.AIProvider.

Section Constructors.
Context `{PyStrOps}.

(** ollama.py, [OllamaProvider.__init__] *)
Definition OllamaProvider (config : dict) : result AIProvider :=
  let model := dict_get config "model" (PyStr "llama3.2") in
  ret {| Base.name := "OllamaProvider";
         Base.config := config;
         Base.analyze_token := Ollama.analyze_token model;
         Base.analyze_market_conditions := Ollama.analyze_market_conditions model |}.

(** lmstudio.py, [LMStudioProvider.__init__] *)
Definition LMStudioProvider (config : dict) : result AIProvider :=
  let model := dict_get config "model" (PyStr "local-model") in
  ret {| Base.name := "LMStudioProvider";
         Base.config := config;
         Base.analyze_token := LMStudio.analyze_token model;
         Base.analyze_market_conditions := LMStudio.analyze_market_conditions model |}.

(** gemini.py, [GeminiProvider.__init__] *)
Definition GeminiProvider (config : dict) : result AIProvider :=
  let api_key := dict_get config "api_key" PyNone in
  let model := dict_get config "model" (PyStr "gemini-1.5-flash") in
  if negb (truthy api_key)
  then raise (mkExc "ValueError" "Gemini API key is required")
  else
    ret {| Base.name := "GeminiProvider";
           Base.config := config;
           Base.analyze_token := Gemini.analyze_token model;
           Base.analyze_market_conditions := Gemini.analyze_market_conditions model |}.

End Constructors.

(** ** asyncio.gather *)

Section Gather.
Context {A : Type}.

(** The task at position [i] finishes: its outcome goes to slot [i]. *)
Definition complete (tasks : list A) (slots : list (option A)) (i : nat)
  : list (option A) :=
  match tasks !! i with
  | Some outcome => <[i := Some outcome]> slots
  | None => slots
  end.

Fixpoint all_filled (slots : list (option A)) : option (list A) :=
  match slots with
  | [] => Some []
  | None :: _ => None
  | Some a :: slots' =>
      match all_filled slots' with
      | Some l => Some (a :: l)
      | None => None
      end
  end.

(** [asyncio.gather] over the tasks with [return_exceptions=True]: [tasks] holds
    what each task ends with (a value or an exception, returned alike),
    [order] the positions of the tasks in the order they finish.  The call
    returns once every slot is filled; [None] stands for a wait that never
    ends. *)
Definition gather (tasks : list A) (order : list nat) : option (list A) :=
  all_filled (fold_left (complete tasks) order (replicate (length tasks) None)).

End Gather.

(** ** Floats

    A binary64 number is a rational m * 2^e with |m| < 2^53 and e >= -1074.
    [float q] is the one nearest to [q], ties to the even significand: the
    value of a decimal literal, and the result of an operation whose exact
    result is [q]. *)

(** The exponent of the binade of a positive rational: the [e] with
    2^e <= q < 2^(e+1). *)
Definition binade (q : Q) : Z :=
  let k := (Z.log2 (Qnum q) - Z.log2 (Zpos (Qden q)))%Z in
  if Qle_bool (2 ^ k) q then k else (k - 1)%Z.

(** The unit in the last place: 52 bits below the binade, and 2^-1074 below
    the smallest normal number. *)
Definition ulp (q : Q) : Q := (2 ^ (Z.max (binade q) (-1022) - 52))%Q.

Definition float_of_positive (q : Q) : Q :=
  (inject_Z (round_half_even (q / ulp q)) * ulp q)%Q.

Definition float (q : Q) : Q :=
  match Qnum q with
  | Z0 => 0%Q
  | Zpos _ => float_of_positive q
  | Zneg _ => (- float_of_positive (- q))%Q
  end.

(** [x + y], [x - y] and [x / y] on floats. *)
Definition float_add (x y : Q) : Q := float (x + y).

Definition float_sub (x y : Q) : Q := float (x - y).

Definition float_truediv (x y : Q) : Q := float (x / y).

(** The builtin [sum] on floats, as CPython has it.  Up to 3.11 it adds
    from left to right and every addition is rounded.  From 3.12 on the
    loop also gathers the rounding errors of its additions in a
    compensation term [c], which it adds at the end when it is not zero. *)
Inductive summation : Type :=
  | LeftToRight
  | Compensated.

Fixpoint compensated_loop (xs : list Q) (f_result c : Q) : Q :=
  match xs with
  | [] => if Qeq_bool c 0 then f_result else float_add f_result c
  | x :: rest =>
      let t := float_add f_result x in
      let c :=
        if Qle_bool (Qabs x) (Qabs f_result)
        then float_add c (float_add (float_sub f_result t) x)
        else float_add c (float_add (float_sub x t) f_result) in
      compensated_loop rest t c
  end.

(** ** The manager (manager.py) *)

Definition nl : string := String newline EmptyString.

Module AIManager.
Section Manager.
Context `{PyStrOps}.

(** The adapter of src/ai/providers/localai.py, which is not part of the
    sources at hand: its constructor is a parameter. *)
Variable LocalAIProvider : dict -> result AIProvider.

Definition ProviderConfigs : Type := list (string * dict).
Definition Config : Type := list (string * ProviderConfigs).

(** One block of [_setup_providers]:
    [if key in provider_configs and provider_configs[key].get("enabled", False):
       try: self.providers.append(ctor(provider_configs[key]))
       except Exception: (logged)] *)
Definition setup_one (key : string) (ctor : dict -> result AIProvider)
    (provider_configs : ProviderConfigs) (providers : list AIProvider)
  : list AIProvider :=
  match dict_lookup key provider_configs with
  | Some cfg =>
      if truthy (dict_get cfg "enabled" (PyBool false))
      then match ctor cfg with
           | inr provider => (providers ++ [provider])%list
           | inl _ => providers
           end
      else providers
  | None => providers
  end.

Definition _setup_providers (config : Config) : list AIProvider :=
  let provider_configs :=
    match dict_lookup "providers" config with
    | Some pc => pc
    | None => []
    end in
  let providers := [] in
  let providers := setup_one "ollama" OllamaProvider provider_configs providers in
  let providers := setup_one "lmstudio" LMStudioProvider provider_configs providers in
  let providers := setup_one "localai" LocalAIProvider provider_configs providers in
  let providers := setup_one "gemini" GeminiProvider provider_configs providers in
  providers.

(** [AIManager.__init__]: the manager is its provider list. *)
Definition __init__ (config : Config) : list AIProvider :=
  _setup_providers config.

(** The replies of the backends during one fan-out, by provider name. *)
Definition Net : Type := string -> backend_reply.

Definition _safe_analyze_token (provider : AIProvider) (reply : backend_reply)
  : result AIResponse :=
  try_except (Base.analyze_token provider reply)
    (fun e =>
       ret (AIResponse_meta false
              (PyStr ("Provider " ++ Base.name provider ++ " failed: " ++ str_exc e))
              [("provider", PyStr (Base.name provider));
               ("error", PyStr (str_exc e))])).

(** The loop after [gather]: exceptions are logged and left out, responses
    are kept. *)
Fixpoint valid_responses (responses : list (result AIResponse))
  : list AIResponse :=
  match responses with
  | [] => []
  | inl _ :: rest => valid_responses rest
  | inr response :: rest => response :: valid_responses rest
  end.

(** [analyze_token]; [None] when the wait on the tasks never ends. *)
Definition analyze_token (providers : list AIProvider) (net : Net)
    (order : list nat) : option (result (list AIResponse)) :=
  match providers with
  | [] => Some (ret [])
  | _ =>
      let tasks :=
        map (fun provider =>
               _safe_analyze_token provider (net (Base.name provider)))
            providers in
      match gather tasks order with
      | Some responses => Some (ret (valid_responses responses))
      | None => None
      end
  end.

Definition votes (value : string) (responses : list AIResponse) : nat :=
  length (filter (fun r => String.eqb (recommendation r) value) responses).

(** [sum(...)] from the integer [0], over the rationals. *)
Definition py_sum (xs : list Q) : Q := fold_left Qplus xs 0%Q.

(** [x / n] for an integer [n], over the rationals. *)
Definition py_div (x : Q) (n : nat) : result Q :=
  match n with
  | O => raise (mkExc "ZeroDivisionError" "division by zero")
  | S _ => ret (x / inject_Z (Z.of_nat n))%Q
  end.

(** [sum(...)] in binary64, from the integer [0]: the first float is added
    to it, and the loop of the builtin adds the others. *)
Definition py_sum64 (loop : summation) (xs : list Q) : Q :=
  match loop with
  | LeftToRight => fold_left float_add xs 0%Q
  | Compensated =>
      match xs with
      | [] => 0%Q
      | x :: rest => compensated_loop rest (float_add 0 x) 0%Q
      end
  end.

(** [x / n] in binary64: the integer is converted to a float and the
    quotient rounded. *)
Definition py_div64 (x : Q) (n : nat) : result Q :=
  match n with
  | O => raise (mkExc "ZeroDivisionError" "division by zero")
  | S _ => ret (float_truediv x (float (inject_Z (Z.of_nat n))))
  end.

(** [provider_name.upper()] where [provider_name] comes out of a
    [Dict[str, Any]]. *)
Definition provider_label (i : nat) (response : AIResponse) : result string :=
  py_upper (dict_get (metadata response) "provider"
              (PyStr ("Provider " ++ str_nat (i + 1)))).

(** The loop that appends one section per response to the report. *)
Fixpoint provider_sections (i : nat) (responses : list AIResponse)
    (consensus_text : string) : result string :=
  match responses with
  | [] => ret consensus_text
  | response :: rest =>
      let* label := provider_label i response in
      let consensus_text := consensus_text ++ nl ++ label ++ ":" ++ nl in
      let consensus_text :=
        consensus_text ++ "- Recommendation: " ++ recommendation response ++ nl in
      let consensus_text :=
        consensus_text ++ "- Confidence: " ++ format_2f (confidence response) ++ nl in
      let consensus_text :=
        consensus_text ++ "- Risk: " ++ format_2f (risk_score response) ++ nl in
      let consensus_text :=
        match reasoning response with
        | [] => consensus_text
        | _ =>
            consensus_text ++ "- Key points: "
              ++ String.concat "; " (firstn 2 (reasoning response)) ++ nl
        end in
      provider_sections (S i) rest consensus_text
  end.

(** The body of [get_consensus_analysis] after the responses are in. *)
Definition consensus (responses : list AIResponse) : result AIResponse :=
  match responses with
  | [] =>
      ret (AIResponse_default false
             (PyStr "No AI providers available for analysis"))
  | _ =>
      let buy_votes := votes "buy" responses in
      let sell_votes := votes "sell" responses in
      let hold_votes := votes "hold" responses in
      let consensus_recommendation :=
        if (sell_votes <? buy_votes)%nat && (hold_votes <? buy_votes)%nat
        then "buy"
        else if (buy_votes <? sell_votes)%nat && (hold_votes <? sell_votes)%nat
        then "sell"
        else "hold" in
      let* avg_confidence :=
        py_div (py_sum (map confidence responses)) (length responses) in
      let* avg_risk_score :=
        py_div (py_sum (map risk_score responses)) (length responses) in
      let all_reasoning := concat (map reasoning responses) in
      let consensus_text :=
        nl ++ "CONSENSUS ANALYSIS (" ++ str_nat (length responses)
           ++ " providers):" ++ nl ++ nl
           ++ "Recommendation: " ++ upper consensus_recommendation ++ nl
           ++ "- Buy votes: " ++ str_nat buy_votes ++ nl
           ++ "- Sell votes: " ++ str_nat sell_votes ++ "  " ++ nl
           ++ "- Hold votes: " ++ str_nat hold_votes ++ nl ++ nl
           ++ "Average Confidence: " ++ format_2f avg_confidence ++ nl
           ++ "Average Risk Score: " ++ format_2f avg_risk_score ++ nl ++ nl
           ++ "Individual Provider Analyses:" ++ nl in
      let* consensus_text := provider_sections 0 responses consensus_text in
      ret (mkAIResponse true (PyStr consensus_text) avg_confidence
             consensus_recommendation avg_risk_score
             (firstn 10 all_reasoning)
             [("provider", PyStr "consensus");
              ("provider_count", PyInt (Z.of_nat (length responses)));
              ("individual_responses", PyResponses responses)])
  end.

(** The same body in binary64: the confidences and risks of the responses
    are floats, and the two averages are computed with the rounded sum, by
    the loop of the interpreter at hand, and the rounded quotient. *)
Definition consensus64 (loop : summation) (responses : list AIResponse)
  : result AIResponse :=
  match responses with
  | [] =>
      ret (AIResponse_default false
             (PyStr "No AI providers available for analysis"))
  | _ =>
      let buy_votes := votes "buy" responses in
      let sell_votes := votes "sell" responses in
      let hold_votes := votes "hold" responses in
      let consensus_recommendation :=
        if (sell_votes <? buy_votes)%nat && (hold_votes <? buy_votes)%nat
        then "buy"
        else if (buy_votes <? sell_votes)%nat && (hold_votes <? sell_votes)%nat
        then "sell"
        else "hold" in
      let* avg_confidence :=
        py_div64 (py_sum64 loop (map float (map confidence responses)))
          (length responses) in
      let* avg_risk_score :=
        py_div64 (py_sum64 loop (map float (map risk_score responses)))
          (length responses) in
      let all_reasoning := concat (map reasoning responses) in
      let consensus_text :=
        nl ++ "CONSENSUS ANALYSIS (" ++ str_nat (length responses)
           ++ " providers):" ++ nl ++ nl
           ++ "Recommendation: " ++ upper consensus_recommendation ++ nl
           ++ "- Buy votes: " ++ str_nat buy_votes ++ nl
           ++ "- Sell votes: " ++ str_nat sell_votes ++ "  " ++ nl
           ++ "- Hold votes: " ++ str_nat hold_votes ++ nl ++ nl
           ++ "Average Confidence: " ++ format_2f avg_confidence ++ nl
           ++ "Average Risk Score: " ++ format_2f avg_risk_score ++ nl ++ nl
           ++ "Individual Provider Analyses:" ++ nl in
      let* consensus_text := provider_sections 0 responses consensus_text in
      ret (mkAIResponse true (PyStr consensus_text) avg_confidence
             consensus_recommendation avg_risk_score
             (firstn 10 all_reasoning)
             [("provider", PyStr "consensus");
              ("provider_count", PyInt (Z.of_nat (length responses)));
              ("individual_responses", PyResponses responses)])
  end.

(** [get_consensus_analysis] *)
Definition get_consensus_analysis (providers : list AIProvider) (net : Net)
    (order : list nat) : option (result AIResponse) :=
  match analyze_token providers net order with
  | Some responses => Some (let* responses := responses in consensus responses)
  | None => None
  end.

(** [get_provider_names], [get_provider_count] *)
Definition get_provider_names (providers : list AIProvider) : list string :=
  map Base.name providers.

Definition get_provider_count (providers : list AIProvider) : nat :=
  length providers.

End Manager.
End AIManager.

(** ** Health checks (the adapters' [health_check], and
    [AIManager.check_provider_health]) *)

(** [d[k] = v]: an existing key keeps its place, a new one goes last. *)
Fixpoint dict_set {V : Type} (k : string) (v : V) (d : list (string * V))
  : list (string * V) :=
  match d with
  | [] => [(k, v)]
  | (k', v') :: d' =>
      if String.eqb k k' then (k, v) :: d' else (k', v') :: dict_set k v d'
  end.

(** The exchange of a health check: the GET raises, or answers with a
    status. *)
Inductive health_reply : Type :=
| HealthRaises (e : PyException)
| HealthStatus (status : Z).

(** [health_check] of the Gemini, LM Studio and Ollama adapters, which
    differ in the URL only. *)
Definition adapter_health_check (reply : health_reply) : result bool :=
  try_except
    (match reply with
     | HealthRaises e => raise e
     | HealthStatus status => ret (Z.eqb status 200)
     end)
    (fun _ => ret false).

Module Health.

(** [check_provider_health]; [health_check provider] is what
    [await provider.health_check()] ends with. *)
Definition check_provider_health (providers : list AIProvider)
    (health_check : AIProvider -> result bool) : dict :=
  fold_left
    (fun health_status provider =>
       match health_check provider with
       | inr is_healthy =>
           dict_set (Base.name provider) (PyBool is_healthy) health_status
       | inl _ =>
           dict_set (Base.name provider) (PyBool false) health_status
       end)
    providers [].

End Health.

(** ** The trader (trading/ai_enhanced_trader.py) *)

Module AIEnhancedTrader.
Section Trader.
Context `{PyStrOps}.

(** [TradeResult] (trading/base.py) and the platform-aware buyer and seller
    (trading/platform_aware.py) are outside the sources at hand.
    [TradeResult_failed m] stands for
    [TradeResult(success=False, platform=token_info.platform, error_message=m)]. *)
Variable TradeResult : Type.
Variable TradeResult_failed : string -> TradeResult.

(** The attributes of the trader that the analysis path reads. *)
Record Trader : Type := {
  ai_manager : list AIProvider;
  min_confidence : Q;
  max_risk_score : Q;
  require_consensus : bool
}.

(** [x < y] on floats. *)
Definition Qlt_bool (x y : Q) : bool := negb (Qle_bool y x).

Definition _should_trade_based_on_analysis (self : Trader)
    (analysis : AIResponse) : bool :=
  if negb (success analysis) then false
  else if Qlt_bool (confidence analysis) (min_confidence self) then false
  else if Qlt_bool (max_risk_score self) (risk_score analysis) then false
  else if negb (existsb (String.eqb (recommendation analysis)) ["buy"; "sell"])
  then false
  else true.

(** The calls made to the buyer and the seller. *)
Inductive call : Type := BuyerExecute | SellerExecute.

(** [analyze_and_trade] from the point where the analysis is at hand;
    [buyer] and [seller] are what [self.buyer.execute(token_info)] and
    [self.seller.execute(token_info)] end with. *)
Definition trade_on_analysis (self : Trader) (analysis : AIResponse)
    (buyer seller : result TradeResult) : list call * result TradeResult :=
  if negb (_should_trade_based_on_analysis self analysis)
  then ([], ret (TradeResult_failed "AI analysis criteria not met"))
  else if String.eqb (recommendation analysis) "buy"
  then ([BuyerExecute], buyer)
  else if String.eqb (recommendation analysis) "sell"
  then ([SellerExecute], seller)
  else ([], ret (TradeResult_failed "AI recommends hold")).

(** [analyze_and_trade]: the calls made and the result returned; [None]
    when the wait on the providers never ends. *)
Definition analyze_and_trade (self : Trader) (net : AIManager.Net)
    (order : list nat) (buyer seller : result TradeResult)
  : option (list call * TradeResult) :=
  let body : option (list call * result TradeResult) :=
    if require_consensus self
    then
      match AIManager.get_consensus_analysis (ai_manager self) net order with
      | Some (inr analysis) =>
          Some (trade_on_analysis self analysis buyer seller)
      | Some (inl e) => Some ([], raise e)
      | None => None
      end
    else
      match AIManager.analyze_token (ai_manager self) net order with
      | Some (inr responses) =>
          match responses with
          | [] => Some ([], ret (TradeResult_failed "No AI analysis available"))
          | analysis :: _ =>
              Some (trade_on_analysis self analysis buyer seller)
          end
      | Some (inl e) => Some ([], raise e)
      | None => None
      end in
  match body with
  | Some (calls, inr trade_result) => Some (calls, trade_result)
  | Some (calls, inl e) =>
      Some (calls, TradeResult_failed ("AI trading error: " ++ str_exc e))
  | None => None
  end.

(** [get_market_sentiment]; [reply] is the exchange of the first provider. *)
Definition get_market_sentiment (self : Trader) (reply : market_reply) : dict :=
  match
    (match ai_manager self with
     | provider :: _ =>
         let* response := Base.analyze_market_conditions provider reply in
         ret [("sentiment", PyStr (recommendation response));
              ("confidence", PyFloat (confidence response));
              ("risk_level", PyFloat (risk_score response));
              ("analysis", analysis response);
              ("provider",
               dict_get (metadata response) "provider" (PyStr "unknown"))]
     | [] => ret [("error", PyStr "No AI providers available")]
     end)
  with
  | inr sentiment => sentiment
  | inl e => [("error", PyStr (str_exc e))]
  end.

End Trader.
End AIEnhancedTrader.

(** ** The prompt (base.py, [AIProvider.format_token_prompt]) *)

Module Prompt.
Section Format.

(** [str(v)], as an f-string renders a value; it is the identity on
    strings. *)
Variable py_str : pyval -> string.

(** The fields of [TokenInfo] (interfaces/core.py, outside the sources at
    hand) that the prompt reads; [platform_value] is
    [token_info.platform.value]. *)
Record TokenInfo : Type := {
  token_name : pyval;
  symbol : pyval;
  platform_value : pyval;
  mint : pyval;
  creator : pyval
}.

(** [market_data.get(key, 'N/A')], rendered. *)
Definition market_field (market_data : dict) (key : string) : string :=
  py_str (dict_get market_data key (PyStr "N/A")).

Definition format_token_prompt (token_info : TokenInfo)
    (market_data : option dict) : string :=
  let prompt :=
    nl ++ "Analyze this new token for trading potential:" ++ nl ++ nl
       ++ "Token Information:" ++ nl
       ++ "- Name: " ++ py_str (token_name token_info) ++ nl
       ++ "- Symbol: " ++ py_str (symbol token_info) ++ nl
       ++ "- Platform: " ++ py_str (platform_value token_info) ++ nl
       ++ "- Mint Address: " ++ py_str (mint token_info) ++ nl
       ++ "- Creator: " ++ py_str (creator token_info) ++ nl ++ nl in
  let prompt :=
    match market_data with
    | Some ((_ :: _) as market_data) =>
        prompt ++ nl ++ "Market Data:" ++ nl
          ++ "- Current Price: " ++ market_field market_data "price" ++ " SOL" ++ nl
          ++ "- Market Cap: " ++ market_field market_data "market_cap" ++ " SOL" ++ nl
          ++ "- Volume: " ++ market_field market_data "volume" ++ " SOL" ++ nl
          ++ "- Liquidity: " ++ market_field market_data "liquidity" ++ " SOL" ++ nl
          ++ "- Age: " ++ market_field market_data "age" ++ " seconds" ++ nl ++ nl
    | _ => prompt
    end in
  prompt ++ nl ++ "Please provide:" ++ nl
    ++ "1. Risk assessment (0.0 = low risk, 1.0 = high risk)" ++ nl
    ++ "2. Trading recommendation (buy/sell/hold)" ++ nl
    ++ "3. Confidence level (0.0 = no confidence, 1.0 = very confident)" ++ nl
    ++ "4. Key reasoning points" ++ nl
    ++ "5. Brief analysis summary" ++ nl ++ nl
    ++ "Focus on factors like token name quality, creator history, market conditions, and potential red flags."
    ++ nl.

End Format.
End Prompt.

(** ** The web handlers of the analysis (webui/server.py) *)

Module WebUI.

Record Response : Type := { status : Z; payload : pyval }.

(** What [json.dumps] accepts: the JSON values, and not an [AIResponse]
    object inside them. *)
Fixpoint json_serializable (v : pyval) : bool :=
  match v with
  | PyList items =>
      (fix all (l : list pyval) : bool :=
         match l with
         | [] => true
         | x :: l' => json_serializable x && all l'
         end) items
  | PyDict items =>
      (fix all (l : list (string * pyval)) : bool :=
         match l with
         | [] => true
         | (_, x) :: l' => json_serializable x && all l'
         end) items
  | PyResponses [] => true
  | PyResponses (_ :: _) => false
  | _ => true
  end.

(** [web.json_response(data, status=status)], which serialises [data] when
    the response is built. *)
Definition json_response (data : pyval) (status : Z) : result Response :=
  if json_serializable data
  then ret {| status := status; payload := data |}
  else raise (mkExc "TypeError"
                "Object of type AIResponse is not JSON serializable").

(** The [except Exception] of the handlers. *)
Definition or_error (c : result Response) : Response :=
  match c with
  | inr response => response
  | inl e => {| status := 500; payload := PyDict [("error", PyStr (str_exc e))] |}
  end.

Section Handlers.
Context `{PyStrOps}.

(** [data.get(...)] on the body of the request. *)
Definition request_fields (data : pyval) : result dict :=
  match data with
  | PyDict fields => ret fields
  | _ => raise (AttributeError data "get")
  end.

(** [ai_analyze_handler]; [ai_manager] is [None] when the manager could
    not be set up, [request_json] is what [await request.json()] ends
    with.  The token and the market data built from the request reach the
    backends only. *)
Definition ai_analyze_handler (ai_manager : option (list AIProvider))
    (request_json : result pyval) (net : AIManager.Net) (order : list nat)
  : option Response :=
  match ai_manager with
  | None =>
      Some (or_error
              (json_response
                 (PyDict [("error", PyStr "AI manager not available")]) 503))
  | Some providers =>
      match (let* data := request_json in request_fields data) with
      | inl e => Some (or_error (raise e))
      | inr _ =>
          match AIManager.get_consensus_analysis providers net order with
          | None => None
          | Some consensus =>
              Some (or_error
                      (let* response := consensus in
                       json_response
                         (PyDict
                            [("success", PyBool (success response));
                             ("analysis", analysis response);
                             ("recommendation", PyStr (recommendation response));
                             ("confidence", PyFloat (confidence response));
                             ("risk_score", PyFloat (risk_score response));
                             ("reasoning",
                              PyList (map PyStr (reasoning response)));
                             ("metadata", PyDict (metadata response))])
                         200))
          end
      end
  end.

(** [ai_health_handler] *)
Definition ai_health_handler (ai_manager : option (list AIProvider))
    (health_check : AIProvider -> result bool) : Response :=
  or_error
    match ai_manager with
    | None => json_response (PyDict [("providers", PyDict [])]) 200
    | Some providers =>
        let health_status := Health.check_provider_health providers health_check in
        json_response (PyDict [("providers", PyDict health_status)]) 200
    end.

End Handlers.
End WebUI.

(** ** The default configuration (webui/server.py, [setup_ai_manager]) *)

(** The configuration the web server builds its manager from (the same
    literal is the default of cli/ai_commands.py); [gemini_api_key] is
    [os.getenv("GEMINI_API_KEY")], a string or [None]. *)
Definition default_ai_config (gemini_api_key : pyval) : AIManager.Config :=
  [ ("providers",
     [ ("ollama", [("enabled", PyBool true);
                   ("url", PyStr "http://localhost:11434");
                   ("model", PyStr "llama3.2");
                   ("timeout", PyInt 30)]);
       ("lmstudio", [("enabled", PyBool true);
                     ("url", PyStr "http://localhost:1234");
                     ("model", PyStr "local-model");
                     ("timeout", PyInt 30)]);
       ("localai", [("enabled", PyBool true);
                    ("url", PyStr "http://localhost:8080");
                    ("model", PyStr "gpt-3.5-turbo");
                    ("timeout", PyInt 30)]);
       ("gemini", [("enabled", PyBool (truthy gemini_api_key));
                   ("api_key", gemini_api_key);
                   ("model", PyStr "gemini-1.5-flash");
                   ("timeout", PyInt 30)]) ]) ].

(** ** Vocabulary of the statements *)

Section Vocabulary.
Context `{PyStrOps}.

(** The three interpreters of the sources: the provider tag written into the
    metadata, the [try] block and the whole method. *)
Definition interpreters
  : list (string * (pyval -> pyval -> result AIResponse)
                 * (pyval -> pyval -> AIResponse)) :=
  [ ("gemini", Gemini.extract_fields, Gemini._parse_analysis_response);
    ("lmstudio", LMStudio.extract_fields, LMStudio._parse_analysis_response);
    ("ollama", Ollama.extract_fields, Ollama._parse_analysis_response) ].

(** The trigger phrases of the rule table, as sets. *)
Definition any_of (phrases : list string) (text_lower : string) : bool :=
  existsb (fun phrase => contains phrase text_lower) phrases.

Definition buy_trigger : string -> bool :=
  any_of ["recommend buy"; "should buy"].

Definition sell_trigger : string -> bool :=
  any_of ["recommend sell"; "should sell"; "avoid"; "skip"].

(** The range invariant of a response, with the cap of its stage on the
    reasoning list. *)
Definition well_formed (cap : nat) (r : AIResponse) : Prop :=
  (0 <= confidence r)%Q /\ (confidence r <= 1)%Q
  /\ (0 <= risk_score r)%Q /\ (risk_score r <= 1)%Q
  /\ In (recommendation r) ["buy"; "sell"; "hold"]
  /\ (length (reasoning r) <= cap)%nat.

(** The "provider" entry of the metadata is a string or is missing: what
    the report of the consensus can put in upper case. *)
Definition labelled (r : AIResponse) : bool :=
  match dict_lookup "provider" (metadata r) with
  | Some (PyStr _) => true
  | Some _ => false
  | None => true
  end.

(** The arithmetic mean of a list of numbers. *)
Definition arithmetic_mean (xs : list Q) : Q :=
  (fold_right Qplus 0 xs / inject_Z (Z.of_nat (length xs)))%Q.

(** The confidence and the risk of a response are in their declared range. *)
Definition scores_in_range (r : AIResponse) : Prop :=
  (0 <= confidence r)%Q /\ (confidence r <= 1)%Q
  /\ (0 <= risk_score r)%Q /\ (risk_score r <= 1)%Q.

(** The votes for [value]: the number of outcomes, failed ones included,
    whose recommendation is [value]. *)
Definition tally (value : string) (responses : list AIResponse) : nat :=
  count_occ string_dec (map recommendation responses) value.

(** [value] has strictly more votes than each of the other two values. *)
Definition leads (value : string) (responses : list AIResponse) : Prop :=
  forall other, In other ["buy"; "sell"; "hold"] -> other <> value ->
    (tally other responses < tally value responses)%nat.

(** [self.config.get("providers", {})] *)
Definition providers_section (config : AIManager.Config)
  : AIManager.ProviderConfigs :=
  match dict_lookup "providers" config with
  | Some provider_configs => provider_configs
  | None => []
  end.

(** The provider a kind contributes to the registry: the one its
    constructor builds from the entry under [key], when that entry is there
    and enabled and the constructor does not raise. *)
Definition active (key : string) (ctor : dict -> result AIProvider)
    (provider_configs : AIManager.ProviderConfigs) : list AIProvider :=
  match dict_lookup key provider_configs with
  | Some cfg =>
      if truthy (dict_get cfg "enabled" (PyBool false))
      then match ctor cfg with
           | inr provider => [provider]
           | inl _ => []
           end
      else []
  | None => []
  end.

End Vocabulary.

(** The unit roundoff of binary64, 2^-53. *)
Definition unit_roundoff : Q := (1 # 9007199254740992)%Q.

(** The error a summand adds to a sum of at most 10^6 numbers of [0, 1]:
    its own rounding and the rounding of the addition. *)
Definition step_error : Q := (1000005 # 9007199254740992)%Q.

(** What one turn of the compensated loop adds to the compensation term at
    most, and the error of either sum per summand. *)
Definition compensation_error : Q := (2000020 # 9007199254740992)%Q.

Definition sum_error : Q := (3000025 # 9007199254740992)%Q.

(** ** Sample inputs *)

(** Three responses: buy 0.8, buy 0.7, sell 0.6. *)
Definition two_buy_one_sell : list AIResponse :=
  [ mkAIResponse true (PyStr "Recommend buy") 0.8 "buy" 0.5 []
      [("provider", PyStr "ollama"); ("model", PyStr "llama3.2")];
    mkAIResponse true (PyStr "Should buy") 0.7 "buy" 0.5 []
      [("provider", PyStr "lmstudio"); ("model", PyStr "local-model")];
    mkAIResponse true (PyStr "Recommend sell") 0.6 "sell" 0.5 []
      [("provider", PyStr "gemini"); ("model", PyStr "gemini-1.5-flash")] ].

(** A failed response (a timeout) beside buy 0.9 and buy 0.8. *)
Definition one_failed_two_buy : list AIResponse :=
  [ AIResponse_default false (PyStr "Error: ");
    mkAIResponse true (PyStr "Recommend buy") 0.9 "buy" 0.5 []
      [("provider", PyStr "lmstudio"); ("model", PyStr "local-model")];
    mkAIResponse true (PyStr "Should buy") 0.8 "buy" 0.5 []
      [("provider", PyStr "gemini"); ("model", PyStr "gemini-1.5-flash")] ].

(** Four responses with the risks 0.2, 0.9, 0.5 and 0.8, and the same four
    in another order. *)
Definition four_risks : list AIResponse :=
  map (fun risk => mkAIResponse true (PyStr "Wait") 0.5 "hold" risk [] [])
    [0.2%Q; 0.9%Q; 0.5%Q; 0.8%Q].

Definition four_risks_reordered : list AIResponse :=
  map (fun risk => mkAIResponse true (PyStr "Wait") 0.5 "hold" risk [] [])
    [0.2%Q; 0.8%Q; 0.9%Q; 0.5%Q].

(** One vote for each value. *)
Definition one_vote_each : list AIResponse :=
  [ mkAIResponse true (PyStr "Recommend buy") 0.5 "buy" 0.5 [] [];
    mkAIResponse true (PyStr "Recommend sell") 0.5 "sell" 0.5 [] [];
    mkAIResponse true (PyStr "Wait") 0.5 "hold" 0.5 [] [] ].

(** A provider whose call raises, and a constructor that builds it. *)
Definition raising_provider : AIProvider :=
  {| Base.name := "LocalAIProvider";
     Base.config := [];
     Base.analyze_token :=
       fun _ => raise (mkExc "RuntimeError" "connection lost");
     Base.analyze_market_conditions :=
       fun _ => raise (mkExc "RuntimeError" "connection lost") |}.

Definition sample_LocalAIProvider (config : dict) : result AIProvider :=
  ret raising_provider.

(** A configuration with the Gemini entry first and without its key, and
    the same entries in another order. *)
Definition sample_config : AIManager.Config :=
  [ ("providers",
     [ ("gemini", [("enabled", PyBool true); ("api_key", PyNone);
                   ("model", PyStr "gemini-1.5-flash"); ("timeout", PyInt 30)]);
       ("localai", [("enabled", PyBool true);
                    ("url", PyStr "http://localhost:8080")]);
       ("ollama", [("enabled", PyBool true);
                   ("url", PyStr "http://localhost:11434");
                   ("model", PyStr "llama3.2"); ("timeout", PyInt 30)]) ]) ].

Definition sample_config_reordered : AIManager.Config :=
  [ ("providers",
     [ ("localai", [("enabled", PyBool true);
                    ("url", PyStr "http://localhost:8080")]);
       ("gemini", [("enabled", PyBool true); ("api_key", PyNone);
                   ("model", PyStr "gemini-1.5-flash"); ("timeout", PyInt 30)]);
       ("ollama", [("enabled", PyBool true);
                   ("url", PyStr "http://localhost:11434");
                   ("model", PyStr "llama3.2"); ("timeout", PyInt 30)]) ]) ].

(** Every backend answers with the same text. *)
Definition sample_net : AIManager.Net :=
  fun _ => Reply (PyStr "We recommend buy. Low risk.").

(** A configuration with the Ollama entry alone, and the same with an
    entry the registry does not know. *)
Definition ollama_only_config : AIManager.Config :=
  [ ("providers",
     [ ("ollama", [("enabled", PyBool true);
                   ("url", PyStr "http://localhost:11434");
                   ("model", PyStr "llama3.2"); ("timeout", PyInt 30)]) ]) ].

Definition ollama_and_unknown_config : AIManager.Config :=
  [ ("providers",
     [ ("openai", [("enabled", PyBool true); ("model", PyStr "gpt-4")]);
       ("ollama", [("enabled", PyBool true);
                   ("url", PyStr "http://localhost:11434");
                   ("model", PyStr "llama3.2"); ("timeout", PyInt 30)]) ]) ].

(** Every backend answers with a confident buy. *)
Definition confident_net : AIManager.Net :=
  fun _ => Reply (PyStr "We recommend buy with high confidence. Low risk.").

(** Traders with the default thresholds over the Ollama provider, without
    and with the consensus. *)
Definition first_provider_trader : AIEnhancedTrader.Trader :=
  {| AIEnhancedTrader.ai_manager :=
       AIManager._setup_providers (H := ascii_ops) sample_LocalAIProvider
         ollama_only_config;
     AIEnhancedTrader.min_confidence := 0.7;
     AIEnhancedTrader.max_risk_score := 0.6;
     AIEnhancedTrader.require_consensus := false |}.

Definition consensus_trader : AIEnhancedTrader.Trader :=
  {| AIEnhancedTrader.ai_manager :=
       AIManager._setup_providers (H := ascii_ops) sample_LocalAIProvider
         ollama_only_config;
     AIEnhancedTrader.min_confidence := 0.7;
     AIEnhancedTrader.max_risk_score := 0.6;
     AIEnhancedTrader.require_consensus := true |}.

(** A response whose provider label is not a string. *)
Definition unlabelled_response : AIResponse :=
  mkAIResponse true (PyStr "Recommend buy") 0.8 "buy" 0.2 []
    [("provider", PyNone)].

(** Two failed responses: the one of an adapter and the one of the
    orchestrator. *)
Definition two_failures : list AIResponse :=
  [ AIResponse_default false (PyStr "Error: timeout");
    AIResponse_meta false (PyStr "Provider LocalAIProvider failed: connection lost")
      [("provider", PyStr "LocalAIProvider");
       ("error", PyStr "connection lost")] ].

(** [str] on strings, [None], booleans and non-negative integers; the
    other values, which the sample inputs do not hold, by the name of
    their type. *)
Definition sample_py_str (v : pyval) : string :=
  match v with
  | PyStr s => s
  | PyNone => "None"
  | PyBool true => "True"
  | PyBool false => "False"
  | PyInt z => (if (z <? 0)%Z then "-" else "") ++ str_Z_abs z
  | _ => "<" ++ type_name v ++ ">"
  end.

Definition sample_token : Prompt.TokenInfo :=
  {| Prompt.token_name := PyStr "Doge Moon";
     Prompt.symbol := PyStr "DMOON";
     Prompt.platform_value := PyStr "pump_fun";
     Prompt.mint := PyStr "11111111111111111111111111111111";
     Prompt.creator := PyStr "creator-address" |}.

(** * Properties of the interpreters *)

Section InterpreterFacts.
Context `{PyStrOps}.

Lemma gemini_parse_str (model : pyval) (s : string) :
  Gemini._parse_analysis_response model (PyStr s) =
  mkAIResponse true (PyStr s)
    (Gemini.extract_confidence (lower s))
    (Gemini.extract_recommendation (lower s))
    (Gemini.extract_risk_score (lower s))
    (firstn 5 (Gemini.extract_reasoning (split newline s)))
    [("provider", PyStr "gemini"); ("model", model)].
Proof. reflexivity. Qed.

Lemma lmstudio_parse_str (model : pyval) (s : string) :
  LMStudio._parse_analysis_response model (PyStr s) =
  mkAIResponse true (PyStr s)
    (LMStudio.extract_confidence (lower s))
    (LMStudio.extract_recommendation (lower s))
    (LMStudio.extract_risk_score (lower s))
    (firstn 5 (LMStudio.extract_reasoning (split newline s)))
    [("provider", PyStr "lmstudio"); ("model", model)].
Proof. reflexivity. Qed.

Lemma ollama_parse_str (model : pyval) (s : string) :
  Ollama._parse_analysis_response model (PyStr s) =
  mkAIResponse true (PyStr s)
    (Ollama.extract_confidence (lower s))
    (Ollama.extract_recommendation (lower s))
    (Ollama.extract_risk_score (lower s))
    (firstn 5 (Ollama.extract_reasoning (split newline s)))
    [("provider", PyStr "ollama"); ("model", model)].
Proof. reflexivity. Qed.

(** The extraction of an interpreter raises exactly on a reply that is not
    a string, and then with the [AttributeError] of [text.lower()]. *)
Lemma extract_fields_raises tag extract parse (model text : pyval) :
  In (tag, extract, parse) interpreters ->
  match text with
  | PyStr _ => exists r, extract model text = inr r
  | _ => extract model text = inl (AttributeError text "lower")
  end.
Proof.
  intros Hin. simpl in Hin.
  destruct Hin as [E | [E | [E | []]]]; inversion E; subst; clear E;
    destruct text; try reflexivity; eexists; reflexivity.
Qed.

Lemma any_of_cons (p : string) (ps : list string) (t : string) :
  any_of (p :: ps) t = contains p t || any_of ps t.
Proof. reflexivity. Qed.

Lemma gemini_recommendation_table (t : string) :
  Gemini.extract_recommendation t =
  if buy_trigger t then "buy" else if sell_trigger t then "sell" else "hold".
Proof.
  unfold Gemini.extract_recommendation, buy_trigger, sell_trigger.
  rewrite !any_of_cons. unfold any_of. cbn [existsb].
  rewrite !orb_false_r.
  destruct (contains "recommend buy" t), (contains "should buy" t),
    (contains "recommend sell" t), (contains "should sell" t),
    (contains "avoid" t), (contains "skip" t); reflexivity.
Qed.

Lemma lmstudio_recommendation_table (t : string) :
  LMStudio.extract_recommendation t = Gemini.extract_recommendation t.
Proof. reflexivity. Qed.

(** A phrase that occurs in a text brings every tail of itself along. *)
Lemma prefix_app_contains (a b t : string) :
  String.prefix (a ++ b) t = true -> contains b t = true.
Proof.
  revert t. induction a as [| c a IH]; intros t Hp.
  - destruct t; simpl in *; rewrite Hp; reflexivity.
  - destruct t as [| c' t]; simpl in Hp; [discriminate |].
    destruct (ascii_dec c c'); [| discriminate].
    simpl. rewrite (IH t Hp). apply orb_true_r.
Qed.

Lemma contains_app_r (a b t : string) :
  contains (a ++ b) t = true -> contains b t = true.
Proof.
  induction t as [| c t IH]; intros Hc.
  - simpl in Hc. rewrite orb_false_r in Hc.
    now apply (prefix_app_contains a b).
  - change (contains (a ++ b) (String c t))
      with (String.prefix (a ++ b) (String c t) || contains (a ++ b) t) in Hc.
    apply orb_true_iff in Hc. destruct Hc as [Hp | Hr].
    + now apply (prefix_app_contains a b).
    + change (contains b (String c t))
        with (String.prefix b (String c t) || contains b t).
      rewrite (IH Hr). apply orb_true_r.
Qed.

Lemma extremely_risky_is_risky (t : string) :
  contains "extremely risky" t = true -> contains "risky" t = true.
Proof. apply (contains_app_r "extremely " "risky"). Qed.

(** The last branch of the risk table of the Gemini interpreter cannot be
    taken: a text with "extremely risky" has "risky", which is tested
    first.  So that interpreter never answers 0.9. *)
Lemma gemini_risk_never_extreme (t : string) :
  Gemini.extract_risk_score t <> 0.9%Q.
Proof.
  unfold Gemini.extract_risk_score.
  destruct (contains "high risk" t); [discriminate |].
  destruct (contains "risky" t) eqn:Hr; [discriminate |].
  simpl. destruct (contains "low risk" t); [discriminate |].
  destruct (contains "safe" t); [discriminate |].
  simpl. destruct (contains "extremely risky" t) eqn:He; [| discriminate].
  apply extremely_risky_is_risky in He. congruence.
Qed.

(** **** C4, as amended.  The interpreters of Gemini and LM Studio test the
    buy triggers first: a text with "recommend buy" or "should buy" gets
    "buy"; otherwise one with "recommend sell", "should sell", "avoid" or
    "skip" gets "sell"; otherwise "hold".  The interpreter of Ollama
    answers "buy" when both "buy" and "recommend" occur, otherwise "sell"
    when both "sell" and "recommend" occur, otherwise "hold". *)
Theorem recommendation_buy_triggers_first (model : pyval) (text : string) :
  recommendation (Gemini._parse_analysis_response model (PyStr text)) =
    (if buy_trigger (lower text) then "buy"
     else if sell_trigger (lower text) then "sell" else "hold")
  /\ recommendation (LMStudio._parse_analysis_response model (PyStr text)) =
    (if buy_trigger (lower text) then "buy"
     else if sell_trigger (lower text) then "sell" else "hold")
  /\ recommendation (Ollama._parse_analysis_response model (PyStr text)) =
    (if contains "buy" (lower text) && contains "recommend" (lower text)
     then "buy"
     else if contains "sell" (lower text) && contains "recommend" (lower text)
     then "sell" else "hold").
Proof.
  rewrite gemini_parse_str, lmstudio_parse_str, ollama_parse_str.
  cbn [recommendation].
  split; [apply gemini_recommendation_table | split].
  - exact (gemini_recommendation_table (lower text)).
  - reflexivity.
Qed.


(** **** C7.  When the extraction of an interpreter raises, the interpreter
    returns a successful response that carries the reply as it came, the
    default confidence, recommendation, risk and reasoning, and the message
    of the exception under "parse_error" in the metadata. *)
Theorem parse_error_keeps_success tag extract parse (model text : pyval)
    (e : PyException) :
  In (tag, extract, parse) interpreters ->
  extract model text = inl e ->
  parse model text =
    mkAIResponse true text 0.0 "hold" 0.5 []
      [("provider", PyStr tag); ("model", model);
       ("parse_error", PyStr (str_exc e))].
Proof.
  intros Hin Hraise. simpl in Hin.
  destruct Hin as [E | [E | [E | []]]]; inversion E; subst; clear E.
  - unfold Gemini._parse_analysis_response. now rewrite Hraise.
  - unfold LMStudio._parse_analysis_response. now rewrite Hraise.
  - unfold Ollama._parse_analysis_response. now rewrite Hraise.
Qed.

End InterpreterFacts.

(** C4 as the claim words it fails.  The first reply has the sell trigger
    "avoid", and the Gemini interpreter answers "buy", since it finds
    "recommend buy" first.  The second has "avoid" too and no buy trigger,
    and the Ollama interpreter, whose table knows neither, answers "hold". *)
Lemma gemini_buy_despite_sell_trigger :
  (sell_trigger (lower (PyStrOps := ascii_ops)
                   "We recommend buy, but avoid leverage") = true
   /\ recommendation
        (Gemini._parse_analysis_response (H := ascii_ops)
           (PyStr "gemini-1.5-flash")
           (PyStr "We recommend buy, but avoid leverage")) = "buy")
  /\ (sell_trigger (lower (PyStrOps := ascii_ops) "Avoid this token") = true
      /\ buy_trigger (lower (PyStrOps := ascii_ops) "Avoid this token") = false
      /\ recommendation
           (Ollama._parse_analysis_response (H := ascii_ops)
              (PyStr "llama3.2") (PyStr "Avoid this token")) = "hold").
Proof. repeat split; reflexivity. Qed.


(** The slip behind the dead branch: on "extremely risky" the Gemini and
    LM Studio interpreters answer 0.8, the Ollama interpreter 0.9. *)
Lemma extremely_risky_scores :
  risk_score (Gemini._parse_analysis_response (H := ascii_ops)
                (PyStr "m") (PyStr "Extremely risky")) = 0.8%Q
  /\ risk_score (LMStudio._parse_analysis_response (H := ascii_ops)
                   (PyStr "m") (PyStr "Extremely risky")) = 0.8%Q
  /\ risk_score (Ollama._parse_analysis_response (H := ascii_ops)
                   (PyStr "m") (PyStr "Extremely risky")) = 0.9%Q.
Proof. repeat split; reflexivity. Qed.


Lemma parse_error_keeps_success_witness :
  Gemini._parse_analysis_response (H := ascii_ops) (PyStr "m") PyNone =
    mkAIResponse true PyNone 0.0 "hold" 0.5 []
      [("provider", PyStr "gemini"); ("model", PyStr "m");
       ("parse_error", PyStr "'NoneType' object has no attribute 'lower'")].
Proof.
  apply (parse_error_keeps_success (H := ascii_ops) "gemini"
           (Gemini.extract_fields (H := ascii_ops))
           (Gemini._parse_analysis_response (H := ascii_ops))
           (PyStr "m") PyNone (AttributeError PyNone "lower")).
  - left. reflexivity.
  - reflexivity.
Defined.

(** * Properties of [gather] *)

Section GatherFacts.
Context {A : Type}.
Implicit Types (tasks : list A) (slots : list (option A)) (order : list nat).

Lemma complete_length tasks slots i :
  length (complete tasks slots i) = length slots.
Proof.
  unfold complete. destruct (tasks !! i); [apply length_insert | reflexivity].
Qed.

Lemma fold_complete_length tasks order slots :
  length (fold_left (complete tasks) order slots) = length slots.
Proof.
  revert slots. induction order as [| j order IH]; intros slots; simpl.
  - reflexivity.
  - rewrite IH. apply complete_length.
Qed.

(** A filled slot stays as it is, whichever task finishes next. *)
Lemma complete_keeps tasks slots i j (t : A) :
  tasks !! i = Some t ->
  slots !! i = Some (Some t) ->
  complete tasks slots j !! i = Some (Some t).
Proof.
  intros Ht Hs. unfold complete.
  destruct (tasks !! j) as [u |] eqn:Hj; [| exact Hs].
  destruct (decide (j = i)) as [-> | Hne].
  - rewrite list_lookup_insert_eq by (eapply lookup_lt_Some; exact Hs).
    congruence.
  - rewrite list_lookup_insert_ne by exact Hne. exact Hs.
Qed.

Lemma fold_complete_keeps tasks order slots i (t : A) :
  tasks !! i = Some t ->
  slots !! i = Some (Some t) ->
  fold_left (complete tasks) order slots !! i = Some (Some t).
Proof.
  intros Ht. revert slots.
  induction order as [| j order IH]; intros slots Hs; simpl.
  - exact Hs.
  - apply IH. now apply complete_keeps.
Qed.

(** A task that finishes at some point of the run has its slot filled with
    its own outcome at the end. *)
Lemma fold_complete_fills tasks order slots i (t : A) :
  In i order ->
  tasks !! i = Some t ->
  length slots = length tasks ->
  fold_left (complete tasks) order slots !! i = Some (Some t).
Proof.
  intros Hin Ht. revert slots.
  induction order as [| j order IH]; intros slots Hlen; simpl.
  - destruct Hin.
  - destruct (decide (j = i)) as [-> | Hne].
    + apply fold_complete_keeps; [exact Ht |].
      unfold complete. rewrite Ht.
      apply list_lookup_insert_eq. rewrite Hlen.
      eapply lookup_lt_Some. exact Ht.
    + apply IH.
      * destruct Hin as [E | Hin]; [contradiction | exact Hin].
      * rewrite complete_length. exact Hlen.
Qed.

Lemma all_filled_lookup slots (l : list A) :
  length slots = length l ->
  (forall i t, l !! i = Some t -> slots !! i = Some (Some t)) ->
  all_filled slots = Some l.
Proof.
  revert l. induction slots as [| s slots IH]; intros [| a l] Hlen Hall;
    simpl in Hlen; try discriminate.
  - reflexivity.
  - pose proof (Hall 0%nat a eq_refl) as H0. simpl in H0.
    injection H0 as ->. simpl.
    rewrite (IH l); [reflexivity | lia |].
    intros i t Hi. exact (Hall (S i) t Hi).
Qed.

(** When every task finishes, in whatever order, [gather] returns the
    outcomes in the order of the tasks. *)
Lemma gather_task_order tasks order :
  Permutation order (seq 0 (length tasks)) ->
  gather tasks order = Some tasks.
Proof.
  intros Hperm. unfold gather. apply all_filled_lookup.
  - rewrite fold_complete_length. apply length_replicate.
  - intros i t Ht. apply fold_complete_fills.
    + apply Permutation_in with (l := seq 0 (length tasks)).
      * symmetry. exact Hperm.
      * apply in_seq. pose proof (lookup_lt_Some _ _ _ Ht). lia.
    + exact Ht.
    + apply length_replicate.
Qed.

(** A task that never finishes keeps [gather] waiting. *)
Lemma all_filled_None slots i :
  slots !! i = Some None -> all_filled slots = None.
Proof.
  revert i. induction slots as [| s slots IH]; intros i Hi.
  - destruct i; discriminate.
  - destruct i as [| i]; simpl in Hi.
    + injection Hi as ->. reflexivity.
    + simpl. destruct s; [| reflexivity]. now rewrite (IH i Hi).
Qed.

Lemma fold_complete_untouched tasks order slots i :
  ~ In i order ->
  fold_left (complete tasks) order slots !! i = slots !! i.
Proof.
  revert slots. induction order as [| j order IH]; intros slots Hnot; simpl.
  - reflexivity.
  - rewrite IH by (intros Hin; apply Hnot; right; exact Hin).
    unfold complete. destruct (tasks !! j); [| reflexivity].
    apply list_lookup_insert_ne. intros ->. apply Hnot. left. reflexivity.
Qed.

Lemma gather_waits tasks order i :
  (i < length tasks)%nat -> ~ In i order -> gather tasks order = None.
Proof.
  intros Hlt Hnot. unfold gather. apply (all_filled_None _ i).
  rewrite fold_complete_untouched by exact Hnot.
  now apply lookup_replicate_2.
Qed.

End GatherFacts.

(** * Properties of the orchestrator *)

Section OrchestratorFacts.
Context `{PyStrOps}.

(** [_safe_analyze_token] always returns a response: the one of the
    provider, or a failure that names the provider. *)
Lemma safe_analyze_token_returns (provider : AIProvider) (reply : backend_reply) :
  exists r, AIManager._safe_analyze_token provider reply = inr r.
Proof.
  unfold AIManager._safe_analyze_token, try_except.
  destruct (Base.analyze_token provider reply); eexists; reflexivity.
Qed.

Lemma safe_analyze_token_catches (provider : AIProvider) (reply : backend_reply)
    (e : PyException) :
  Base.analyze_token provider reply = inl e ->
  AIManager._safe_analyze_token provider reply =
    inr (mkAIResponse false
           (PyStr ("Provider " ++ Base.name provider ++ " failed: " ++ str_exc e))
           0.0 "hold" 0.5 []
           [("provider", PyStr (Base.name provider)); ("error", PyStr (str_exc e))]).
Proof.
  intros He. unfold AIManager._safe_analyze_token. rewrite He. reflexivity.
Qed.

Lemma safe_analyze_token_passes (provider : AIProvider) (reply : backend_reply)
    (r : AIResponse) :
  Base.analyze_token provider reply = inr r ->
  AIManager._safe_analyze_token provider reply = inr r.
Proof.
  intros Hr. unfold AIManager._safe_analyze_token. rewrite Hr. reflexivity.
Qed.

(** The responses built by the sources carry a string as provider label,
    or none. *)
Lemma interpreters_labelled tag extract parse (model text : pyval) :
  In (tag, extract, parse) interpreters ->
  labelled (parse model text) = true.
Proof.
  intros Hin. simpl in Hin.
  destruct Hin as [E | [E | [E | []]]]; inversion E; subst; clear E;
    destruct text; reflexivity.
Qed.

Lemma adapters_labelled (model : pyval) (reply : backend_reply) (r : AIResponse) :
  Gemini.analyze_token model reply = inr r
  \/ LMStudio.analyze_token model reply = inr r
  \/ Ollama.analyze_token model reply = inr r ->
  labelled r = true.
Proof.
  intros [Hr | [Hr | Hr]]; destruct reply as [e | t | | text];
    try (injection Hr as <-; reflexivity);
    injection Hr as <-; destruct text; reflexivity.
Qed.

Lemma safe_analyze_token_labelled (provider : AIProvider)
    (reply : backend_reply) (r : AIResponse) :
  (forall r', Base.analyze_token provider reply = inr r' -> labelled r' = true) ->
  AIManager._safe_analyze_token provider reply = inr r ->
  labelled r = true.
Proof.
  intros Hlab Hr. unfold AIManager._safe_analyze_token, try_except in Hr.
  destruct (Base.analyze_token provider reply) as [e | r'] eqn:Hp.
  - injection Hr as <-. reflexivity.
  - injection Hr as <-. now apply Hlab.
Qed.

(** No task of the fan-out ends with an exception, so the loop after
    [gather] keeps one response per provider, in the order of the
    providers. *)
Lemma valid_responses_safe (net : AIManager.Net) (providers : list AIProvider) :
  Forall2
    (fun provider outcome =>
       AIManager._safe_analyze_token provider (net (Base.name provider))
       = inr outcome)
    providers
    (AIManager.valid_responses
       (map (fun provider =>
               AIManager._safe_analyze_token provider (net (Base.name provider)))
            providers)).
Proof.
  induction providers as [| p providers IH]; simpl.
  - constructor.
  - destruct (safe_analyze_token_returns p (net (Base.name p))) as [r Hr].
    rewrite Hr. constructor; [exact Hr | exact IH].
Qed.

Lemma analyze_token_outcomes (providers : list AIProvider)
    (net : AIManager.Net) (order : list nat) :
  Permutation order (seq 0 (length providers)) ->
  exists outcomes,
    AIManager.analyze_token providers net order = Some (inr outcomes)
    /\ Forall2
         (fun provider outcome =>
            AIManager._safe_analyze_token provider (net (Base.name provider))
            = inr outcome)
         providers outcomes.
Proof.
  intros Hperm. destruct providers as [| p providers].
  - exists []. split; [reflexivity | constructor].
  - eexists. split; [| apply valid_responses_safe].
    unfold AIManager.analyze_token.
    rewrite gather_task_order; [reflexivity |].
    rewrite length_map. exact Hperm.
Qed.

(** **** C3.  With N providers registered, and their N tasks finishing in
    any order, [analyze_token] returns (it does not raise) a list of N
    responses, the i-th of which is the outcome of the i-th registered
    provider's own [analyze_token] on the reply of its backend: the response
    that call returns, or, when that call raises, the failed response that
    names the provider and carries the message of the exception.  With no
    provider the list is empty. *)
Theorem analyze_token_registration_order (providers : list AIProvider)
    (net : AIManager.Net) (order : list nat) :
  Permutation order (seq 0 (length providers)) ->
  exists outcomes,
    AIManager.analyze_token providers net order = Some (inr outcomes)
    /\ length outcomes = length providers
    /\ (forall i provider, providers !! i = Some provider ->
          exists outcome,
            outcomes !! i = Some outcome
            /\ (forall response,
                  Base.analyze_token provider (net (Base.name provider))
                  = inr response ->
                  outcome = response)
            /\ (forall e,
                  Base.analyze_token provider (net (Base.name provider))
                  = inl e ->
                  outcome =
                  mkAIResponse false
                    (PyStr ("Provider " ++ Base.name provider ++ " failed: "
                              ++ str_exc e))
                    0.0 "hold" 0.5 []
                    [("provider", PyStr (Base.name provider));
                     ("error", PyStr (str_exc e))]))
    /\ (providers = [] -> outcomes = []).
Proof.
  intros Hperm.
  destruct (analyze_token_outcomes providers net order Hperm)
    as (outcomes & Hret & Hall).
  exists outcomes. split; [exact Hret |].
  split; [symmetry; eapply Forall2_length; exact Hall |].
  split.
  - intros i provider Hi.
    destruct (Forall2_lookup_l _ _ _ _ _ Hall Hi) as (outcome & Ho & Hs).
    exists outcome. split; [exact Ho |]. split.
    + intros response Hr.
      rewrite (safe_analyze_token_passes _ _ _ Hr) in Hs. congruence.
    + intros e He.
      rewrite (safe_analyze_token_catches _ _ _ He) in Hs. congruence.
  - intros ->. now inversion Hall.
Qed.

End OrchestratorFacts.

(** * Properties of the binary64 arithmetic *)

Section FloatFacts.
Local Open Scope Q_scope.

(** Rounding to the nearest integer moves a number by a half at most. *)
Lemma round_half_even_error (q : Q) :
  Qabs (inject_Z (round_half_even q) - q) <= 1 # 2.
Proof.
  unfold round_half_even.
  pose proof (Qfloor_le q) as Hlo. pose proof (Qlt_floor q) as Hhi.
  rewrite inject_Z_plus in Hhi. change (inject_Z 1) with 1 in Hhi.
  apply Qabs_Qle_condition.
  destruct (Qcompare_spec (q - inject_Z (Qfloor q)) (1 # 2)) as [E | E | E].
  - destruct (Z.even (Qfloor q)).
    + split; lra.
    + rewrite inject_Z_plus. change (inject_Z 1) with 1. split; lra.
  - split; lra.
  - rewrite inject_Z_plus. change (inject_Z 1) with 1. split; lra.
Qed.

Lemma two_power_pos (k : Z) : 0 < 2 ^ k.
Proof. apply Qpower_0_lt. reflexivity. Qed.

(** [binade q] is the exponent of the binade of [q]. *)
Lemma binade_le (q : Q) : 0 < q -> 2 ^ binade q <= q.
Proof.
  intros Hq. unfold binade.
  destruct (Qle_bool (2 ^ (Z.log2 (Qnum q) - Z.log2 (Z.pos (Qden q)))) q) eqn:E.
  - now apply Qle_bool_iff.
  - clear E. destruct q as [a b]. cbn [Qnum Qden].
    assert (Ha : (0 < a)%Z).
    { unfold Qlt in Hq. simpl in Hq. lia. }
    destruct (Z.log2_spec a Ha) as [Hla _].
    destruct (Z.log2_spec (Z.pos b) ltac:(lia)) as [_ Hlb].
    pose proof (Z.log2_nonneg a) as Hna.
    pose proof (Z.log2_nonneg (Z.pos b)) as Hnb.
    set (la := Z.log2 a) in *. set (lb := Z.log2 (Z.pos b)) in *.
    rewrite (Qmake_Qdiv a b).
    apply Qle_shift_div_l; [reflexivity |].
    assert (Hpa : 2 ^ la <= inject_Z a).
    { rewrite <- (Zpower_Qpower 2 la Hna). now rewrite <- Zle_Qle. }
    assert (Hpb : inject_Z (Z.pos b) <= 2 ^ (lb + 1)).
    { rewrite <- (Zpower_Qpower 2 (lb + 1)) by lia. rewrite <- Zle_Qle.
      unfold Z.succ in Hlb. lia. }
    assert (Hsplit : 2 ^ la == 2 ^ (la - lb - 1) * 2 ^ (lb + 1)).
    { rewrite <- Qpower_plus by discriminate. f_equiv. lia. }
    pose proof (two_power_pos (la - lb - 1)) as Hpos.
    apply Qle_trans with (2 ^ (la - lb - 1) * 2 ^ (lb + 1)).
    + apply Qmult_le_l; [exact Hpos | exact Hpb].
    + rewrite <- Hsplit. exact Hpa.
Qed.

Lemma binade_lt (q : Q) : 0 < q -> q < 2 ^ (binade q + 1).
Proof.
  intros Hq. unfold binade.
  destruct (Qle_bool (2 ^ (Z.log2 (Qnum q) - Z.log2 (Z.pos (Qden q)))) q) eqn:E.
  - clear E. destruct q as [a b]. cbn [Qnum Qden].
    assert (Ha : (0 < a)%Z).
    { unfold Qlt in Hq. simpl in Hq. lia. }
    destruct (Z.log2_spec a Ha) as [_ Hla].
    destruct (Z.log2_spec (Z.pos b) ltac:(lia)) as [Hlb _].
    pose proof (Z.log2_nonneg a) as Hna.
    pose proof (Z.log2_nonneg (Z.pos b)) as Hnb.
    set (la := Z.log2 a) in *. set (lb := Z.log2 (Z.pos b)) in *.
    rewrite (Qmake_Qdiv a b).
    apply Qlt_shift_div_r; [reflexivity |].
    assert (Hpa : inject_Z a < 2 ^ (la + 1)).
    { rewrite <- (Zpower_Qpower 2 (la + 1)) by lia. rewrite <- Zlt_Qlt.
      unfold Z.succ in Hla. lia. }
    assert (Hpb : 2 ^ lb <= inject_Z (Z.pos b)).
    { rewrite <- (Zpower_Qpower 2 lb Hnb). now rewrite <- Zle_Qle. }
    assert (Hsplit : 2 ^ (la + 1) == 2 ^ (la - lb + 1) * 2 ^ lb).
    { rewrite <- Qpower_plus by discriminate. f_equiv. lia. }
    pose proof (two_power_pos (la - lb + 1)) as Hpos.
    apply Qlt_le_trans with (2 ^ (la + 1)); [exact Hpa |].
    rewrite Hsplit. apply Qmult_le_l; [exact Hpos | exact Hpb].
  - apply Qnot_le_lt. intros Hle. apply Qle_bool_iff in Hle.
    replace (Z.log2 (Qnum q) - Z.log2 (Z.pos (Qden q)) - 1 + 1)%Z
      with (Z.log2 (Qnum q) - Z.log2 (Z.pos (Qden q)))%Z in Hle by lia.
    congruence.
Qed.

Lemma ulp_pos (q : Q) : 0 < ulp q.
Proof. apply two_power_pos. Qed.

(** Half a unit in the last place is at most the unit roundoff times the
    number, from the smallest normal number on; below, it is the fixed
    2^-1075. *)
Lemma half_ulp_le (q : Q) :
  0 < q -> (1 # 2) * ulp q <= unit_roundoff * (q + 1).
Proof.
  intros Hq. unfold ulp. pose proof (binade_le q Hq) as Hb.
  destruct (Z.max_spec (binade q) (-1022)) as [[_ ->] | [_ ->]].
  - assert (E : (1 # 2) * 2 ^ (-1022 - 52) <= unit_roundoff * 1).
    { apply Qle_bool_imp_le. vm_compute. reflexivity. }
    assert (0 <= unit_roundoff * q).
    { apply Qmult_le_0_compat; [discriminate | lra]. }
    lra.
  - replace (binade q - 52)%Z with (binade q + (- 52))%Z by lia.
    rewrite Qpower_plus by discriminate.
    change (2 ^ (-52)) with (1 # 4503599627370496).
    unfold unit_roundoff.
    set (p := 2 ^ binade q) in *. lra.
Qed.

(** Rounding moves a positive number by half a unit in the last place at
    most. *)
Lemma float_of_positive_error (q : Q) :
  0 < q -> Qabs (float_of_positive q - q) <= unit_roundoff * (q + 1).
Proof.
  intros Hq. unfold float_of_positive.
  pose proof (ulp_pos q) as Hu.
  pose proof (round_half_even_error (q / ulp q)) as Hr.
  assert (E : inject_Z (round_half_even (q / ulp q)) * ulp q - q
              == (inject_Z (round_half_even (q / ulp q)) - q / ulp q) * ulp q).
  { field. lra. }
  rewrite E, Qabs_Qmult, (Qabs_pos (ulp q)) by lra.
  apply Qle_trans with ((1 # 2) * ulp q).
  - apply Qmult_le_compat_r; [exact Hr | lra].
  - now apply half_ulp_le.
Qed.

(** The error of one rounding. *)
Lemma float_error (q : Q) :
  Qabs (float q - q) <= unit_roundoff * (Qabs q + 1).
Proof.
  unfold float. destruct q as [a b]. cbn [Qnum]. destruct a as [| a | a].
  - apply Qle_bool_imp_le. reflexivity.
  - rewrite (Qabs_pos (Z.pos a # b)) by discriminate.
    apply float_of_positive_error. reflexivity.
  - rewrite (Qabs_neg (Z.neg a # b)) by discriminate.
    assert (E : - float_of_positive (- (Z.neg a # b)) - (Z.neg a # b)
                == - (float_of_positive (- (Z.neg a # b)) - - (Z.neg a # b)))
      by ring.
    rewrite E, Qabs_opp. apply float_of_positive_error. reflexivity.
Qed.

Lemma round_half_even_integer (q : Q) (z : Z) :
  q == inject_Z z -> round_half_even q = z.
Proof.
  intros E. unfold round_half_even.
  rewrite (Qfloor_comp _ _ E), Qfloor_Z.
  assert (Hlt : q - inject_Z z < 1 # 2) by (rewrite E; lra).
  destruct (Qcompare_spec (q - inject_Z z) (1 # 2)) as [E' | _ | E'];
    [rewrite E' in Hlt | reflexivity |]; lra.
Qed.

(** An integer below 2^53 is a float: [float(n)] is exact. *)
Lemma float_integer (z : Z) :
  (0 <= z < 2 ^ 53)%Z -> float (inject_Z z) == inject_Z z.
Proof.
  intros [Hlo Hhi]. unfold float, inject_Z. cbn [Qnum].
  destruct z as [| p | p]; [reflexivity | | lia].
  fold (inject_Z (Z.pos p)). set (q := inject_Z (Z.pos p)).
  assert (Hq : 0 < q) by reflexivity.
  assert (Hq1 : 1 <= q).
  { unfold q. change 1 with (inject_Z 1). rewrite <- Zle_Qle. lia. }
  assert (Hq2 : q < 2 ^ 53).
  { unfold q. change (2 ^ 53) with (inject_Z (2 ^ 53)). now rewrite <- Zlt_Qlt. }
  pose proof (binade_le q Hq) as Hb. pose proof (binade_lt q Hq) as Hb'.
  assert (He : (0 <= binade q <= 52)%Z).
  { split.
    - destruct (Z_lt_le_dec (binade q) 0) as [Hneg |]; [| assumption].
      assert (2 ^ (binade q + 1) <= 2 ^ 0)
        by (apply Qpower_le_compat_l; [lia | discriminate]).
      change (2 ^ 0) with 1 in *. lra.
    - destruct (Z_lt_le_dec 52 (binade q)) as [Hbig |]; [| lia].
      assert (2 ^ 53 <= 2 ^ binade q)
        by (apply Qpower_le_compat_l; [lia | discriminate]).
      lra. }
  unfold float_of_positive, ulp.
  rewrite Z.max_l by lia.
  set (m := (52 - binade q)%Z).
  assert (Hm : (0 <= m)%Z) by (unfold m; lia).
  assert (Hu : 2 ^ (binade q - 52) == / inject_Z (2 ^ m)).
  { replace (binade q - 52)%Z with (- m)%Z by (unfold m; lia).
    rewrite Qpower_opp, (Zpower_Qpower 2 m Hm). reflexivity. }
  assert (Hp : 0 < inject_Z (2 ^ m)).
  { rewrite (Zpower_Qpower 2 m Hm). apply two_power_pos. }
  assert (Hint : q / 2 ^ (binade q - 52) == inject_Z (Z.pos p * 2 ^ m)).
  { rewrite Hu, inject_Z_mult. fold q. field. lra. }
  rewrite (round_half_even_integer _ _ Hint), Hu, inject_Z_mult. fold q.
  field. lra.
Qed.

Lemma length_cons_Q {A : Type} (x : A) (xs : list A) :
  inject_Z (Z.of_nat (length (x :: xs)))
  == inject_Z (Z.of_nat (length xs)) + 1.
Proof.
  cbn [length]. rewrite Nat2Z.inj_succ. unfold Z.succ.
  rewrite inject_Z_plus. reflexivity.
Qed.

Lemma length_nonneg_Q {A : Type} (xs : list A) :
  0 <= inject_Z (Z.of_nat (length xs)).
Proof. change 0 with (inject_Z 0). rewrite <- Zle_Qle. lia. Qed.

Lemma float_unit_error (x : Q) :
  0 <= x -> x <= 1 ->
  - (2 * unit_roundoff) <= float x - x /\ float x - x <= 2 * unit_roundoff.
Proof.
  intros H0 H1. pose proof (float_error x) as He.
  rewrite (Qabs_pos x H0) in He.
  apply Qabs_Qle_condition in He. unfold unit_roundoff in *. lra.
Qed.

(** One addition of the sum: after [k] summands of [0, 1] the rounded sum
    [s] is within [k * step_error] of the exact sum [S]. *)
Lemma float_add_step (s S k x : Q) :
  0 <= k -> k <= 999999 ->
  0 <= S -> S <= k ->
  0 <= x -> x <= 1 ->
  - (k * step_error) <= s - S -> s - S <= k * step_error ->
  - ((k + 1) * step_error) <= float_add s (float x) - (S + x)
  /\ float_add s (float x) - (S + x) <= (k + 1) * step_error.
Proof.
  intros Hk0 Hk HS0 HS Hx0 Hx1 Hlo Hhi.
  destruct (float_unit_error x Hx0 Hx1) as [Hxlo Hxhi].
  unfold float_add.
  pose proof (float_error (s + float x)) as He.
  set (t := s + float x) in *.
  assert (Ht : Qabs t <= k + 2).
  { apply Qabs_Qle_condition. unfold t, step_error, unit_roundoff in *.
    split; lra. }
  apply Qabs_Qle_condition in He.
  set (a := Qabs t) in *. set (f := float t) in *.
  assert (Et : t - (S + x) == (s - S) + (float x - x)) by (unfold t; ring).
  set (d := float x - x) in *. set (d' := s - S) in *.
  assert (Ef : f - (S + x) == (f - t) + (t - (S + x))) by ring.
  rewrite Ef, Et. unfold step_error, unit_roundoff in *. split; lra.
Qed.

Lemma py_sum64_from (xs : list Q) :
  Forall (fun x => 0 <= x /\ x <= 1) xs ->
  forall s S k : Q,
    0 <= k -> k + inject_Z (Z.of_nat (length xs)) <= 1000000 ->
    0 <= S -> S <= k ->
    - (k * step_error) <= s - S -> s - S <= k * step_error ->
    let n := k + inject_Z (Z.of_nat (length xs)) in
    let total := S + fold_right Qplus 0 xs in
    let sum := fold_left float_add (map float xs) s in
    0 <= total /\ total <= n
    /\ - (n * step_error) <= sum - total /\ sum - total <= n * step_error.
Proof.
  induction 1 as [| x xs [Hx0 Hx1] _ IH]; intros s S k Hk0 Hk HS0 HS Hlo Hhi.
  - cbn [length map fold_left fold_right]. change (inject_Z (Z.of_nat 0)) with 0.
    cbn zeta. repeat split; lra.
  - rewrite length_cons_Q in Hk.
    pose proof (length_nonneg_Q xs) as Hlen.
    destruct (float_add_step s S k x Hk0 ltac:(lra) HS0 HS Hx0 Hx1 Hlo Hhi)
      as [Hlo' Hhi'].
    specialize (IH (float_add s (float x)) (S + x) (k + 1)
                  ltac:(lra) ltac:(lra) ltac:(lra) ltac:(lra) Hlo' Hhi').
    cbn zeta in IH. cbn zeta.
    rewrite length_cons_Q. cbn [map fold_left fold_right].
    set (sum := fold_left float_add (map float xs) (float_add s (float x))) in *.
    set (rest := fold_right Qplus 0 xs) in *.
    set (len := inject_Z (Z.of_nat (length xs))) in *.
    destruct IH as (I1 & I2 & I3 & I4).
    assert (E1 : S + (x + rest) == S + x + rest) by ring.
    assert (E2 : k + (len + 1) == k + 1 + len) by ring.
    rewrite E1, E2. repeat split; assumption.
Qed.

Lemma float_error_within (z b : Q) :
  - b <= z -> z <= b ->
  - (unit_roundoff * (b + 1)) <= float z - z
  /\ float z - z <= unit_roundoff * (b + 1).
Proof.
  intros Hlo Hhi. pose proof (float_error z) as He.
  assert (Ha : Qabs z <= b) by (apply Qabs_Qle_condition; split; assumption).
  apply Qabs_Qle_condition in He. set (a := Qabs z) in *.
  unfold unit_roundoff in *. split; lra.
Qed.

(** One turn of the compensated loop: the compensation stays small. *)
Lemma compensation_step (f c S k x : Q) :
  0 <= k -> k <= 999999 ->
  0 <= S -> S <= k ->
  0 <= x -> x <= 1 ->
  - (k * step_error) <= f - S -> f - S <= k * step_error ->
  - (k * compensation_error) <= c -> c <= k * compensation_error ->
  let x' := float x in
  let t := float_add f x' in
  let c' :=
    if Qle_bool (Qabs x') (Qabs f)
    then float_add c (float_add (float_sub f t) x')
    else float_add c (float_add (float_sub x' t) f) in
  - ((k + 1) * compensation_error) <= c' /\ c' <= (k + 1) * compensation_error.
Proof.
  intros Hk0 Hk HS0 HS Hx0 Hx1 Hlo Hhi Hclo Hchi. cbn zeta.
  destruct (float_unit_error x Hx0 Hx1) as [Hxlo Hxhi].
  set (x' := float x) in *.
  unfold float_add, float_sub.
  destruct (float_error_within (f + x') (k + 3)) as [Htlo Hthi];
    [unfold step_error, unit_roundoff in *; lra
    | unfold step_error, unit_roundoff in *; lra |].
  set (t := float (f + x')) in *.
  destruct (Qle_bool (Qabs x') (Qabs f)).
  - destruct (float_error_within (f - t) 2) as [H1lo H1hi];
      [unfold step_error, unit_roundoff in *; lra
      | unfold step_error, unit_roundoff in *; lra |].
    set (d1 := float (f - t)) in *.
    destruct (float_error_within (d1 + x') 1) as [H2lo H2hi];
      [unfold step_error, unit_roundoff in *; lra
      | unfold step_error, unit_roundoff in *; lra |].
    set (d2 := float (d1 + x')) in *.
    destruct (float_error_within (c + d2) 1) as [H3lo H3hi];
      [unfold step_error, compensation_error, unit_roundoff in *; lra
      | unfold step_error, compensation_error, unit_roundoff in *; lra |].
    set (c' := float (c + d2)) in *.
    unfold step_error, compensation_error, unit_roundoff in *. split; lra.
  - destruct (float_error_within (x' - t) (k + 3)) as [H1lo H1hi];
      [unfold step_error, unit_roundoff in *; lra
      | unfold step_error, unit_roundoff in *; lra |].
    set (d1 := float (x' - t)) in *.
    destruct (float_error_within (d1 + f) 1) as [H2lo H2hi];
      [unfold step_error, unit_roundoff in *; lra
      | unfold step_error, unit_roundoff in *; lra |].
    set (d2 := float (d1 + f)) in *.
    destruct (float_error_within (c + d2) 1) as [H3lo H3hi];
      [unfold step_error, compensation_error, unit_roundoff in *; lra
      | unfold step_error, compensation_error, unit_roundoff in *; lra |].
    set (c' := float (c + d2)) in *.
    unfold step_error, compensation_error, unit_roundoff in *. split; lra.
Qed.

Lemma compensated_loop_from (xs : list Q) :
  Forall (fun x => 0 <= x /\ x <= 1) xs ->
  forall f c S k : Q,
    0 <= k -> k + inject_Z (Z.of_nat (length xs)) <= 1000000 ->
    0 <= S -> S <= k ->
    - (k * step_error) <= f - S -> f - S <= k * step_error ->
    - (k * compensation_error) <= c -> c <= k * compensation_error ->
    let n := k + inject_Z (Z.of_nat (length xs)) in
    let total := S + fold_right Qplus 0 xs in
    let sum := compensated_loop (map float xs) f c in
    0 <= total /\ total <= n
    /\ - ((n + 1) * sum_error) <= sum - total
    /\ sum - total <= (n + 1) * sum_error.
Proof.
  induction 1 as [| x xs [Hx0 Hx1] _ IH];
    intros f c S k Hk0 Hk HS0 HS Hlo Hhi Hclo Hchi.
  - cbn [length map compensated_loop fold_right] in *.
    change (inject_Z (Z.of_nat 0)) with 0 in *. cbn zeta.
    destruct (Qeq_bool c 0).
    + unfold step_error, sum_error in *. repeat split; lra.
    + unfold float_add.
      destruct (float_error_within (f + c) (k + 2)) as [Hrlo Hrhi];
        [unfold step_error, compensation_error in *; lra
        | unfold step_error, compensation_error in *; lra |].
      set (r := float (f + c)) in *.
      unfold step_error, compensation_error, sum_error, unit_roundoff in *.
      repeat split; lra.
  - rewrite length_cons_Q in Hk.
    pose proof (length_nonneg_Q xs) as Hlen.
    destruct (float_add_step f S k x Hk0 ltac:(lra) HS0 HS Hx0 Hx1 Hlo Hhi)
      as [Hlo' Hhi'].
    destruct (compensation_step f c S k x Hk0 ltac:(lra) HS0 HS Hx0 Hx1
                Hlo Hhi Hclo Hchi) as [Hclo' Hchi'].
    cbn zeta in Hclo', Hchi'.
    specialize (IH _ _ (S + x) (k + 1)
                  ltac:(lra) ltac:(lra) ltac:(lra) ltac:(lra)
                  Hlo' Hhi' Hclo' Hchi').
    cbn zeta in IH. cbn zeta.
    rewrite length_cons_Q. cbn [map compensated_loop fold_right].
    match type of IH with
    | context [compensated_loop ?l ?a ?b] =>
        set (sum := compensated_loop l a b) in *
    end.
    set (rest := fold_right Qplus 0 xs) in *.
    set (len := inject_Z (Z.of_nat (length xs))) in *.
    destruct IH as (I1 & I2 & I3 & I4).
    assert (E1 : S + (x + rest) == S + x + rest) by ring.
    assert (E2 : k + (len + 1) == k + 1 + len) by ring.
    rewrite E1, E2. repeat split; assumption.
Qed.

(** Either loop sums at most 10^6 numbers of [0, 1] with an error that the
    division by their number brings below 10^-9. *)
Lemma py_sum64_error (loop : summation) (xs : list Q) :
  Forall (fun x => 0 <= x /\ x <= 1) xs ->
  inject_Z (Z.of_nat (length xs)) <= 1000000 ->
  let n := inject_Z (Z.of_nat (length xs)) in
  let total := fold_right Qplus 0 xs in
  let sum := AIManager.py_sum64 loop (map float xs) in
  0 <= total /\ total <= n
  /\ - ((n + 1) * sum_error) <= sum - total
  /\ sum - total <= (n + 1) * sum_error.
Proof.
  intros Hall Hlen. cbn zeta. destruct loop.
  - pose proof (py_sum64_from xs Hall 0 0 0 ltac:(lra) ltac:(lra) ltac:(lra)
                  ltac:(lra) ltac:(lra) ltac:(lra)) as Hsum.
    cbn zeta in Hsum. unfold AIManager.py_sum64.
    pose proof (length_nonneg_Q xs) as Hn.
    set (n := inject_Z (Z.of_nat (length xs))) in *.
    set (sum := fold_left float_add (map float xs) 0) in *.
    set (total := fold_right Qplus 0 xs) in *.
    destruct Hsum as (T0 & T1 & Slo & Shi).
    unfold step_error, sum_error in *. repeat split; lra.
  - destruct Hall as [| x xs [Hx0 Hx1] Hall].
    + cbn [length map fold_right AIManager.py_sum64].
      change (inject_Z (Z.of_nat 0)) with 0.
      unfold sum_error. repeat split; lra.
    + rewrite length_cons_Q in *.
      pose proof (length_nonneg_Q xs) as Hn.
      destruct (float_add_step 0 0 0 x ltac:(lra) ltac:(lra) ltac:(lra)
                  ltac:(lra) Hx0 Hx1 ltac:(lra) ltac:(lra)) as [Hlo Hhi].
      pose proof (compensated_loop_from xs Hall (float_add 0 (float x)) 0
                    (0 + x) (0 + 1) ltac:(lra) ltac:(lra) ltac:(lra)
                    ltac:(lra) Hlo Hhi
                    ltac:(unfold compensation_error; lra)
                    ltac:(unfold compensation_error; lra)) as Hsum.
      cbn zeta in Hsum. cbn [AIManager.py_sum64 map fold_right].
      match type of Hsum with
      | context [compensated_loop ?l ?a ?b] =>
          set (sum := compensated_loop l a b) in *
      end.
      set (rest := fold_right Qplus 0 xs) in *.
      set (len := inject_Z (Z.of_nat (length xs))) in *.
      destruct Hsum as (I1 & I2 & I3 & I4).
      repeat split; lra.
Qed.

(** The mean as [consensus64] computes it, of at most 10^6 numbers of
    [0, 1], is within 10^-9 of their arithmetic mean. *)
Lemma mean64_error (loop : summation) (xs : list Q) :
  xs <> [] ->
  (Z.of_nat (length xs) <= 1000000)%Z ->
  Forall (fun x => 0 <= x /\ x <= 1) xs ->
  Qabs (float_truediv (AIManager.py_sum64 loop (map float xs))
          (float (inject_Z (Z.of_nat (length xs))))
        - arithmetic_mean xs)
  <= 1 # 1000000000.
Proof.
  intros Hne Hlen Hall.
  assert (Hn1 : 1 <= inject_Z (Z.of_nat (length xs))).
  { destruct xs as [| x xs]; [contradiction |].
    rewrite length_cons_Q. pose proof (length_nonneg_Q xs). lra. }
  assert (HnN : inject_Z (Z.of_nat (length xs)) <= 1000000).
  { change 1000000 with (inject_Z 1000000). now rewrite <- Zle_Qle. }
  pose proof (py_sum64_error loop xs Hall HnN) as Hsum.
  cbn zeta in Hsum.
  unfold float_truediv, arithmetic_mean.
  set (n := inject_Z (Z.of_nat (length xs))) in *.
  set (s := AIManager.py_sum64 loop (map float xs)) in *.
  set (total := fold_right Qplus 0 xs) in *.
  assert (Hfn : float n == n).
  { apply float_integer. lia. }
  pose proof (float_error (s / float n)) as He.
  set (y := s / float n) in *.
  assert (Ey : y == s / n) by (unfold y; now rewrite Hfn).
  destruct Hsum as (T0 & T1 & Slo & Shi).
  assert (Hdlo : - (2 * sum_error) <= y - total / n).
  { assert (E : y - total / n == (s - total) / n) by (rewrite Ey; field; lra).
    rewrite E. apply Qle_shift_div_l; [lra |].
    unfold sum_error in *. lra. }
  assert (Hdhi : y - total / n <= 2 * sum_error).
  { assert (E : y - total / n == (s - total) / n) by (rewrite Ey; field; lra).
    rewrite E. apply Qle_shift_div_r; [lra |].
    unfold sum_error in *. lra. }
  assert (Hm0 : 0 <= total / n) by (apply Qle_shift_div_l; lra).
  assert (Hm1 : total / n <= 1) by (apply Qle_shift_div_r; lra).
  assert (Hy : Qabs y <= 2).
  { apply Qabs_Qle_condition. unfold sum_error in *. split; lra. }
  apply Qabs_Qle_condition in He. apply Qabs_Qle_condition.
  set (a := Qabs y) in *. set (f := float y) in *. set (m := total / n) in *.
  unfold sum_error, unit_roundoff in *. split; lra.
Qed.

End FloatFacts.

(** * Properties of the consensus *)

Section ConsensusFacts.
Context `{PyStrOps}.

(** [get_consensus_analysis] is [consensus] on what [analyze_token]
    returns. *)
Lemma get_consensus_analysis_consensus (providers : list AIProvider)
    (net : AIManager.Net) (order : list nat) (responses : list AIResponse) :
  AIManager.analyze_token providers net order = Some (inr responses) ->
  AIManager.get_consensus_analysis providers net order
  = Some (AIManager.consensus responses).
Proof.
  intros Hr. unfold AIManager.get_consensus_analysis. now rewrite Hr.
Qed.

Lemma provider_sections_returns (responses : list AIResponse) :
  forallb labelled responses = true ->
  forall i consensus_text,
    exists report,
      AIManager.provider_sections i responses consensus_text = inr report.
Proof.
  induction responses as [| r responses IH]; intros Hl i consensus_text.
  - eexists. reflexivity.
  - simpl in Hl. apply andb_true_iff in Hl. destruct Hl as [Hr Hl].
    cbn [AIManager.provider_sections].
    assert (Hlab : exists label, AIManager.provider_label i r = inr label).
    { unfold AIManager.provider_label, dict_get. unfold labelled in Hr.
      destruct (dict_lookup "provider" (metadata r)) as [v |].
      - destruct v; try discriminate. eexists. reflexivity.
      - eexists. reflexivity. }
    destruct Hlab as [label ->]. cbn [bind]. apply (IH Hl).
Qed.

(** On a non-empty list of responses whose provider labels are strings
    the consensus returns, with these fields. *)
Lemma consensus_fields (responses : list AIResponse) :
  responses <> [] ->
  forallb labelled responses = true ->
  exists report,
    AIManager.consensus responses =
    inr (mkAIResponse true (PyStr report)
           (AIManager.py_sum (map confidence responses)
            / inject_Z (Z.of_nat (length responses)))
           (if (AIManager.votes "sell" responses <? AIManager.votes "buy" responses)%nat
               && (AIManager.votes "hold" responses <? AIManager.votes "buy" responses)%nat
            then "buy"
            else if (AIManager.votes "buy" responses <? AIManager.votes "sell" responses)%nat
                    && (AIManager.votes "hold" responses <? AIManager.votes "sell" responses)%nat
            then "sell"
            else "hold")
           (AIManager.py_sum (map risk_score responses)
            / inject_Z (Z.of_nat (length responses)))
           (firstn 10 (concat (map reasoning responses)))
           [("provider", PyStr "consensus");
            ("provider_count", PyInt (Z.of_nat (length responses)));
            ("individual_responses", PyResponses responses)]).
Proof.
  intros Hne Hl.
  destruct responses as [| r responses]; [contradiction |].
  unfold AIManager.consensus.
  set (rs := r :: responses) in *.
  assert (Hdiv : forall x, AIManager.py_div x (length rs)
                           = inr (x / inject_Z (Z.of_nat (length rs)))%Q)
    by reflexivity.
  rewrite !Hdiv. cbn [bind].
  match goal with
  | |- context [AIManager.provider_sections 0 rs ?txt] =>
      destruct (provider_sections_returns rs Hl 0%nat txt) as [report ->]
  end.
  exists report. reflexivity.
Qed.

Lemma fold_left_Qplus (xs : list Q) (a : Q) :
  (fold_left Qplus xs a == a + fold_right Qplus 0 xs)%Q.
Proof.
  revert a. induction xs as [| x xs IH]; intros a; simpl.
  - symmetry. apply Qplus_0_r.
  - rewrite IH. symmetry. apply Qplus_assoc.
Qed.

Lemma py_sum_fold_right (xs : list Q) :
  (AIManager.py_sum xs == fold_right Qplus 0 xs)%Q.
Proof. unfold AIManager.py_sum. rewrite fold_left_Qplus. apply Qplus_0_l. Qed.

Lemma py_mean_arithmetic_mean (xs : list Q) :
  (AIManager.py_sum xs / inject_Z (Z.of_nat (length xs))
   == arithmetic_mean xs)%Q.
Proof. unfold arithmetic_mean. now rewrite py_sum_fold_right. Qed.

Lemma three_values (value : string) :
  In value ["buy"; "sell"; "hold"] ->
  value = "buy" \/ value = "sell" \/ value = "hold".
Proof. simpl. intros [E | [E | [E | []]]]; auto. Qed.

Lemma votes_cons (value : string) (r : AIResponse) (responses : list AIResponse) :
  AIManager.votes value (r :: responses)
  = ((if String.eqb (recommendation r) value then 1 else 0)
     + AIManager.votes value responses)%nat.
Proof.
  unfold AIManager.votes. rewrite filter_cons.
  destruct (String.eqb (recommendation r) value) eqn:E.
  - rewrite decide_True by (now apply Is_true_true). reflexivity.
  - rewrite decide_False by (now apply Is_true_false). reflexivity.
Qed.

(** The count of the code is the tally of the votes. *)
Lemma votes_tally (value : string) (responses : list AIResponse) :
  AIManager.votes value responses = tally value responses.
Proof.
  induction responses as [| r responses IH]; [reflexivity |].
  rewrite votes_cons, IH. unfold tally. cbn [map count_occ].
  destruct (string_dec (recommendation r) value) as [E | E].
  - apply String.eqb_eq in E. now rewrite E.
  - apply String.eqb_neq in E. now rewrite E.
Qed.

(** What a consensus that is returned on a non-empty list holds. *)
Lemma consensus_returned (responses : list AIResponse) (decision : AIResponse) :
  responses <> [] ->
  AIManager.consensus responses = inr decision ->
  success decision = true
  /\ recommendation decision =
     (if (AIManager.votes "sell" responses <? AIManager.votes "buy" responses)%nat
         && (AIManager.votes "hold" responses <? AIManager.votes "buy" responses)%nat
      then "buy"
      else if (AIManager.votes "buy" responses <? AIManager.votes "sell" responses)%nat
              && (AIManager.votes "hold" responses <? AIManager.votes "sell" responses)%nat
      then "sell"
      else "hold")
  /\ metadata decision =
     [("provider", PyStr "consensus");
      ("provider_count", PyInt (Z.of_nat (length responses)));
      ("individual_responses", PyResponses responses)].
Proof.
  intros Hne Hd. destruct responses as [| r responses]; [contradiction |].
  unfold AIManager.consensus in Hd.
  set (rs := r :: responses) in *.
  assert (Hdiv : forall x, AIManager.py_div x (length rs)
                           = inr (x / inject_Z (Z.of_nat (length rs)))%Q)
    by reflexivity.
  rewrite !Hdiv in Hd. cbn [bind] in Hd.
  match type of Hd with
  | context [AIManager.provider_sections 0 rs ?txt] =>
      destruct (AIManager.provider_sections 0 rs txt) as [e | report]
  end; cbn [bind] in Hd; [discriminate |].
  injection Hd as <-. repeat split.
Qed.

(** **** C1.  On a non-empty list of responses the consensus, when it
    returns, recommends the value, among "buy", "sell" and "hold", that
    strictly more responses recommend than recommend each of the other two,
    all responses counted; when no value has such a lead (ties included),
    it recommends "hold".  It does return when the provider labels of the
    responses are strings. *)
Theorem consensus_recommendation_majority (responses : list AIResponse) :
  responses <> [] ->
  (forallb labelled responses = true ->
   exists decision, AIManager.consensus responses = inr decision)
  /\ (forall decision,
        AIManager.consensus responses = inr decision ->
        (forall value, In value ["buy"; "sell"; "hold"] ->
           leads value responses -> recommendation decision = value)
        /\ ((forall value, In value ["buy"; "sell"; "hold"] ->
               ~ leads value responses) ->
            recommendation decision = "hold")).
Proof.
  intros Hne. split.
  { intros Hl. destruct (consensus_fields responses Hne Hl) as [report ->].
    eexists. reflexivity. }
  intros decision Hd.
  destruct (consensus_returned responses decision Hne Hd) as (_ & -> & _).
  unfold leads. rewrite !votes_tally.
  set (b := tally "buy" responses).
  set (s := tally "sell" responses).
  set (h := tally "hold" responses).
  split.
  - intros value Hin Hlead.
    assert (Hb := Hlead "buy"). assert (Hs := Hlead "sell").
    assert (Hh := Hlead "hold"). fold b s h in Hb, Hs, Hh.
    destruct (three_values value Hin) as [-> | [-> | ->]];
      fold b s h in Hb, Hs, Hh.
    + assert (s < b)%nat by (apply Hs; [simpl; auto | discriminate]).
      assert (h < b)%nat by (apply Hh; [simpl; auto | discriminate]).
      destruct (Nat.ltb_spec s b); [| lia].
      destruct (Nat.ltb_spec h b); [| lia]. reflexivity.
    + assert (b < s)%nat by (apply Hb; [simpl; auto | discriminate]).
      assert (h < s)%nat by (apply Hh; [simpl; auto | discriminate]).
      destruct (Nat.ltb_spec s b); [lia |].
      destruct (Nat.ltb_spec b s); [| lia].
      destruct (Nat.ltb_spec h s); [| lia]. reflexivity.
    + assert (b < h)%nat by (apply Hb; [simpl; auto | discriminate]).
      assert (s < h)%nat by (apply Hs; [simpl; auto | discriminate]).
      destruct (Nat.ltb_spec s b); simpl;
        destruct (Nat.ltb_spec h b); simpl; try lia;
        destruct (Nat.ltb_spec b s); simpl;
        destruct (Nat.ltb_spec h s); simpl; try lia; reflexivity.
  - intros Hnone.
    destruct (Nat.ltb_spec s b) as [Hsb |]; simpl;
      [destruct (Nat.ltb_spec h b) as [Hhb |]; simpl |].
    + exfalso. apply (Hnone "buy"); [simpl; auto |].
      intros other Hin Hneq.
      destruct (three_values other Hin) as [-> | [-> | ->]];
        [contradiction | exact Hsb | exact Hhb].
    + destruct (Nat.ltb_spec b s); simpl; [lia | reflexivity].
    + destruct (Nat.ltb_spec b s) as [Hbs |]; simpl; [| reflexivity].
      destruct (Nat.ltb_spec h s) as [Hhs |]; simpl; [| reflexivity].
      exfalso. apply (Hnone "sell"); [simpl; auto |].
      intros other Hin Hneq.
      destruct (three_values other Hin) as [-> | [-> | ->]];
        [exact Hbs | contradiction | exact Hhs].
Qed.

(** On a non-empty list of responses whose provider labels are strings
    the binary64 consensus returns. *)
Lemma consensus64_returns (loop : summation) (responses : list AIResponse) :
  responses <> [] ->
  forallb labelled responses = true ->
  exists decision, AIManager.consensus64 loop responses = inr decision.
Proof.
  intros Hne Hl. destruct responses as [| r responses]; [contradiction |].
  unfold AIManager.consensus64.
  set (rs := r :: responses) in *.
  assert (Hdiv : forall x,
             AIManager.py_div64 x (length rs)
             = inr (float_truediv x (float (inject_Z (Z.of_nat (length rs))))))
    by reflexivity.
  rewrite !Hdiv. cbn [bind].
  match goal with
  | |- context [AIManager.provider_sections 0 rs ?txt] =>
      destruct (provider_sections_returns rs Hl 0%nat txt) as [report ->]
  end.
  eexists. reflexivity.
Qed.

(** What the binary64 consensus holds when it is returned on a non-empty
    list. *)
Lemma consensus64_returned (loop : summation) (responses : list AIResponse)
    (decision : AIResponse) :
  responses <> [] ->
  AIManager.consensus64 loop responses = inr decision ->
  success decision = true
  /\ recommendation decision =
     (if (AIManager.votes "sell" responses <? AIManager.votes "buy" responses)%nat
         && (AIManager.votes "hold" responses <? AIManager.votes "buy" responses)%nat
      then "buy"
      else if (AIManager.votes "buy" responses <? AIManager.votes "sell" responses)%nat
              && (AIManager.votes "hold" responses <? AIManager.votes "sell" responses)%nat
      then "sell"
      else "hold")
  /\ confidence decision =
     float_truediv
       (AIManager.py_sum64 loop (map float (map confidence responses)))
       (float (inject_Z (Z.of_nat (length responses))))
  /\ risk_score decision =
     float_truediv
       (AIManager.py_sum64 loop (map float (map risk_score responses)))
       (float (inject_Z (Z.of_nat (length responses))))
  /\ reasoning decision = firstn 10 (concat (map reasoning responses))
  /\ metadata decision =
     [("provider", PyStr "consensus");
      ("provider_count", PyInt (Z.of_nat (length responses)));
      ("individual_responses", PyResponses responses)].
Proof.
  intros Hne Hd. destruct responses as [| r responses]; [contradiction |].
  unfold AIManager.consensus64 in Hd.
  set (rs := r :: responses) in *.
  assert (Hdiv : forall x,
             AIManager.py_div64 x (length rs)
             = inr (float_truediv x (float (inject_Z (Z.of_nat (length rs))))))
    by reflexivity.
  rewrite !Hdiv in Hd. cbn [bind] in Hd.
  match type of Hd with
  | context [AIManager.provider_sections 0 rs ?txt] =>
      destruct (AIManager.provider_sections 0 rs txt) as [e | report]
  end; cbn [bind] in Hd; [discriminate |].
  injection Hd as <-. repeat split.
Qed.

Lemma provider_sections_any_text (responses : list AIResponse) :
  forall i text text' report,
    AIManager.provider_sections i responses text = inr report ->
    exists report',
      AIManager.provider_sections i responses text' = inr report'.
Proof.
  induction responses as [| r responses IH]; intros i text text' report Hr.
  - eexists. reflexivity.
  - cbn [AIManager.provider_sections] in *.
    destruct (AIManager.provider_label i r) as [e | label]; cbn [bind] in *;
      [discriminate |].
    eapply IH. exact Hr.
Qed.

(** The two readings of the consensus differ in the two averages and in
    the report that prints them, and in nothing else. *)
Lemma consensus64_consensus (loop : summation) (responses : list AIResponse)
    (decision64 : AIResponse) :
  AIManager.consensus64 loop responses = inr decision64 ->
  exists decision,
    AIManager.consensus responses = inr decision
    /\ success decision = success decision64
    /\ recommendation decision = recommendation decision64
    /\ reasoning decision = reasoning decision64
    /\ metadata decision = metadata decision64.
Proof.
  intros Hd. destruct responses as [| r responses].
  { injection Hd as <-. eexists. split; [reflexivity |]. repeat split. }
  unfold AIManager.consensus64 in Hd. unfold AIManager.consensus.
  set (rs := r :: responses) in *.
  assert (Hdiv64 : forall x,
             AIManager.py_div64 x (length rs)
             = inr (float_truediv x (float (inject_Z (Z.of_nat (length rs))))))
    by reflexivity.
  assert (Hdiv : forall x, AIManager.py_div x (length rs)
                           = inr (x / inject_Z (Z.of_nat (length rs)))%Q)
    by reflexivity.
  rewrite !Hdiv64 in Hd. rewrite !Hdiv. cbn [bind] in *.
  match type of Hd with
  | context [AIManager.provider_sections 0 rs ?txt] =>
      destruct (AIManager.provider_sections 0 rs txt) as [e | report] eqn:Hs
  end; cbn [bind] in Hd; [discriminate |].
  injection Hd as <-.
  match goal with
  | |- context [AIManager.provider_sections 0 rs ?txt] =>
      destruct (provider_sections_any_text rs 0%nat _ txt _ Hs) as [report' ->]
  end.
  eexists. split; [reflexivity |]. repeat split.
Qed.

(** The two averages of the binary64 consensus are within 10^-9 of the
    arithmetic means. *)
Lemma consensus64_scores (loop : summation) (responses : list AIResponse)
    (decision : AIResponse) :
  responses <> [] ->
  (Z.of_nat (length responses) <= 1000000)%Z ->
  Forall scores_in_range responses ->
  AIManager.consensus64 loop responses = inr decision ->
  (Qabs (confidence decision - arithmetic_mean (map confidence responses))
   <= 1 # 1000000000)%Q
  /\ (Qabs (risk_score decision - arithmetic_mean (map risk_score responses))
      <= 1 # 1000000000)%Q.
Proof.
  intros Hne Hlen Hall Hd.
  destruct (consensus64_returned loop responses decision Hne Hd)
    as (_ & _ & -> & -> & _).
  split.
  - rewrite <- (length_map confidence responses).
    apply mean64_error.
    + destruct responses; [contradiction | discriminate].
    + now rewrite length_map.
    + apply List.Forall_map. eapply List.Forall_impl; [| exact Hall].
      intros r (H0 & H1 & _). split; assumption.
  - rewrite <- (length_map risk_score responses).
    apply mean64_error.
    + destruct responses; [contradiction | discriminate].
    + now rewrite length_map.
    + apply List.Forall_map. eapply List.Forall_impl; [| exact Hall].
      intros r (_ & _ & H0 & H1). split; assumption.
Qed.

(** **** C2.  The confidence and the risk of the consensus are computed in
    binary64, by the builtin sum and one division, and are the arithmetic
    means of the confidences and of the risks of all the responses up to
    the rounding: with either loop of the builtin, on a non-empty list of
    at most 10^6 responses with confidences and risks in [0, 1], the
    consensus, when it returns, holds a confidence and a risk within 10^-9
    of the two means.  It does return when the provider labels are
    strings.  Failed responses are part of the list like the others, and a
    failed response built from the defaults counts with confidence 0.0 and
    risk 0.5. *)
Theorem consensus_scores_are_means (loop : summation)
    (responses : list AIResponse) :
  responses <> [] ->
  (Z.of_nat (length responses) <= 1000000)%Z ->
  Forall scores_in_range responses ->
  (forallb labelled responses = true ->
   exists decision, AIManager.consensus64 loop responses = inr decision)
  /\ (forall decision,
        AIManager.consensus64 loop responses = inr decision ->
        (Qabs (confidence decision
               - arithmetic_mean (map confidence responses))
         <= 1 # 1000000000)%Q
        /\ (Qabs (risk_score decision
                  - arithmetic_mean (map risk_score responses))
            <= 1 # 1000000000)%Q)
  /\ (forall (text : pyval) (meta : dict),
        confidence (AIResponse_meta false text meta) = 0.0%Q
        /\ risk_score (AIResponse_meta false text meta) = 0.5%Q
        /\ confidence (AIResponse_default false text) = 0.0%Q
        /\ risk_score (AIResponse_default false text) = 0.5%Q).
Proof.
  intros Hne Hlen Hall. split; [| split].
  - now apply consensus64_returns.
  - intros decision Hd. now apply (consensus64_scores loop).
  - intros text meta. repeat split; reflexivity.
Qed.

(** **** C6.  Without a response to aggregate, the consensus is the
    unsuccessful response with the fixed message and the default fields:
    nothing is summed, counted or divided (a division by the length would
    raise), and nothing is raised.  That is what a manager without
    providers gets. *)
Theorem consensus_without_responses (net : AIManager.Net) (order : list nat) :
  AIManager.consensus [] =
    inr (mkAIResponse false (PyStr "No AI providers available for analysis")
           0.0 "hold" 0.5 [] [])
  /\ AIManager.get_consensus_analysis [] net order =
    Some (inr (mkAIResponse false
                 (PyStr "No AI providers available for analysis")
                 0.0 "hold" 0.5 [] []))
  /\ (forall x, exists e, AIManager.py_div x (@length AIResponse []) = inl e).
Proof.
  repeat split. intros x. eexists. reflexivity.
Qed.

End ConsensusFacts.

(** * The range invariant *)

Section RangeInvariant.
Context `{PyStrOps}.

Ltac case_conditions :=
  repeat match goal with
         | |- context [if ?c then _ else _] => destruct c
         end.

Ltac literal_bound := unfold Qle; simpl; lia.

Lemma well_formed_fields (cap : nat) (s : bool) (a : pyval) (c : Q)
    (d : string) (k : Q) (l : list string) (m : dict) :
  (0 <= c)%Q -> (c <= 1)%Q -> (0 <= k)%Q -> (k <= 1)%Q ->
  In d ["buy"; "sell"; "hold"] -> (length l <= cap)%nat ->
  well_formed cap (mkAIResponse s a c d k l m).
Proof. unfold well_formed. simpl. tauto. Qed.

Lemma well_formed_defaults (cap : nat) (s : bool) (a : pyval) (m : dict) :
  well_formed cap (AIResponse_meta s a m)
  /\ well_formed cap (AIResponse_default s a).
Proof.
  split; apply well_formed_fields; try literal_bound; simpl; auto; lia.
Qed.

Lemma well_formed_weaken (cap cap' : nat) (r : AIResponse) :
  (cap <= cap')%nat -> well_formed cap r -> well_formed cap' r.
Proof. unfold well_formed. intuition lia. Qed.

Lemma gemini_parse_well_formed (model text : pyval) :
  well_formed 5 (Gemini._parse_analysis_response model text).
Proof.
  destruct text;
    try (apply (proj1 (well_formed_defaults 5 true _ _))).
  rewrite gemini_parse_str. apply well_formed_fields.
  - unfold Gemini.extract_confidence. case_conditions; literal_bound.
  - unfold Gemini.extract_confidence. case_conditions; literal_bound.
  - unfold Gemini.extract_risk_score. case_conditions; literal_bound.
  - unfold Gemini.extract_risk_score. case_conditions; literal_bound.
  - unfold Gemini.extract_recommendation. case_conditions; simpl; auto.
  - apply firstn_le_length.
Qed.

Lemma lmstudio_parse_well_formed (model text : pyval) :
  well_formed 5 (LMStudio._parse_analysis_response model text).
Proof.
  destruct text;
    try (apply (proj1 (well_formed_defaults 5 true _ _))).
  rewrite lmstudio_parse_str. apply well_formed_fields.
  - unfold LMStudio.extract_confidence. case_conditions; literal_bound.
  - unfold LMStudio.extract_confidence. case_conditions; literal_bound.
  - unfold LMStudio.extract_risk_score. case_conditions; literal_bound.
  - unfold LMStudio.extract_risk_score. case_conditions; literal_bound.
  - unfold LMStudio.extract_recommendation. case_conditions; simpl; auto.
  - apply firstn_le_length.
Qed.

Lemma ollama_parse_well_formed (model text : pyval) :
  well_formed 5 (Ollama._parse_analysis_response model text).
Proof.
  destruct text;
    try (apply (proj1 (well_formed_defaults 5 true _ _))).
  rewrite ollama_parse_str. apply well_formed_fields.
  - unfold Ollama.extract_confidence. case_conditions; literal_bound.
  - unfold Ollama.extract_confidence. case_conditions; literal_bound.
  - unfold Ollama.extract_risk_score. case_conditions; literal_bound.
  - unfold Ollama.extract_risk_score. case_conditions; literal_bound.
  - unfold Ollama.extract_recommendation. case_conditions; simpl; auto.
  - apply firstn_le_length.
Qed.

Lemma interpreters_well_formed tag extract parse (model text : pyval) :
  In (tag, extract, parse) interpreters ->
  well_formed 5 (parse model text).
Proof.
  intros Hin. simpl in Hin.
  destruct Hin as [E | [E | [E | []]]]; inversion E; subst; clear E.
  - apply gemini_parse_well_formed.
  - apply lmstudio_parse_well_formed.
  - apply ollama_parse_well_formed.
Qed.

(** The adapters return, and what they return is in range. *)
Lemma adapters_well_formed (model : pyval) (reply : backend_reply) :
  (exists r, Gemini.analyze_token model reply = inr r /\ well_formed 5 r)
  /\ (exists r, LMStudio.analyze_token model reply = inr r /\ well_formed 5 r)
  /\ (exists r, Ollama.analyze_token model reply = inr r /\ well_formed 5 r).
Proof.
  repeat split; destruct reply; eexists; (split; [reflexivity |]);
    first [ apply (proj2 (well_formed_defaults 5 false _ []))
          | apply gemini_parse_well_formed
          | apply lmstudio_parse_well_formed
          | apply ollama_parse_well_formed ].
Qed.

Lemma adapters_market_well_formed (model : pyval) (reply : market_reply) :
  (exists r, Gemini.analyze_market_conditions model reply = inr r
             /\ well_formed 5 r)
  /\ (exists r, LMStudio.analyze_market_conditions model reply = inr r
                /\ well_formed 5 r)
  /\ (exists r, Ollama.analyze_market_conditions model reply = inr r
                /\ well_formed 5 r).
Proof.
  repeat split; destruct reply; eexists; (split; [reflexivity |]);
    first [ apply (proj2 (well_formed_defaults 5 false _ []))
          | apply gemini_parse_well_formed
          | apply lmstudio_parse_well_formed
          | apply ollama_parse_well_formed ].
Qed.

Lemma safe_analyze_token_well_formed (provider : AIProvider)
    (reply : backend_reply) :
  (forall r, Base.analyze_token provider reply = inr r -> well_formed 5 r) ->
  exists r, AIManager._safe_analyze_token provider reply = inr r
            /\ well_formed 5 r.
Proof.
  intros Hwf. destruct (Base.analyze_token provider reply) as [e | r] eqn:Hr.
  - rewrite (safe_analyze_token_catches _ _ _ Hr). eexists.
    split; [reflexivity |].
    apply (proj1 (well_formed_defaults 5 false _ _)).
  - rewrite (safe_analyze_token_passes _ _ _ Hr). eauto.
Qed.

Lemma sum_bounds (xs : list Q) :
  Forall (fun x => 0 <= x /\ x <= 1)%Q xs ->
  (0 <= fold_right Qplus 0 xs)%Q
  /\ (fold_right Qplus 0 xs <= inject_Z (Z.of_nat (length xs)))%Q.
Proof.
  induction 1 as [| x xs [Hx0 Hx1] _ [IH0 IH1]].
  - simpl. split; apply Qle_refl.
  - cbn [fold_right length].
    rewrite Nat2Z.inj_succ. unfold Z.succ. rewrite inject_Z_plus.
    change (inject_Z 1) with 1%Q. split; lra.
Qed.

(** The mean of numbers of [0, 1] is in [0, 1]. *)
Lemma mean_bounds (xs : list Q) :
  xs <> [] ->
  Forall (fun x => 0 <= x /\ x <= 1)%Q xs ->
  (0 <= AIManager.py_sum xs / inject_Z (Z.of_nat (length xs)))%Q
  /\ (AIManager.py_sum xs / inject_Z (Z.of_nat (length xs)) <= 1)%Q.
Proof.
  intros Hne Hall. destruct (sum_bounds xs Hall) as [H0 H1].
  assert (Hpos : (0 < inject_Z (Z.of_nat (length xs)))%Q).
  { destruct xs; [contradiction |].
    change 0%Q with (inject_Z 0). rewrite <- Zlt_Qlt. simpl length. lia. }
  rewrite py_sum_fold_right. split.
  - apply Qle_shift_div_l; [exact Hpos | lra].
  - apply Qle_shift_div_r; [exact Hpos | lra].
Qed.

Lemma consensus_choice_value (b s h : nat) :
  In (if (s <? b)%nat && (h <? b)%nat then "buy"
      else if (b <? s)%nat && (h <? s)%nat then "sell" else "hold")
     ["buy"; "sell"; "hold"].
Proof. case_conditions; simpl; auto. Qed.

Lemma well_formed_scores (cap : nat) (responses : list AIResponse) :
  Forall (well_formed cap) responses ->
  Forall (fun x => 0 <= x /\ x <= 1)%Q (map confidence responses)
  /\ Forall (fun x => 0 <= x /\ x <= 1)%Q (map risk_score responses).
Proof.
  induction 1 as [| r responses Hr _ [IHc IHk]]; simpl.
  - split; constructor.
  - unfold well_formed in Hr. split; constructor; tauto.
Qed.

(** A consensus over responses in range is in range, with at most ten
    reasoning entries. *)
Lemma consensus_well_formed (responses : list AIResponse) :
  forallb labelled responses = true ->
  Forall (well_formed 5) responses ->
  exists decision,
    AIManager.consensus responses = inr decision /\ well_formed 10 decision.
Proof.
  intros Hl Hwf. destruct responses as [| r responses].
  - eexists. split; [reflexivity |].
    apply (proj2 (well_formed_defaults 10 false _ [])).
  - set (rs := r :: responses) in *.
    assert (Hne : rs <> []) by discriminate.
    destruct (consensus_fields rs Hne Hl) as [report ->].
    eexists. split; [reflexivity |].
    destruct (well_formed_scores 5 rs Hwf) as [Hc Hk].
    assert (Hcne : map confidence rs <> []) by discriminate.
    assert (Hkne : map risk_score rs <> []) by discriminate.
    apply mean_bounds in Hc; [| exact Hcne].
    apply mean_bounds in Hk; [| exact Hkne].
    rewrite length_map in Hc, Hk.
    apply well_formed_fields; try tauto.
    + apply consensus_choice_value.
    + apply firstn_le_length.
Qed.

(** Whatever the responses, a consensus that is returned recommends one of
    the three values and has at most ten reasoning entries. *)
Lemma consensus_caps (responses : list AIResponse) (decision : AIResponse) :
  AIManager.consensus responses = inr decision ->
  In (recommendation decision) ["buy"; "sell"; "hold"]
  /\ (length (reasoning decision) <= 10)%nat.
Proof.
  intros Hd. destruct responses as [| r responses].
  - injection Hd as <-. simpl. split; [auto | lia].
  - unfold AIManager.consensus in Hd.
    set (rs := r :: responses) in *.
    assert (Hdiv : forall x, AIManager.py_div x (length rs)
                             = inr (x / inject_Z (Z.of_nat (length rs)))%Q)
      by reflexivity.
    rewrite !Hdiv in Hd. cbn [bind] in Hd.
    match type of Hd with
    | context [AIManager.provider_sections 0 rs ?txt] =>
        destruct (AIManager.provider_sections 0 rs txt) as [e | report]
    end; cbn [bind] in Hd; [discriminate |].
    injection Hd as <-. cbn [recommendation reasoning]. split.
    + apply consensus_choice_value.
    + apply firstn_le_length.
Qed.

(** **** C9.  The responses of the system are in range.  Whatever an
    interpreter returns, and whatever an adapter of the sources returns
    from [analyze_token] or [analyze_market_conditions], has confidence and
    risk in [0, 1], a recommendation among "buy", "sell" and "hold", and at
    most 5 reasoning entries; so has what [_safe_analyze_token] returns,
    for a provider whose own responses are in range; a consensus over such
    responses has the same ranges and at most 10 reasoning entries, and the
    cap of 10 and the three values hold for every consensus returned,
    however many entries the merged responses bring. *)
Theorem responses_in_range :
  (forall tag extract parse (model text : pyval),
      In (tag, extract, parse) interpreters ->
      well_formed 5 (parse model text))
  /\ (forall (model : pyval) (reply : backend_reply),
        (exists r, Gemini.analyze_token model reply = inr r /\ well_formed 5 r)
        /\ (exists r, LMStudio.analyze_token model reply = inr r
                      /\ well_formed 5 r)
        /\ (exists r, Ollama.analyze_token model reply = inr r
                      /\ well_formed 5 r))
  /\ (forall (model : pyval) (reply : market_reply),
        (exists r, Gemini.analyze_market_conditions model reply = inr r
                   /\ well_formed 5 r)
        /\ (exists r, LMStudio.analyze_market_conditions model reply = inr r
                      /\ well_formed 5 r)
        /\ (exists r, Ollama.analyze_market_conditions model reply = inr r
                      /\ well_formed 5 r))
  /\ (forall (provider : AIProvider) (reply : backend_reply),
        (forall r, Base.analyze_token provider reply = inr r ->
                   well_formed 5 r) ->
        exists r, AIManager._safe_analyze_token provider reply = inr r
                  /\ well_formed 5 r)
  /\ (forall responses : list AIResponse,
        forallb labelled responses = true ->
        Forall (well_formed 5) responses ->
        exists decision,
          AIManager.consensus responses = inr decision
          /\ well_formed 10 decision)
  /\ (forall (responses : list AIResponse) (decision : AIResponse),
        AIManager.consensus responses = inr decision ->
        In (recommendation decision) ["buy"; "sell"; "hold"]
        /\ (length (reasoning decision) <= 10)%nat).
Proof.
  split; [exact interpreters_well_formed |].
  split; [exact adapters_well_formed |].
  split; [exact adapters_market_well_formed |].
  split; [exact safe_analyze_token_well_formed |].
  split; [exact consensus_well_formed | exact consensus_caps].
Qed.

End RangeInvariant.

(** * Properties of the registry *)

Section RegistryFacts.
Context `{PyStrOps}.
Variable LocalAIProvider : dict -> result AIProvider.

Lemma setup_one_active key ctor (provider_configs : AIManager.ProviderConfigs)
    (providers : list AIProvider) :
  AIManager.setup_one key ctor provider_configs providers =
  (providers ++ active key ctor provider_configs)%list.
Proof.
  unfold AIManager.setup_one, active.
  destruct (dict_lookup key provider_configs) as [cfg |];
    [| now rewrite app_nil_r].
  destruct (truthy (dict_get cfg "enabled" (PyBool false)));
    [| now rewrite app_nil_r].
  destruct (ctor cfg); [now rewrite app_nil_r | reflexivity].
Qed.

(** The registry is the concatenation of what the four kinds contribute,
    in the order of the four blocks of [_setup_providers]. *)
Lemma setup_providers_blocks (config : AIManager.Config) :
  AIManager._setup_providers LocalAIProvider config =
  (active "ollama" OllamaProvider (providers_section config)
   ++ active "lmstudio" LMStudioProvider (providers_section config)
   ++ active "localai" LocalAIProvider (providers_section config)
   ++ active "gemini" GeminiProvider (providers_section config))%list.
Proof.
  unfold AIManager._setup_providers. fold (providers_section config).
  rewrite !setup_one_active. rewrite app_nil_l, <- !app_assoc. reflexivity.
Qed.

Lemma active_cases key ctor (provider_configs : AIManager.ProviderConfigs) :
  (length (active key ctor provider_configs) <= 1)%nat
  /\ (forall provider, In provider (active key ctor provider_configs) ->
        exists cfg,
          dict_lookup key provider_configs = Some cfg
          /\ truthy (dict_get cfg "enabled" (PyBool false)) = true
          /\ ctor cfg = inr provider).
Proof.
  unfold active.
  destruct (dict_lookup key provider_configs) as [cfg |];
    [| split; [simpl; lia | intros p []]].
  destruct (truthy (dict_get cfg "enabled" (PyBool false))) eqn:Hen;
    [| split; [simpl; lia | intros p []]].
  destruct (ctor cfg) as [e | p] eqn:Hc;
    [split; [simpl; lia | intros p []] |].
  split; [simpl; lia |].
  intros q [<- | []]. exists cfg. auto.
Qed.

(** A constructor that raises leaves its kind out. *)
Lemma active_excludes_failure key ctor
    (provider_configs : AIManager.ProviderConfigs) (cfg : dict)
    (e : PyException) :
  dict_lookup key provider_configs = Some cfg ->
  ctor cfg = inl e ->
  active key ctor provider_configs = [].
Proof.
  intros Hk Hc. unfold active. rewrite Hk, Hc.
  destruct (truthy (dict_get cfg "enabled" (PyBool false))); reflexivity.
Qed.

(** The entries of a dictionary are found whatever their order. *)
Lemma dict_lookup_permutation {V : Type} (k : string)
    (d d' : list (string * V)) :
  List.NoDup (map fst d) -> Permutation d d' ->
  dict_lookup k d = dict_lookup k d'.
Proof.
  intros Hnd Hperm. induction Hperm as [| [k1 v1] l l' Hp IH
                                        | [k1 v1] [k2 v2] l
                                        | l l' l'' Hp1 IH1 Hp2 IH2].
  - reflexivity.
  - simpl. simpl in Hnd. inversion Hnd; subst.
    destruct (String.eqb k k1); [reflexivity | now apply IH].
  - simpl. simpl in Hnd. inversion Hnd as [| ? ? Hnotin _]; subst.
    destruct (String.eqb_spec k k2) as [E2 | _],
      (String.eqb_spec k k1) as [E1 | _]; try reflexivity.
    exfalso. subst k1 k2. apply Hnotin. left. reflexivity.
  - rewrite IH1 by exact Hnd. apply IH2.
    eapply Permutation_NoDup; [| exact Hnd].
    apply Permutation_map. exact Hp1.
Qed.

Lemma active_permutation key ctor
    (provider_configs provider_configs' : AIManager.ProviderConfigs) :
  List.NoDup (map fst provider_configs) ->
  Permutation provider_configs provider_configs' ->
  active key ctor provider_configs' = active key ctor provider_configs.
Proof.
  intros Hnd Hperm. unfold active.
  now rewrite (dict_lookup_permutation key _ _ Hnd Hperm).
Qed.

Lemma gemini_raises_iff (cfg : dict) :
  (exists e, GeminiProvider cfg = inl e)
  <-> truthy (dict_get cfg "api_key" PyNone) = false.
Proof.
  unfold GeminiProvider.
  destruct (truthy (dict_get cfg "api_key" PyNone)); simpl; split.
  - intros [e He]. discriminate He.
  - discriminate.
  - reflexivity.
  - intros _. eexists. reflexivity.
Qed.

(** **** C8.  The constructor of the Gemini adapter raises exactly when the
    API key is absent: missing from the configuration, or present with an
    empty value ([None], the empty string), which is what [not api_key]
    tests.  The constructors of the Ollama and LM Studio adapters never
    raise.  A provider whose constructor raises is left out of the
    registry, which goes on with the kinds that follow: with the Gemini key
    absent the registry holds what the three other kinds contribute. *)
Theorem gemini_key_absent_excluded (config : AIManager.Config) (gcfg : dict) :
  dict_lookup "gemini" (providers_section config) = Some gcfg ->
  truthy (dict_get gcfg "api_key" PyNone) = false ->
  (forall cfg : dict,
      (exists e, GeminiProvider cfg = inl e)
      <-> truthy (dict_get cfg "api_key" PyNone) = false)
  /\ (forall cfg : dict,
        (exists p, OllamaProvider cfg = inr p)
        /\ (exists p, LMStudioProvider cfg = inr p))
  /\ GeminiProvider gcfg = inl (mkExc "ValueError" "Gemini API key is required")
  /\ (forall key ctor (cfg : dict) (e : PyException),
        dict_lookup key (providers_section config) = Some cfg ->
        ctor cfg = inl e ->
        active key ctor (providers_section config) = [])
  /\ AIManager._setup_providers LocalAIProvider config =
     (active "ollama" OllamaProvider (providers_section config)
      ++ active "lmstudio" LMStudioProvider (providers_section config)
      ++ active "localai" LocalAIProvider (providers_section config))%list.
Proof.
  intros Hg Hkey.
  assert (Hraise : GeminiProvider gcfg
                   = inl (mkExc "ValueError" "Gemini API key is required")).
  { unfold GeminiProvider. now rewrite Hkey. }
  split; [exact gemini_raises_iff |].
  split; [intros cfg; split; eexists; reflexivity |].
  split; [exact Hraise |].
  split; [intros key ctor cfg e; apply active_excludes_failure |].
  rewrite setup_providers_blocks.
  rewrite (active_excludes_failure "gemini" GeminiProvider _ gcfg _ Hg Hraise).
  now rewrite app_nil_r.
Qed.

(** **** C10.  The registry lists the providers in the order Ollama,
    LM Studio, LocalAI, Gemini, whatever the order of the entries of the
    configuration: it is the concatenation of what each kind contributes,
    which is at most one provider, and one only when the entry of the kind
    is present with a true "enabled" and the constructor succeeds.  The
    responses of [analyze_token] come in that same order. *)
Theorem registry_fixed_kind_order (config config' : AIManager.Config)
    (net : AIManager.Net) (order : list nat) :
  List.NoDup (map fst (providers_section config)) ->
  Permutation (providers_section config) (providers_section config') ->
  Permutation order
    (seq 0 (length (AIManager._setup_providers LocalAIProvider config))) ->
  AIManager._setup_providers LocalAIProvider config =
    (active "ollama" OllamaProvider (providers_section config)
     ++ active "lmstudio" LMStudioProvider (providers_section config)
     ++ active "localai" LocalAIProvider (providers_section config)
     ++ active "gemini" GeminiProvider (providers_section config))%list
  /\ (forall key ctor,
        (length (active key ctor (providers_section config)) <= 1)%nat
        /\ (forall provider,
              In provider (active key ctor (providers_section config)) ->
              exists cfg,
                dict_lookup key (providers_section config) = Some cfg
                /\ truthy (dict_get cfg "enabled" (PyBool false)) = true
                /\ ctor cfg = inr provider))
  /\ AIManager._setup_providers LocalAIProvider config' =
     AIManager._setup_providers LocalAIProvider config
  /\ (exists outcomes,
        AIManager.analyze_token
          (AIManager._setup_providers LocalAIProvider config) net order
        = Some (inr outcomes)
        /\ Forall2
             (fun provider outcome =>
                AIManager._safe_analyze_token provider
                  (net (Base.name provider)) = inr outcome)
             (AIManager._setup_providers LocalAIProvider config) outcomes).
Proof.
  intros Hnd Hperm Horder.
  split; [apply setup_providers_blocks |].
  split; [intros key ctor; apply active_cases |].
  split.
  - rewrite !setup_providers_blocks.
    now rewrite !(active_permutation _ _ _ _ Hnd Hperm).
  - now apply analyze_token_outcomes.
Qed.

End RegistryFacts.

(** * The statements at the sample inputs *)

Lemma two_buy_leads : leads "buy" two_buy_one_sell.
Proof.
  intros other Hin Hne.
  destruct Hin as [<- | [<- | [<- | []]]];
    [contradiction | vm_compute; lia | vm_compute; lia].
Qed.

Lemma consensus_recommendation_majority_witness :
  exists decision,
    AIManager.consensus (H := ascii_ops) two_buy_one_sell = inr decision
    /\ recommendation decision = "buy".
Proof.
  destruct (consensus_recommendation_majority (H := ascii_ops)
              two_buy_one_sell ltac:(discriminate))
    as [Hret Hrec].
  destruct (Hret eq_refl) as [decision Hd].
  exists decision. split; [exact Hd |].
  destruct (Hrec decision Hd) as [Hlead _].
  apply Hlead; [simpl; auto | exact two_buy_leads].
Defined.

(** With a failed response beside buy 0.9 and buy 0.8 the consensus holds,
    with either loop of the builtin sum, the confidence
    5104079577686563 / 2^53, which prints as 0.5666666666666668: it is not
    the mean 17/30 of the three confidences, nor the mean of the three
    floats, nor the float nearest to that mean. *)
Lemma consensus_confidence_not_the_mean :
  exists decision,
    AIManager.consensus64 (H := ascii_ops) LeftToRight one_failed_two_buy
    = inr decision
    /\ AIManager.consensus64 (H := ascii_ops) Compensated one_failed_two_buy
       = inr decision
    /\ (confidence decision == 5104079577686563 # 9007199254740992)%Q
    /\ ~ (confidence decision
          == arithmetic_mean (map confidence one_failed_two_buy))%Q
    /\ ~ (confidence decision
          == arithmetic_mean (map float (map confidence one_failed_two_buy)))%Q
    /\ ~ (confidence decision
          == float (arithmetic_mean
                      (map float (map confidence one_failed_two_buy))))%Q.
Proof.
  eexists. split; [reflexivity |].
  split; [vm_compute; reflexivity |]. cbn [confidence].
  split; [vm_compute; reflexivity |].
  repeat split; apply Qeq_bool_neq; vm_compute; reflexivity.
Qed.

Lemma sample_scores_in_range :
  Forall scores_in_range one_failed_two_buy
  /\ Forall scores_in_range two_buy_one_sell.
Proof.
  split; repeat constructor; simpl; unfold Qle; simpl; lia.
Qed.

Lemma consensus_scores_are_means_witness :
  exists decision,
    AIManager.consensus64 (H := ascii_ops) LeftToRight one_failed_two_buy
    = inr decision
    /\ (Qabs (confidence decision - (17 # 30)) <= 1 # 1000000000)%Q
    /\ (Qabs (risk_score decision - 0.5) <= 1 # 1000000000)%Q.
Proof.
  assert (Hlen : (Z.of_nat (length one_failed_two_buy) <= 1000000)%Z)
    by (simpl; lia).
  destruct (consensus_scores_are_means (H := ascii_ops) LeftToRight
              one_failed_two_buy
              ltac:(discriminate) Hlen (proj1 sample_scores_in_range))
    as (Hret & Hmeans & _).
  destruct (Hret eq_refl) as [decision Hd].
  exists decision. split; [exact Hd |].
  destruct (Hmeans decision Hd) as [Hc Hk].
  assert (Ec : (arithmetic_mean (map confidence one_failed_two_buy)
                == 17 # 30)%Q) by reflexivity.
  assert (Ek : (arithmetic_mean (map risk_score one_failed_two_buy)
                == 0.5)%Q) by reflexivity.
  rewrite Ec in Hc. rewrite Ek in Hk. split; assumption.
Defined.

(** Summed from left to right, the risks 0.2, 0.9, 0.5 and 0.8 average to
    0.6000000000000001 in this order and to 0.6 in the order 0.2, 0.8, 0.9,
    0.5. *)
Lemma consensus_risk_depends_on_order :
  Permutation four_risks four_risks_reordered
  /\ exists decision decision',
       AIManager.consensus64 (H := ascii_ops) LeftToRight four_risks
       = inr decision
       /\ AIManager.consensus64 (H := ascii_ops) LeftToRight
            four_risks_reordered
          = inr decision'
       /\ (risk_score decision == 1351079888211149 # 2251799813685248)%Q
       /\ (risk_score decision' == float 0.6)%Q
       /\ ~ (risk_score decision == risk_score decision')%Q.
Proof.
  split.
  - unfold four_risks, four_risks_reordered. apply Permutation_map.
    apply perm_skip.
    apply Permutation_trans with [0.5%Q; 0.9%Q; 0.8%Q]; [apply perm_swap |].
    apply Permutation_trans with [0.5%Q; 0.8%Q; 0.9%Q];
      [apply perm_skip, perm_swap |].
    apply Permutation_trans with [0.8%Q; 0.5%Q; 0.9%Q]; [apply perm_swap |].
    apply perm_skip, perm_swap.
  - eexists. eexists. split; [reflexivity |]. split; [reflexivity |].
    cbn [risk_score].
    split; [vm_compute; reflexivity |].
    split; [vm_compute; reflexivity |].
    apply Qeq_bool_neq. vm_compute. reflexivity.
Qed.

(** Three responses with five reasoning entries each: the consensus keeps
    the first ten of the fifteen. *)
Lemma fifteen_entries_capped :
  exists decision,
    AIManager.consensus (H := ascii_ops)
      (repeat (mkAIResponse true (PyStr "") 0.5 "hold" 0.5
                 ["- a"; "- b"; "- c"; "- d"; "- e"] []) 3)
    = inr decision
    /\ reasoning decision =
       ["- a"; "- b"; "- c"; "- d"; "- e"; "- a"; "- b"; "- c"; "- d"; "- e"].
Proof. eexists. split; reflexivity. Qed.

(** A tie of one vote each gives "hold". *)
Lemma one_vote_each_hold :
  exists decision,
    AIManager.consensus (H := ascii_ops) one_vote_each = inr decision
    /\ recommendation decision = "hold".
Proof. eexists. split; reflexivity. Qed.

Lemma analyze_token_registration_order_witness :
  exists outcomes,
    AIManager.analyze_token
      (AIManager._setup_providers (H := ascii_ops) sample_LocalAIProvider
         sample_config)
      sample_net [1; 0]%nat
    = Some (inr outcomes)
    /\ length outcomes = 2%nat.
Proof.
  destruct (analyze_token_registration_order
              (AIManager._setup_providers (H := ascii_ops)
                 sample_LocalAIProvider sample_config)
              sample_net [1; 0]%nat (perm_swap 0%nat 1%nat []))
    as (outcomes & Hret & Hlen & _).
  exists outcomes. split; [exact Hret | exact Hlen].
Defined.

Lemma gemini_key_absent_excluded_witness :
  map Base.name
    (AIManager._setup_providers (H := ascii_ops) sample_LocalAIProvider
       sample_config)
  = ["OllamaProvider"; "LocalAIProvider"].
Proof.
  destruct (gemini_key_absent_excluded (H := ascii_ops) sample_LocalAIProvider
              sample_config
              [("enabled", PyBool true); ("api_key", PyNone);
               ("model", PyStr "gemini-1.5-flash"); ("timeout", PyInt 30)]
              eq_refl eq_refl)
    as (_ & _ & _ & _ & Hreg).
  rewrite Hreg. reflexivity.
Defined.

Lemma sample_config_keys :
  List.NoDup (map fst (providers_section sample_config)).
Proof.
  repeat constructor; simpl; intuition discriminate.
Qed.

Lemma sample_config_permuted :
  Permutation (providers_section sample_config)
    (providers_section sample_config_reordered).
Proof. apply perm_swap. Qed.

Lemma registry_fixed_kind_order_witness :
  AIManager._setup_providers (H := ascii_ops) sample_LocalAIProvider
    sample_config_reordered
  = AIManager._setup_providers (H := ascii_ops) sample_LocalAIProvider
      sample_config.
Proof.
  destruct (registry_fixed_kind_order (H := ascii_ops) sample_LocalAIProvider
              sample_config sample_config_reordered sample_net [1; 0]%nat
              sample_config_keys sample_config_permuted
              (perm_swap 0%nat 1%nat []))
    as (_ & _ & Hsame & _).
  exact Hsame.
Defined.

(** * Further properties of the interpreters and the adapters *)

Section InterpreterExtras.
Context `{PyStrOps}.

Lemma not_risky_not_extremely (t : string) :
  contains "risky" t = false -> contains "extremely risky" t = false.
Proof.
  intros Hr. destruct (contains "extremely risky" t) eqn:He; [| reflexivity].
  apply extremely_risky_is_risky in He. congruence.
Qed.

(** **** X1.  The interpreters of Gemini and LM Studio agree on every reply
    in success, recommendation and confidence; their risk scores differ
    only on a text with "very dangerous", where LM Studio answers 0.9 and
    Gemini 0.5. *)
Theorem gemini_lmstudio_agree (model text : pyval) :
  success (Gemini._parse_analysis_response model text)
  = success (LMStudio._parse_analysis_response model text)
  /\ recommendation (Gemini._parse_analysis_response model text)
     = recommendation (LMStudio._parse_analysis_response model text)
  /\ confidence (Gemini._parse_analysis_response model text)
     = confidence (LMStudio._parse_analysis_response model text)
  /\ (risk_score (Gemini._parse_analysis_response model text)
      <> risk_score (LMStudio._parse_analysis_response model text) ->
      exists s, text = PyStr s
                /\ contains "very dangerous" (lower s) = true
                /\ risk_score (Gemini._parse_analysis_response model text) = 0.5%Q
                /\ risk_score (LMStudio._parse_analysis_response model text) = 0.9%Q).
Proof.
  destruct text as [| b | z | q | s | l | d | rs];
    try (repeat split; try reflexivity; intros Hne; now contradiction Hne).
  rewrite gemini_parse_str, lmstudio_parse_str.
  cbn [success recommendation confidence risk_score].
  repeat split; try reflexivity.
  unfold Gemini.extract_risk_score, LMStudio.extract_risk_score.
  destruct (contains "high risk" (lower s)); [intros Hne; now contradiction Hne |].
  destruct (contains "risky" (lower s)) eqn:Hr;
    [intros Hne; now contradiction Hne |].
  cbn [orb].
  destruct (contains "low risk" (lower s) || contains "safe" (lower s));
    [intros Hne; now contradiction Hne |].
  rewrite (not_risky_not_extremely _ Hr). cbn [orb].
  destruct (contains "very dangerous" (lower s)) eqn:Hd.
  - intros _. exists s.
    split; [reflexivity | split; [exact Hd | split; reflexivity]].
  - intros Hne. now contradiction Hne.
Qed.

(** **** X2.  A reply with "extremely risky" is scored 0.8 by the Gemini and
    LM Studio interpreters: the text has "risky", which they test first.
    The Gemini interpreter never answers 0.9. *)
Theorem extremely_risky_scored_as_risky (model : pyval) (s : string) :
  contains "extremely risky" (lower s) = true ->
  risk_score (Gemini._parse_analysis_response model (PyStr s)) = 0.8%Q
  /\ risk_score (LMStudio._parse_analysis_response model (PyStr s)) = 0.8%Q
  /\ (forall text : pyval,
        risk_score (Gemini._parse_analysis_response model text) <> 0.9%Q).
Proof.
  intros He. apply extremely_risky_is_risky in He.
  rewrite gemini_parse_str, lmstudio_parse_str. cbn [risk_score].
  unfold Gemini.extract_risk_score, LMStudio.extract_risk_score.
  rewrite He, orb_true_r. repeat split.
  intros text. destruct text; try discriminate.
  rewrite gemini_parse_str. cbn [risk_score].
  apply gemini_risk_never_extreme.
Qed.

(** **** X3.  The reasoning an interpreter extracts from a text is a
    subsequence of the stripped lines of the text, in their order, and each
    entry starts with a marker of the interpreter (or, for Ollama, has one
    of the keywords in lower case). *)
Theorem reasoning_from_marked_lines (model : pyval) (s : string) :
  (reasoning (Gemini._parse_analysis_response model (PyStr s))
     `sublist_of` map strip (split newline s)
   /\ Forall (fun line => startswith line Gemini.markers = true)
        (reasoning (Gemini._parse_analysis_response model (PyStr s))))
  /\ (reasoning (LMStudio._parse_analysis_response model (PyStr s))
        `sublist_of` map strip (split newline s)
      /\ Forall (fun line => startswith line LMStudio.markers = true)
           (reasoning (LMStudio._parse_analysis_response model (PyStr s))))
  /\ (reasoning (Ollama._parse_analysis_response model (PyStr s))
        `sublist_of` map strip (split newline s)
      /\ Forall (fun line =>
                   startswith line Ollama.markers = true
                   \/ any_of Ollama.keywords (lower line) = true)
           (reasoning (Ollama._parse_analysis_response model (PyStr s)))).
Proof.
  rewrite gemini_parse_str, lmstudio_parse_str, ollama_parse_str.
  cbn [reasoning].
  unfold Gemini.extract_reasoning, LMStudio.extract_reasoning,
    Ollama.extract_reasoning.
  repeat split.
  - etransitivity; [apply sublist_take | apply sublist_filter].
  - apply Forall_take. apply Forall_forall. intros line Hin.
    apply list_elem_of_filter in Hin. destruct Hin as [Hm _].
    now apply Is_true_true.
  - etransitivity; [apply sublist_take | apply sublist_filter].
  - apply Forall_take. apply Forall_forall. intros line Hin.
    apply list_elem_of_filter in Hin. destruct Hin as [Hm _].
    now apply Is_true_true.
  - etransitivity; [apply sublist_take | apply sublist_filter].
  - apply Forall_take. apply Forall_forall. intros line Hin.
    apply list_elem_of_filter in Hin. destruct Hin as [Hm _].
    apply Is_true_true in Hm. apply orb_true_iff in Hm. exact Hm.
Qed.

(** **** X4.  An adapter call returns a response and never raises.  The
    response is successful exactly when the backend delivered a value at
    the text field (for Ollama also when the field is missing, which it
    reads as the empty text); every other response is the default failure:
    "hold", confidence 0.0, risk 0.5, no reasoning and no metadata, so no
    provider name. *)
Theorem adapter_failures_are_defaults (model : pyval) (reply : backend_reply) :
  (exists r, Gemini.analyze_token model reply = inr r
             /\ success r = match reply with Reply _ => true | _ => false end
             /\ (success r = false ->
                 exists message, r = AIResponse_default false (PyStr message)))
  /\ (exists r, LMStudio.analyze_token model reply = inr r
                /\ success r = match reply with Reply _ => true | _ => false end
                /\ (success r = false ->
                    exists message, r = AIResponse_default false (PyStr message)))
  /\ (exists r, Ollama.analyze_token model reply = inr r
                /\ success r = match reply with
                               | Reply _ | FieldMissing => true
                               | _ => false
                               end
                /\ (success r = false ->
                    exists message, r = AIResponse_default false (PyStr message))).
Proof.
  repeat split; destruct reply as [e | t | | text]; eexists;
    (split; [reflexivity |]);
    try (split; [reflexivity | intros _; eexists; reflexivity]);
    try (split; [destruct text; reflexivity
                | destruct text; intros Hs; discriminate Hs]).
  split; [reflexivity | intros Hs; discriminate Hs].
Qed.

End InterpreterExtras.

(** * Further properties of the registry and the health check *)

Section RegistryExtras.
Context `{PyStrOps}.
Variable LocalAIProvider : dict -> result AIProvider.

Lemma active_names key ctor (provider_configs : AIManager.ProviderConfigs)
    (class_name : string) :
  (forall cfg provider, ctor cfg = inr provider ->
                        Base.name provider = class_name) ->
  map Base.name (active key ctor provider_configs) `sublist_of` [class_name].
Proof.
  intros Hname. unfold active.
  destruct (dict_lookup key provider_configs) as [cfg |];
    [| apply sublist_nil_l].
  destruct (truthy (dict_get cfg "enabled" (PyBool false)));
    [| apply sublist_nil_l].
  destruct (ctor cfg) as [e | provider] eqn:Hc; [apply sublist_nil_l |].
  simpl. rewrite (Hname cfg provider Hc). reflexivity.
Qed.

Lemma constructor_names :
  (forall cfg provider, OllamaProvider cfg = inr provider ->
                        Base.name provider = "OllamaProvider")
  /\ (forall cfg provider, LMStudioProvider cfg = inr provider ->
                           Base.name provider = "LMStudioProvider")
  /\ (forall cfg provider, GeminiProvider cfg = inr provider ->
                           Base.name provider = "GeminiProvider").
Proof.
  repeat split; intros cfg provider Hc.
  - injection Hc as <-. reflexivity.
  - injection Hc as <-. reflexivity.
  - unfold GeminiProvider in Hc.
    destruct (negb (truthy (dict_get cfg "api_key" PyNone)));
      [discriminate | injection Hc as <-; reflexivity].
Qed.

(** **** X5.  The registry holds at most four providers.  When the LocalAI
    constructor names its provider after its class, as the base class
    does, the names of the registered providers are a subsequence of
    OllamaProvider, LMStudioProvider, LocalAIProvider, GeminiProvider, so
    they are pairwise distinct. *)
Theorem registry_names_bounded (config : AIManager.Config) :
  (forall cfg provider, LocalAIProvider cfg = inr provider ->
                        Base.name provider = "LocalAIProvider") ->
  (AIManager.get_provider_count
     (AIManager._setup_providers LocalAIProvider config) <= 4)%nat
  /\ AIManager.get_provider_names
       (AIManager._setup_providers LocalAIProvider config)
     `sublist_of`
     ["OllamaProvider"; "LMStudioProvider"; "LocalAIProvider"; "GeminiProvider"]
  /\ List.NoDup
       (AIManager.get_provider_names
          (AIManager._setup_providers LocalAIProvider config)).
Proof.
  intros Hlocal.
  destruct constructor_names as (Ho & Hl & Hg).
  assert (Hsub :
    AIManager.get_provider_names
      (AIManager._setup_providers LocalAIProvider config)
    `sublist_of`
    ["OllamaProvider"; "LMStudioProvider"; "LocalAIProvider"; "GeminiProvider"]).
  { unfold AIManager.get_provider_names.
    rewrite setup_providers_blocks, !map_app.
    change ["OllamaProvider"; "LMStudioProvider"; "LocalAIProvider";
            "GeminiProvider"]
      with (["OllamaProvider"] ++ ["LMStudioProvider"] ++ ["LocalAIProvider"]
            ++ ["GeminiProvider"])%list.
    repeat apply sublist_app; now apply active_names. }
  split; [| split; [exact Hsub |]].
  - unfold AIManager.get_provider_count.
    rewrite <- (length_map Base.name).
    apply (sublist_length _ _ Hsub).
  - apply NoDup_ListNoDup. eapply sublist_NoDup; [| exact Hsub].
    apply NoDup_ListNoDup.
    repeat constructor; simpl; intuition discriminate.
Qed.

(** **** X6.  The registry reads the four entries "ollama", "lmstudio",
    "localai" and "gemini" of the providers mapping and nothing else: two
    configurations that agree on these four give the same providers. *)
Theorem registry_reads_four_entries (config config' : AIManager.Config) :
  (forall key, In key ["ollama"; "lmstudio"; "localai"; "gemini"] ->
     dict_lookup key (providers_section config)
     = dict_lookup key (providers_section config')) ->
  AIManager._setup_providers LocalAIProvider config
  = AIManager._setup_providers LocalAIProvider config'.
Proof.
  intros Hsame. rewrite !setup_providers_blocks. unfold active.
  rewrite (Hsame "ollama"), (Hsame "lmstudio"), (Hsame "localai"),
    (Hsame "gemini") by (simpl; auto).
  reflexivity.
Qed.

(** **** X7.  An Ollama entry that is present with a true "enabled" is
    always registered, and first: the head of the registry is the provider
    named OllamaProvider that holds this entry as its configuration. *)
Theorem enabled_ollama_is_first (config : AIManager.Config) (cfg : dict) :
  dict_lookup "ollama" (providers_section config) = Some cfg ->
  truthy (dict_get cfg "enabled" (PyBool false)) = true ->
  exists provider rest,
    AIManager._setup_providers LocalAIProvider config = provider :: rest
    /\ OllamaProvider cfg = inr provider
    /\ Base.name provider = "OllamaProvider"
    /\ Base.config provider = cfg.
Proof.
  intros Hk Hen. rewrite setup_providers_blocks.
  unfold active at 1. rewrite Hk, Hen. cbn [OllamaProvider ret].
  eexists. eexists. split; [reflexivity |]. repeat split.
Qed.

End RegistryExtras.

Section HealthExtras.

Lemma dict_set_fresh {V : Type} (k : string) (v : V) (d : list (string * V)) :
  ~ In k (map fst d) -> dict_set k v d = (d ++ [(k, v)])%list.
Proof.
  induction d as [| [k' v'] d IH]; intros Hnot; simpl.
  - reflexivity.
  - destruct (String.eqb_spec k k') as [-> | _].
    + exfalso. apply Hnot. left. reflexivity.
    + rewrite IH; [reflexivity |]. intros Hin. apply Hnot. right. exact Hin.
Qed.

Lemma dict_lookup_set {V : Type} (k k' : string) (v : V)
    (d : list (string * V)) :
  dict_lookup k' (dict_set k v d)
  = if String.eqb k' k then Some v else dict_lookup k' d.
Proof.
  induction d as [| [k0 v0] d IH]; simpl.
  - reflexivity.
  - destruct (String.eqb_spec k k0) as [-> | Hne]; simpl.
    + destruct (String.eqb k' k0); reflexivity.
    + rewrite IH. destruct (String.eqb_spec k' k0) as [-> | _];
        [| reflexivity].
      destruct (String.eqb_spec k0 k) as [E | _];
        [congruence | reflexivity].
Qed.

Lemma check_provider_health_from (providers : list AIProvider)
    (health_check : AIProvider -> result bool) (health_status : dict) :
  List.NoDup (map fst health_status ++ map Base.name providers) ->
  fold_left
    (fun health_status provider =>
       match health_check provider with
       | inr is_healthy =>
           dict_set (Base.name provider) (PyBool is_healthy) health_status
       | inl _ =>
           dict_set (Base.name provider) (PyBool false) health_status
       end)
    providers health_status
  = (health_status
     ++ map (fun provider =>
               (Base.name provider,
                PyBool match health_check provider with
                       | inr is_healthy => is_healthy
                       | inl _ => false
                       end))
            providers)%list.
Proof.
  revert health_status.
  induction providers as [| p providers IH]; intros health_status Hnd; simpl.
  - now rewrite app_nil_r.
  - assert (Hfresh : ~ In (Base.name p) (map fst health_status)).
    { intros Hin. apply NoDup_remove_2 in Hnd. apply Hnd.
      apply in_or_app. left. exact Hin. }
    assert (Hnd' : List.NoDup
                     (map fst (health_status
                               ++ [(Base.name p,
                                    PyBool match health_check p with
                                           | inr b => b
                                           | inl _ => false
                                           end)])
                      ++ map Base.name providers)).
    { rewrite map_app. simpl. rewrite <- app_assoc. simpl. exact Hnd. }
    destruct (health_check p) as [e | b];
      rewrite dict_set_fresh by exact Hfresh;
      rewrite IH by exact Hnd'; rewrite <- app_assoc; reflexivity.
Qed.

(** **** X8.  For providers with pairwise distinct names the health report
    has one entry per provider, in the order of the registry, under the
    provider's name; the entry is false when the check raised.  The check
    of an adapter is true exactly on status 200. *)
Theorem check_provider_health_entries (providers : list AIProvider)
    (health_check : AIProvider -> result bool) :
  List.NoDup (map Base.name providers) ->
  Health.check_provider_health providers health_check
  = map (fun provider =>
           (Base.name provider,
            PyBool match health_check provider with
                   | inr is_healthy => is_healthy
                   | inl _ => false
                   end))
        providers
  /\ (forall reply,
        adapter_health_check reply
        = inr match reply with
              | HealthStatus status => Z.eqb status 200
              | HealthRaises _ => false
              end).
Proof.
  intros Hnd. split.
  - unfold Health.check_provider_health.
    now rewrite check_provider_health_from.
  - intros [e | status]; reflexivity.
Qed.

End HealthExtras.

(** * Further properties of the consensus *)

Section ConsensusExtras.
Context `{PyStrOps}.

Lemma provider_sections_raises (responses : list AIResponse) :
  forallb labelled responses = false ->
  forall i consensus_text,
    exists e,
      AIManager.provider_sections i responses consensus_text = inl e
      /\ exc_class e = "AttributeError".
Proof.
  induction responses as [| r responses IH]; intros Hl i consensus_text.
  - discriminate Hl.
  - simpl in Hl. cbn [AIManager.provider_sections].
    unfold AIManager.provider_label, dict_get.
    destruct (labelled r) eqn:Hr; simpl in Hl; unfold labelled in Hr.
    + destruct (dict_lookup "provider" (metadata r)) as [v |].
      * destruct v; try discriminate Hr. cbn [py_upper bind ret].
        apply (IH Hl).
      * cbn [py_upper bind ret]. apply (IH Hl).
    + destruct (dict_lookup "provider" (metadata r)) as [v |];
        [| discriminate Hr].
      destruct v; try discriminate Hr;
        (eexists; split; [reflexivity | reflexivity]).
Qed.

(** **** X9.  On a non-empty list in which some response carries a provider
    label that is not a string, the consensus raises an [AttributeError]:
    the report puts every label in upper case. *)
Theorem consensus_label_error (responses : list AIResponse) :
  responses <> [] ->
  forallb labelled responses = false ->
  exists e,
    AIManager.consensus responses = inl e
    /\ exc_class e = "AttributeError".
Proof.
  intros Hne Hl. destruct responses as [| r responses]; [contradiction |].
  unfold AIManager.consensus.
  set (rs := r :: responses) in *.
  assert (Hdiv : forall x, AIManager.py_div x (length rs)
                           = inr (x / inject_Z (Z.of_nat (length rs)))%Q)
    by reflexivity.
  rewrite !Hdiv. cbn [bind].
  match goal with
  | |- context [AIManager.provider_sections 0 rs ?txt] =>
      destruct (provider_sections_raises rs Hl 0%nat txt) as (e & -> & He)
  end.
  exists e. split; [reflexivity | exact He].
Qed.

(** A response votes for one value at most. *)
Lemma votes_total (responses : list AIResponse) :
  (AIManager.votes "buy" responses + AIManager.votes "sell" responses
   + AIManager.votes "hold" responses <= length responses)%nat.
Proof.
  induction responses as [| r responses IH].
  - reflexivity.
  - rewrite !votes_cons. cbn [length].
    destruct (String.eqb_spec (recommendation r) "buy") as [E | _];
      [rewrite E; simpl; lia |].
    destruct (String.eqb_spec (recommendation r) "sell") as [E | _];
      [rewrite E; simpl; lia |].
    destruct (String.eqb (recommendation r) "hold"); simpl; lia.
Qed.

Lemma votes_Permutation (value : string) (responses responses' : list AIResponse) :
  Permutation responses responses' ->
  AIManager.votes value responses = AIManager.votes value responses'.
Proof.
  intros Hperm. unfold AIManager.votes.
  apply Permutation_length. now apply filter_Permutation.
Qed.

Lemma sum_Permutation (xs ys : list Q) :
  Permutation xs ys ->
  (fold_right Qplus 0 xs == fold_right Qplus 0 ys)%Q.
Proof.
  induction 1 as [| x xs ys _ IH | x y xs | xs ys zs _ IH1 _ IH2]; simpl.
  - reflexivity.
  - now rewrite IH.
  - lra.
  - now rewrite IH1.
Qed.

Lemma labelled_Permutation (responses responses' : list AIResponse) :
  Permutation responses responses' ->
  forallb labelled responses = true ->
  forallb labelled responses' = true.
Proof.
  intros Hperm Hl. apply forallb_forall. intros r Hin.
  apply (proj1 (forallb_forall labelled responses) Hl).
  apply Permutation_in with (l := responses'); [now symmetry | exact Hin].
Qed.

Lemma mean_Permutation (xs ys : list Q) :
  Permutation xs ys ->
  (arithmetic_mean xs == arithmetic_mean ys)%Q.
Proof.
  intros Hperm. unfold arithmetic_mean.
  now rewrite (sum_Permutation xs ys Hperm), (Permutation_length Hperm).
Qed.

(** **** X10.  The recommendation of the consensus does not depend on the
    order of the responses.  Its confidence and its risk, summed in
    binary64, may change with the order, but by no more than 2 * 10^-9
    (with either loop of the builtin sum, for at most 10^6 responses with
    confidences and risks in [0, 1]). *)
Theorem consensus_order_independent (loop : summation)
    (responses responses' : list AIResponse) :
  Permutation responses responses' ->
  responses <> [] ->
  (Z.of_nat (length responses) <= 1000000)%Z ->
  Forall scores_in_range responses ->
  forallb labelled responses = true ->
  exists decision decision',
    AIManager.consensus64 loop responses = inr decision
    /\ AIManager.consensus64 loop responses' = inr decision'
    /\ recommendation decision = recommendation decision'
    /\ (Qabs (confidence decision - confidence decision')
        <= 2 # 1000000000)%Q
    /\ (Qabs (risk_score decision - risk_score decision')
        <= 2 # 1000000000)%Q.
Proof.
  intros Hperm Hne Hlen Hall Hl.
  assert (Hne' : responses' <> []).
  { intros ->. symmetry in Hperm. apply Permutation_nil in Hperm.
    contradiction. }
  pose proof (labelled_Permutation _ _ Hperm Hl) as Hl'.
  assert (Hlen' : (Z.of_nat (length responses') <= 1000000)%Z)
    by now rewrite <- (Permutation_length Hperm).
  assert (Hall' : Forall scores_in_range responses')
    by (eapply Permutation_Forall; eassumption).
  destruct (consensus64_returns loop responses Hne Hl) as [decision Hd].
  destruct (consensus64_returns loop responses' Hne' Hl') as [decision' Hd'].
  exists decision, decision'. split; [exact Hd |]. split; [exact Hd' |].
  destruct (consensus64_returned loop responses decision Hne Hd)
    as (_ & -> & _).
  destruct (consensus64_returned loop responses' decision' Hne' Hd')
    as (_ & -> & _).
  rewrite <- !(votes_Permutation _ _ _ Hperm).
  split; [reflexivity |].
  destruct (consensus64_scores loop responses decision Hne Hlen Hall Hd)
    as [Hc Hk].
  destruct (consensus64_scores loop responses' decision' Hne' Hlen' Hall' Hd')
    as [Hc' Hk'].
  rewrite <- (mean_Permutation (map confidence responses)
                (map confidence responses')) in Hc'
    by now apply Permutation_map.
  rewrite <- (mean_Permutation (map risk_score responses)
                (map risk_score responses')) in Hk'
    by now apply Permutation_map.
  apply Qabs_Qle_condition in Hc, Hk, Hc', Hk'.
  split; apply Qabs_Qle_condition; split; lra.
Qed.

(** **** X11.  A value, among "buy", "sell" and "hold", that more than half
    of the responses recommend (the responses whose recommendation it is
    are more than half of the list) is the recommendation of the
    consensus. *)
Theorem consensus_strict_majority (responses : list AIResponse)
    (value : string) :
  In value ["buy"; "sell"; "hold"] ->
  (length responses < 2 * tally value responses)%nat ->
  forallb labelled responses = true ->
  exists decision,
    AIManager.consensus responses = inr decision
    /\ recommendation decision = value.
Proof.
  intros Hin Hmaj Hl. rewrite <- votes_tally in Hmaj.
  assert (Hne : responses <> []).
  { intros ->. simpl in Hmaj. unfold AIManager.votes in Hmaj.
    simpl in Hmaj. lia. }
  destruct (consensus_fields responses Hne Hl) as [report ->].
  eexists. split; [reflexivity |]. cbn [recommendation].
  pose proof (votes_total responses) as Htot.
  destruct (three_values value Hin) as [-> | [-> | ->]].
  - destruct (Nat.ltb_spec (AIManager.votes "sell" responses)
                (AIManager.votes "buy" responses)); [| lia].
    destruct (Nat.ltb_spec (AIManager.votes "hold" responses)
                (AIManager.votes "buy" responses)); [| lia].
    reflexivity.
  - destruct (Nat.ltb_spec (AIManager.votes "sell" responses)
                (AIManager.votes "buy" responses)); [lia |].
    destruct (Nat.ltb_spec (AIManager.votes "buy" responses)
                (AIManager.votes "sell" responses)); [| lia].
    destruct (Nat.ltb_spec (AIManager.votes "hold" responses)
                (AIManager.votes "sell" responses)); [| lia].
    reflexivity.
  - destruct (Nat.ltb_spec (AIManager.votes "sell" responses)
                (AIManager.votes "buy" responses)); cbn [andb];
      destruct (Nat.ltb_spec (AIManager.votes "hold" responses)
                  (AIManager.votes "buy" responses)); cbn [andb]; try lia;
      destruct (Nat.ltb_spec (AIManager.votes "buy" responses)
                  (AIManager.votes "sell" responses)); cbn [andb];
      destruct (Nat.ltb_spec (AIManager.votes "hold" responses)
                  (AIManager.votes "sell" responses)); cbn [andb]; try lia;
      reflexivity.
Qed.

End ConsensusExtras.

Section FailureExtras.
Context `{PyStrOps}.

Lemma votes_none (value : string) (responses : list AIResponse) :
  Forall (fun r => recommendation r <> value) responses ->
  AIManager.votes value responses = 0%nat.
Proof.
  induction 1 as [| r responses Hr _ IH].
  - reflexivity.
  - rewrite votes_cons, IH.
    destruct (String.eqb_spec (recommendation r) value);
      [contradiction | reflexivity].
Qed.

Lemma sum_constant (c : Q) (xs : list Q) :
  Forall (fun x => x = c) xs ->
  (fold_right Qplus 0 xs == c * inject_Z (Z.of_nat (length xs)))%Q.
Proof.
  induction 1 as [| x xs -> _ IH].
  - simpl. change (inject_Z 0) with 0%Q. ring.
  - cbn [fold_right length]. rewrite IH.
    rewrite Nat2Z.inj_succ. unfold Z.succ. rewrite inject_Z_plus.
    change (inject_Z 1) with 1%Q. ring.
Qed.

Lemma length_positive {A : Type} (l : list A) :
  l <> [] -> ~ (inject_Z (Z.of_nat (length l)) == 0)%Q.
Proof.
  intros Hne Hz. destruct l; [contradiction |].
  unfold Qeq in Hz. cbn [Qnum Qden inject_Z length] in Hz.
  rewrite Nat2Z.inj_succ in Hz. lia.
Qed.

(** **** X12.  When every response is a failure built from the defaults, the
    consensus is nevertheless returned as successful: it recommends "hold"
    with confidence 0, risk 0.5 and no reasoning. *)
Theorem consensus_of_failures (responses : list AIResponse) :
  responses <> [] ->
  forallb labelled responses = true ->
  Forall (fun r => exists text meta, r = AIResponse_meta false text meta)
    responses ->
  exists decision,
    AIManager.consensus responses = inr decision
    /\ success decision = true
    /\ recommendation decision = "hold"
    /\ (confidence decision == 0)%Q
    /\ (risk_score decision == 0.5)%Q
    /\ reasoning decision = [].
Proof.
  intros Hne Hl Hfail.
  destruct (consensus_fields responses Hne Hl) as [report ->].
  eexists. split; [reflexivity |].
  cbn [success recommendation confidence risk_score reasoning].
  assert (Hbuy : AIManager.votes "buy" responses = 0%nat).
  { apply votes_none. eapply Forall_impl; [exact Hfail |].
    intros r (text & meta & ->). discriminate. }
  assert (Hsell : AIManager.votes "sell" responses = 0%nat).
  { apply votes_none. eapply Forall_impl; [exact Hfail |].
    intros r (text & meta & ->). discriminate. }
  assert (Hconf : Forall (fun x => x = 0.0%Q) (map confidence responses)).
  { clear -Hfail. induction Hfail as [| r rs (text & meta & ->) _ IH];
      simpl; constructor; [reflexivity | exact IH]. }
  assert (Hrisk : Forall (fun x => x = 0.5%Q) (map risk_score responses)).
  { clear -Hfail. induction Hfail as [| r rs (text & meta & ->) _ IH];
      simpl; constructor; [reflexivity | exact IH]. }
  assert (Hreason : concat (map reasoning responses) = []).
  { clear -Hfail. induction Hfail as [| r rs (text & meta & ->) _ IH];
      simpl; [reflexivity | exact IH]. }
  pose proof (length_positive responses Hne) as Hpos.
  split; [reflexivity |].
  split; [rewrite Hbuy, Hsell; reflexivity |].
  rewrite !py_sum_fold_right.
  rewrite (sum_constant _ _ Hconf), (sum_constant _ _ Hrisk), !length_map.
  split; [| split].
  - field. exact Hpos.
  - field. exact Hpos.
  - rewrite Hreason. reflexivity.
Qed.

End FailureExtras.

Section EndToEnd.
Context `{PyStrOps}.
Variable LocalAIProvider : dict -> result AIProvider.

(** The calls of the providers that the constructors of the sources build
    return labelled responses in range. *)
Lemma source_constructors_sound (cfg : dict) (provider : AIProvider) :
  OllamaProvider cfg = inr provider
  \/ LMStudioProvider cfg = inr provider
  \/ GeminiProvider cfg = inr provider ->
  forall reply r,
    Base.analyze_token provider reply = inr r ->
    labelled r = true /\ well_formed 5 r.
Proof.
  intros Hc reply r Hr.
  assert (Hcases :
    Gemini.analyze_token (dict_get (Base.config provider) "model"
                            (PyStr "gemini-1.5-flash")) reply = inr r
    \/ LMStudio.analyze_token (dict_get (Base.config provider) "model"
                                 (PyStr "local-model")) reply = inr r
    \/ Ollama.analyze_token (dict_get (Base.config provider) "model"
                               (PyStr "llama3.2")) reply = inr r).
  { destruct Hc as [Hc | [Hc | Hc]].
    - injection Hc as <-. right. right. exact Hr.
    - injection Hc as <-. right. left. exact Hr.
    - unfold GeminiProvider in Hc.
      destruct (negb (truthy (dict_get cfg "api_key" PyNone)));
        [discriminate |].
      injection Hc as <-. left. exact Hr. }
  split.
  - destruct Hcases as [Hg | [Hl | Ho]].
    + eapply adapters_labelled. left. exact Hg.
    + eapply adapters_labelled. right. left. exact Hl.
    + eapply adapters_labelled. right. right. exact Ho.
  - destruct Hcases as [Hg | [Hl | Ho]].
    + destruct (adapters_well_formed
                  (dict_get (Base.config provider) "model"
                     (PyStr "gemini-1.5-flash")) reply)
        as ((r' & Hr' & Hwf) & _).
      congruence.
    + destruct (adapters_well_formed
                  (dict_get (Base.config provider) "model"
                     (PyStr "local-model")) reply)
        as (_ & (r' & Hr' & Hwf) & _).
      congruence.
    + destruct (adapters_well_formed
                  (dict_get (Base.config provider) "model"
                     (PyStr "llama3.2")) reply)
        as (_ & _ & (r' & Hr' & Hwf)).
      congruence.
Qed.

Lemma fan_out_sound (net : AIManager.Net) (providers : list AIProvider)
    (outcomes : list AIResponse) :
  Forall (fun provider =>
            forall reply r, Base.analyze_token provider reply = inr r ->
                            labelled r = true /\ well_formed 5 r)
    providers ->
  Forall2
    (fun provider outcome =>
       AIManager._safe_analyze_token provider (net (Base.name provider))
       = inr outcome)
    providers outcomes ->
  forallb labelled outcomes = true /\ Forall (well_formed 5) outcomes.
Proof.
  intros Hsound Hall. induction Hall as [| p o ps os Ho _ IH].
  - split; [reflexivity | constructor].
  - inversion Hsound as [| ? ? Hp Hps]; subst.
    destruct (IH Hps) as [IHl IHw].
    assert (Hlab : labelled o = true).
    { eapply safe_analyze_token_labelled; [| exact Ho].
      intros r' Hr'. exact (proj1 (Hp _ _ Hr')). }
    assert (Hwf : well_formed 5 o).
    { destruct (safe_analyze_token_well_formed p (net (Base.name p)))
        as (r' & Hr' & Hw); [intros r' Hr'; exact (proj2 (Hp _ _ Hr')) |].
      congruence. }
    split; [simpl; now rewrite Hlab, IHl | now constructor].
Qed.

(** **** X13.  For the registry built from any configuration, with a LocalAI
    adapter whose calls return labelled responses in range (or raise), and
    for any order in which the providers finish, [get_consensus_analysis]
    returns a decision: it does not raise, and the decision is in range. *)
Theorem consensus_of_registry_returns (config : AIManager.Config)
    (net : AIManager.Net) (order : list nat) :
  (forall cfg provider reply r,
      LocalAIProvider cfg = inr provider ->
      Base.analyze_token provider reply = inr r ->
      labelled r = true /\ well_formed 5 r) ->
  Permutation order
    (seq 0 (length (AIManager._setup_providers LocalAIProvider config))) ->
  exists decision,
    AIManager.get_consensus_analysis
      (AIManager._setup_providers LocalAIProvider config) net order
    = Some (inr decision)
    /\ well_formed 10 decision.
Proof.
  intros Hlocal Hperm.
  assert (Hsound :
    Forall (fun provider =>
              forall reply r, Base.analyze_token provider reply = inr r ->
                              labelled r = true /\ well_formed 5 r)
      (AIManager._setup_providers LocalAIProvider config)).
  { rewrite setup_providers_blocks. repeat apply Forall_app_2;
      apply Forall_forall; intros p Hin; apply list_elem_of_In in Hin;
      apply (proj2 (active_cases _ _ _)) in Hin;
      destruct Hin as (cfg & _ & _ & Hc).
    - apply (source_constructors_sound cfg). auto.
    - apply (source_constructors_sound cfg). auto.
    - intros reply r. now apply (Hlocal cfg).
    - apply (source_constructors_sound cfg). auto. }
  destruct (analyze_token_outcomes _ net order Hperm)
    as (outcomes & Hret & Hall).
  destruct (fan_out_sound net _ outcomes Hsound Hall) as [Hl Hwf].
  destruct (consensus_well_formed outcomes Hl Hwf) as (decision & Hd & Hw).
  exists decision. split; [| exact Hw].
  rewrite (get_consensus_analysis_consensus _ _ _ _ Hret). now rewrite Hd.
Qed.

End EndToEnd.

(** * Properties of the trader *)

Section TraderExtras.
Context `{PyStrOps}.
Variable TradeResult : Type.
Variable TradeResult_failed : string -> TradeResult.

Lemma should_trade_iff (self : AIEnhancedTrader.Trader) (analysis : AIResponse) :
  AIEnhancedTrader._should_trade_based_on_analysis self analysis = true
  <-> success analysis = true
      /\ (AIEnhancedTrader.min_confidence self <= confidence analysis)%Q
      /\ (risk_score analysis <= AIEnhancedTrader.max_risk_score self)%Q
      /\ (recommendation analysis = "buy" \/ recommendation analysis = "sell").
Proof.
  unfold AIEnhancedTrader._should_trade_based_on_analysis,
    AIEnhancedTrader.Qlt_bool.
  rewrite <- !Qle_bool_iff. cbn [existsb].
  destruct (success analysis); cbn [negb];
    [| split; [discriminate | intros [E _]; discriminate E]].
  destruct (Qle_bool (AIEnhancedTrader.min_confidence self)
              (confidence analysis)); cbn [negb];
    [| split; [discriminate | intros (_ & E & _); discriminate E]].
  destruct (Qle_bool (risk_score analysis)
              (AIEnhancedTrader.max_risk_score self)); cbn [negb];
    [| split; [discriminate | intros (_ & _ & E & _); discriminate E]].
  destruct (String.eqb_spec (recommendation analysis) "buy") as [Eb | Nb];
    cbn [orb negb]; [tauto |].
  destruct (String.eqb_spec (recommendation analysis) "sell") as [Es | Ns];
    cbn [orb negb]; [tauto |].
  split; [discriminate | intros (_ & _ & _ & [E | E]); contradiction].
Qed.

Lemma trade_on_analysis_calls (self : AIEnhancedTrader.Trader)
    (analysis : AIResponse) (buyer seller : result TradeResult) :
  let calls :=
    fst (AIEnhancedTrader.trade_on_analysis TradeResult TradeResult_failed
           self analysis buyer seller) in
  (calls = [] \/ calls = [AIEnhancedTrader.BuyerExecute]
   \/ calls = [AIEnhancedTrader.SellerExecute])
  /\ (calls <> [] ->
      AIEnhancedTrader._should_trade_based_on_analysis self analysis = true
      /\ (calls = [AIEnhancedTrader.BuyerExecute] ->
          recommendation analysis = "buy")
      /\ (calls = [AIEnhancedTrader.SellerExecute] ->
          recommendation analysis = "sell")).
Proof.
  unfold AIEnhancedTrader.trade_on_analysis.
  destruct (AIEnhancedTrader._should_trade_based_on_analysis self analysis);
    cbn [negb]; [| split; [auto | intros Hne; now contradiction Hne]].
  destruct (String.eqb_spec (recommendation analysis) "buy") as [Eb | Nb].
  - cbn [fst]. split; [auto |]. intros _.
    split; [reflexivity |]. split; [auto | discriminate].
  - destruct (String.eqb_spec (recommendation analysis) "sell") as [Es | Ns].
    + cbn [fst]. split; [auto |]. intros _.
      split; [reflexivity |]. split; [discriminate | auto].
    + cbn [fst]. split; [auto | intros Hne; now contradiction Hne].
Qed.

(** **** X14.  [analyze_and_trade] calls the buyer or the seller at most
    once, and only on an analysis (the consensus, or the response of the
    first provider when no consensus is required) that is successful, has
    a confidence of at least [min_confidence] and a risk of at most
    [max_risk_score]; the buyer only when that analysis recommends "buy",
    the seller only when it recommends "sell". *)
Theorem trade_calls_need_clearance (self : AIEnhancedTrader.Trader)
    (net : AIManager.Net) (order : list nat)
    (buyer seller : result TradeResult)
    (calls : list AIEnhancedTrader.call) (trade_result : TradeResult) :
  AIEnhancedTrader.analyze_and_trade TradeResult TradeResult_failed
    self net order buyer seller = Some (calls, trade_result) ->
  (calls = [] \/ calls = [AIEnhancedTrader.BuyerExecute]
   \/ calls = [AIEnhancedTrader.SellerExecute])
  /\ (calls <> [] ->
      exists analysis,
        (if AIEnhancedTrader.require_consensus self
         then AIManager.get_consensus_analysis
                (AIEnhancedTrader.ai_manager self) net order
              = Some (inr analysis)
         else exists rest,
                AIManager.analyze_token
                  (AIEnhancedTrader.ai_manager self) net order
                = Some (inr (analysis :: rest)))
        /\ success analysis = true
        /\ (AIEnhancedTrader.min_confidence self <= confidence analysis)%Q
        /\ (risk_score analysis <= AIEnhancedTrader.max_risk_score self)%Q
        /\ (calls = [AIEnhancedTrader.BuyerExecute] ->
            recommendation analysis = "buy")
        /\ (calls = [AIEnhancedTrader.SellerExecute] ->
            recommendation analysis = "sell")).
Proof.
  unfold AIEnhancedTrader.analyze_and_trade.
  assert (Hon : forall analysis c r,
             AIEnhancedTrader.trade_on_analysis TradeResult TradeResult_failed
               self analysis buyer seller = (c, r) ->
             (c = [] \/ c = [AIEnhancedTrader.BuyerExecute]
              \/ c = [AIEnhancedTrader.SellerExecute])
             /\ (c <> [] ->
                 success analysis = true
                 /\ (AIEnhancedTrader.min_confidence self
                     <= confidence analysis)%Q
                 /\ (risk_score analysis
                     <= AIEnhancedTrader.max_risk_score self)%Q
                 /\ (c = [AIEnhancedTrader.BuyerExecute] ->
                     recommendation analysis = "buy")
                 /\ (c = [AIEnhancedTrader.SellerExecute] ->
                     recommendation analysis = "sell"))).
  { intros analysis c r Hc.
    pose proof (trade_on_analysis_calls self analysis buyer seller) as Ht.
    cbn zeta in Ht. rewrite Hc in Ht. cbn [fst] in Ht.
    destruct Ht as [Hshape Hclear]. split; [exact Hshape |].
    intros Hne. destruct (Hclear Hne) as (Hs & Hb & Hsell).
    apply should_trade_iff in Hs. tauto. }
  destruct (AIEnhancedTrader.require_consensus self).
  - destruct (AIManager.get_consensus_analysis
                (AIEnhancedTrader.ai_manager self) net order)
      as [[e | analysis] |]; [| | discriminate].
    + intros Hr. injection Hr as <- _.
      split; [auto | intros Hne; now contradiction Hne].
    + destruct (AIEnhancedTrader.trade_on_analysis TradeResult
                  TradeResult_failed self analysis buyer seller)
        as [c r] eqn:Hc.
      intros Hr.
      assert (c = calls) as <- by (destruct r; now injection Hr).
      destruct (Hon analysis c r Hc) as [Hshape Hclear].
      split; [exact Hshape |]. intros Hne. exists analysis.
      split; [reflexivity | now apply Hclear].
  - destruct (AIManager.analyze_token
                (AIEnhancedTrader.ai_manager self) net order)
      as [[e | [| analysis rest]] |]; [| | | discriminate].
    + intros Hr. injection Hr as <- _.
      split; [auto | intros Hne; now contradiction Hne].
    + intros Hr. injection Hr as <- _.
      split; [auto | intros Hne; now contradiction Hne].
    + destruct (AIEnhancedTrader.trade_on_analysis TradeResult
                  TradeResult_failed self analysis buyer seller)
        as [c r] eqn:Hc.
      intros Hr.
      assert (c = calls) as <- by (destruct r; now injection Hr).
      destruct (Hon analysis c r Hc) as [Hshape Hclear].
      split; [exact Hshape |]. intros Hne. exists analysis.
      split; [exists rest; reflexivity | now apply Hclear].
Qed.

(** **** X15.  Without providers [analyze_and_trade] makes no call and
    returns a failed trade: "AI analysis criteria not met" when a consensus
    is required (the empty consensus is unsuccessful), "No AI analysis
    available" otherwise. *)
Theorem trade_without_providers (min_confidence max_risk_score : Q)
    (require_consensus : bool) (net : AIManager.Net) (order : list nat)
    (buyer seller : result TradeResult) :
  AIEnhancedTrader.analyze_and_trade TradeResult TradeResult_failed
    {| AIEnhancedTrader.ai_manager := [];
       AIEnhancedTrader.min_confidence := min_confidence;
       AIEnhancedTrader.max_risk_score := max_risk_score;
       AIEnhancedTrader.require_consensus := require_consensus |}
    net order buyer seller
  = Some ([], TradeResult_failed
                (if require_consensus then "AI analysis criteria not met"
                 else "No AI analysis available")).
Proof. destruct require_consensus; reflexivity. Qed.

End TraderExtras.

Section TraderConsensus.
Context `{PyStrOps}.
Variable TradeResult : Type.
Variable TradeResult_failed : string -> TradeResult.

(** **** X16.  When a consensus is required, the buyer is called only if
    strictly more of the providers' responses recommend "buy" than
    recommend "sell" and than recommend "hold", and the seller only if
    strictly more recommend "sell" than "buy" and than "hold". *)
Theorem consensus_trade_needs_plurality (self : AIEnhancedTrader.Trader)
    (net : AIManager.Net) (order : list nat)
    (buyer seller : result TradeResult)
    (responses : list AIResponse)
    (calls : list AIEnhancedTrader.call) (trade_result : TradeResult) :
  AIEnhancedTrader.require_consensus self = true ->
  AIManager.analyze_token (AIEnhancedTrader.ai_manager self) net order
  = Some (inr responses) ->
  AIEnhancedTrader.analyze_and_trade TradeResult TradeResult_failed
    self net order buyer seller = Some (calls, trade_result) ->
  (In AIEnhancedTrader.BuyerExecute calls ->
     (tally "sell" responses < tally "buy" responses)%nat
     /\ (tally "hold" responses < tally "buy" responses)%nat)
  /\ (In AIEnhancedTrader.SellerExecute calls ->
        (tally "buy" responses < tally "sell" responses)%nat
        /\ (tally "hold" responses < tally "sell" responses)%nat).
Proof.
  intros Hrc Hresp Hrun. rewrite <- !votes_tally.
  unfold AIEnhancedTrader.analyze_and_trade in Hrun. rewrite Hrc in Hrun.
  rewrite (get_consensus_analysis_consensus _ _ _ _ Hresp) in Hrun.
  destruct (AIManager.consensus responses) as [e | decision] eqn:Hd.
  { injection Hrun as <- _. split; intros []. }
  pose proof (trade_on_analysis_calls TradeResult TradeResult_failed
                self decision buyer seller) as Ht.
  cbn zeta in Ht.
  destruct (AIEnhancedTrader.trade_on_analysis TradeResult TradeResult_failed
              self decision buyer seller) as [c r] eqn:Hc.
  cbn [fst] in Ht.
  assert (c = calls) as -> by (destruct r; now injection Hrun).
  destruct Ht as [_ Hclear].
  destruct responses as [| r0 responses].
  { injection Hd as <-.
    assert (Hnil : calls = []).
    { destruct calls as [| c0 calls]; [reflexivity |].
      destruct Hclear as [Hs _]; [discriminate |].
      apply (should_trade_iff self) in Hs. destruct Hs as [Hs _].
      discriminate Hs. }
    rewrite Hnil. split; intros []. }
  set (rs := r0 :: responses) in *.
  assert (Hne : rs <> []) by discriminate.
  destruct (consensus_returned rs decision Hne Hd) as (_ & Hrec & _).
  assert (Hbuy : recommendation decision = "buy" ->
                 (AIManager.votes "sell" rs < AIManager.votes "buy" rs)%nat
                 /\ (AIManager.votes "hold" rs < AIManager.votes "buy" rs)%nat).
  { rewrite Hrec.
    destruct (Nat.ltb_spec (AIManager.votes "sell" rs) (AIManager.votes "buy" rs));
      destruct (Nat.ltb_spec (AIManager.votes "hold" rs) (AIManager.votes "buy" rs));
      cbn [andb]; [auto | | |];
      destruct (Nat.ltb_spec (AIManager.votes "buy" rs) (AIManager.votes "sell" rs));
      destruct (Nat.ltb_spec (AIManager.votes "hold" rs) (AIManager.votes "sell" rs));
      cbn [andb]; discriminate. }
  assert (Hsell : recommendation decision = "sell" ->
                  (AIManager.votes "buy" rs < AIManager.votes "sell" rs)%nat
                  /\ (AIManager.votes "hold" rs < AIManager.votes "sell" rs)%nat).
  { rewrite Hrec.
    destruct (Nat.ltb_spec (AIManager.votes "sell" rs) (AIManager.votes "buy" rs));
      destruct (Nat.ltb_spec (AIManager.votes "hold" rs) (AIManager.votes "buy" rs));
      cbn [andb]; [discriminate | | |];
      destruct (Nat.ltb_spec (AIManager.votes "buy" rs) (AIManager.votes "sell" rs));
      destruct (Nat.ltb_spec (AIManager.votes "hold" rs) (AIManager.votes "sell" rs));
      cbn [andb]; try discriminate; auto. }
  split; intros Hin.
  - apply Hbuy.
    assert (Hne' : calls <> []) by (intros ->; destruct Hin).
    destruct (Hclear Hne') as (_ & Hb & Hs).
    destruct calls as [| c0 [| c1 calls]]; [destruct Hin | |].
    + destruct Hin as [-> | []]. now apply Hb.
    + pose proof (trade_on_analysis_calls TradeResult TradeResult_failed
                    self decision buyer seller) as Ht.
      cbn zeta in Ht. rewrite Hc in Ht. cbn [fst] in Ht.
      destruct Ht as [[E | [E | E]] _]; discriminate E.
  - apply Hsell.
    assert (Hne' : calls <> []) by (intros ->; destruct Hin).
    destruct (Hclear Hne') as (_ & Hb & Hs).
    destruct calls as [| c0 [| c1 calls]]; [destruct Hin | |].
    + destruct Hin as [-> | []]. now apply Hs.
    + pose proof (trade_on_analysis_calls TradeResult TradeResult_failed
                    self decision buyer seller) as Ht.
      cbn zeta in Ht. rewrite Hc in Ht. cbn [fst] in Ht.
      destruct Ht as [[E | [E | E]] _]; discriminate E.
Qed.

Lemma sum_with_zero (xs : list Q) :
  Forall (fun x => 0 <= x /\ x <= 0.9)%Q xs ->
  Exists (fun x => x == 0)%Q xs ->
  (fold_right Qplus 0 xs <= 0.9 * (inject_Z (Z.of_nat (length xs)) - 1))%Q.
Proof.
  intros Hall Hex. induction Hex as [x xs Hx | x xs Hex IH].
  - inversion Hall as [| ? ? [Hx0 Hxc] Hrest]; subst.
    assert (Hsum : (fold_right Qplus 0 xs
                    <= 0.9 * inject_Z (Z.of_nat (length xs)))%Q).
    { clear -Hrest. induction Hrest as [| y ys [Hy0 Hyc] _ IH].
      - cbn [fold_right length].
        change (inject_Z (Z.of_nat 0)) with 0%Q. lra.
      - cbn [fold_right length]. rewrite Nat2Z.inj_succ. unfold Z.succ.
        rewrite inject_Z_plus. change (inject_Z 1) with 1%Q. lra. }
    cbn [fold_right length]. rewrite Nat2Z.inj_succ. unfold Z.succ.
    rewrite inject_Z_plus. change (inject_Z 1) with 1%Q.
    rewrite Hx. lra.
  - inversion Hall as [| ? ? [Hx0 Hxc] Hrest]; subst.
    specialize (IH Hrest).
    cbn [fold_right length]. rewrite Nat2Z.inj_succ. unfold Z.succ.
    rewrite inject_Z_plus. change (inject_Z 1) with 1%Q.
    lra.
Qed.

(** **** X17.  With at most four responses whose confidences are between 0
    and 0.9 (what the interpreters assign), one response of confidence 0
    (a failed provider) keeps the confidence of the consensus below 0.7:
    a trader with the default [min_confidence] then never trades on it. *)
Theorem one_failure_blocks_trading (responses : list AIResponse) :
  (length responses <= 4)%nat ->
  forallb labelled responses = true ->
  Forall (fun r => 0 <= confidence r /\ confidence r <= 0.9)%Q responses ->
  Exists (fun r => confidence r == 0)%Q responses ->
  exists decision,
    AIManager.consensus responses = inr decision
    /\ (confidence decision < 0.7)%Q
    /\ (forall self : AIEnhancedTrader.Trader,
          (0.7 <= AIEnhancedTrader.min_confidence self)%Q ->
          AIEnhancedTrader._should_trade_based_on_analysis self decision
          = false).
Proof.
  intros Hlen Hl Hall Hex.
  assert (Hne : responses <> []) by (intros ->; inversion Hex).
  destruct (consensus_fields responses Hne Hl) as [report ->].
  eexists. split; [reflexivity |]. cbn [confidence].
  assert (Hconf : (AIManager.py_sum (map confidence responses)
                   / inject_Z (Z.of_nat (length responses)) < 0.7)%Q).
  { rewrite py_sum_fold_right.
    assert (Hall' : Forall (fun x => 0 <= x /\ x <= 0.9)%Q
                      (map confidence responses)).
    { clear -Hall. induction Hall; simpl; constructor; assumption. }
    assert (Hex' : Exists (fun x => x == 0)%Q (map confidence responses)).
    { clear -Hex. induction Hex; simpl; [left | right]; assumption. }
    pose proof (sum_with_zero _ Hall' Hex') as Hsum.
    rewrite length_map in Hsum.
    assert (Hn4 : (inject_Z (Z.of_nat (length responses)) <= 4)%Q).
    { change 4%Q with (inject_Z 4). rewrite <- Zle_Qle. lia. }
    assert (Hpos : (0 < inject_Z (Z.of_nat (length responses)))%Q).
    { destruct responses; [contradiction |].
      change 0%Q with (inject_Z 0). rewrite <- Zlt_Qlt.
      cbn [length]. lia. }
    apply Qlt_shift_div_r; [exact Hpos | lra]. }
  split; [exact Hconf |].
  intros self Hmin.
  destruct (AIEnhancedTrader._should_trade_based_on_analysis self _) eqn:Hs;
    [| reflexivity].
  apply should_trade_iff in Hs. cbn [confidence] in Hs.
  destruct Hs as (_ & Hc & _). lra.
Qed.

(** **** X18.  [get_market_sentiment] answers with an "error" entry when
    there is no provider.  When the first provider is an adapter of the
    sources and its exchange raises, the answer is not an error: it is the
    sentiment "hold" with confidence 0.0 and risk 0.5, the provider
    "unknown" and the message of the exception as analysis. *)
Theorem market_sentiment_on_failure (self : AIEnhancedTrader.Trader)
    (cfg : dict) (provider : AIProvider) (rest : list AIProvider)
    (e : PyException) :
  OllamaProvider cfg = inr provider
  \/ LMStudioProvider cfg = inr provider
  \/ GeminiProvider cfg = inr provider ->
  AIEnhancedTrader.ai_manager self = provider :: rest ->
  AIEnhancedTrader.get_market_sentiment self (MarketRaises e)
  = [("sentiment", PyStr "hold");
     ("confidence", PyFloat 0.0);
     ("risk_level", PyFloat 0.5);
     ("analysis", PyStr ("Error: " ++ str_exc e));
     ("provider", PyStr "unknown")]
  /\ (forall min_confidence max_risk_score require_consensus reply,
        AIEnhancedTrader.get_market_sentiment
          {| AIEnhancedTrader.ai_manager := [];
             AIEnhancedTrader.min_confidence := min_confidence;
             AIEnhancedTrader.max_risk_score := max_risk_score;
             AIEnhancedTrader.require_consensus := require_consensus |}
          reply
        = [("error", PyStr "No AI providers available")]).
Proof.
  intros Hc Hm. split; [| reflexivity].
  unfold AIEnhancedTrader.get_market_sentiment. rewrite Hm.
  destruct Hc as [Hc | [Hc | Hc]].
  - injection Hc as <-. reflexivity.
  - injection Hc as <-. reflexivity.
  - unfold GeminiProvider in Hc.
    destruct (negb (truthy (dict_get cfg "api_key" PyNone)));
      [discriminate |].
    injection Hc as <-. reflexivity.
Qed.

End TraderConsensus.

(** * Properties of the web handlers *)

Section WebExtras.
Context `{PyStrOps}.

Lemma json_dict_last_unserializable (fields : list (string * pyval))
    (key : string) (v : pyval) :
  WebUI.json_serializable v = false ->
  WebUI.json_serializable (PyDict (fields ++ [(key, v)])) = false.
Proof.
  intros Hv. induction fields as [| [k x] fields IH].
  - cbn. now rewrite Hv.
  - change (WebUI.json_serializable (PyDict (((k, x) :: fields) ++ [(key, v)])))
      with (WebUI.json_serializable x
            && WebUI.json_serializable (PyDict (fields ++ [(key, v)]))).
    rewrite IH. apply andb_false_r.
Qed.

(** **** X19.  With at least one provider registered, the analysis handler
    answers with status 500 whatever the request and the backends: when
    the consensus is returned, its metadata holds the individual responses,
    which are objects that the JSON serialisation of the answer rejects.
    With no provider and a JSON object as request, it answers with status
    200 and the unsuccessful consensus. *)
Theorem ai_analyze_handler_status (providers : list AIProvider)
    (request_json : result pyval) (net : AIManager.Net) (order : list nat) :
  providers <> [] ->
  Permutation order (seq 0 (length providers)) ->
  (exists response,
     WebUI.ai_analyze_handler (Some providers) request_json net order
     = Some response
     /\ WebUI.status response = 500%Z)
  /\ (forall fields,
        WebUI.ai_analyze_handler (Some []) (inr (PyDict fields)) net order
        = Some {| WebUI.status := 200;
                  WebUI.payload :=
                    PyDict
                      [("success", PyBool false);
                       ("analysis",
                        PyStr "No AI providers available for analysis");
                       ("recommendation", PyStr "hold");
                       ("confidence", PyFloat 0.0);
                       ("risk_score", PyFloat 0.5);
                       ("reasoning", PyList []);
                       ("metadata", PyDict [])] |}).
Proof.
  intros Hne Hperm. split; [| reflexivity].
  unfold WebUI.ai_analyze_handler.
  destruct request_json as [e | data]; [eexists; split; reflexivity |].
  cbn [bind].
  destruct data; try (eexists; split; reflexivity).
  cbn [WebUI.request_fields ret].
  destruct (analyze_token_outcomes providers net order Hperm)
    as (outcomes & Hret & Hall).
  rewrite (get_consensus_analysis_consensus _ _ _ _ Hret).
  assert (Hne' : outcomes <> []).
  { intros ->. inversion Hall. subst. contradiction. }
  destruct (AIManager.consensus outcomes) as [e | decision] eqn:Hd;
    [eexists; split; reflexivity |].
  destruct (consensus_returned outcomes decision Hne' Hd) as (_ & _ & Hmeta).
  cbn [bind]. unfold WebUI.json_response.
  match goal with
  | |- context [WebUI.json_serializable (PyDict ?l)] =>
      assert (Hser : WebUI.json_serializable (PyDict l) = false)
  end.
  { apply (json_dict_last_unserializable
             [("success", PyBool (success decision));
              ("analysis", analysis decision);
              ("recommendation", PyStr (recommendation decision));
              ("confidence", PyFloat (confidence decision));
              ("risk_score", PyFloat (risk_score decision));
              ("reasoning", PyList (map PyStr (reasoning decision)))]
             "metadata").
    rewrite Hmeta.
    apply (json_dict_last_unserializable
             [("provider", PyStr "consensus");
              ("provider_count", PyInt (Z.of_nat (length outcomes)))]
             "individual_responses").
    destruct outcomes; [contradiction | reflexivity]. }
  rewrite Hser. eexists. split; reflexivity.
Qed.

Lemma json_dict_bools (d : dict) :
  Forall (fun entry => exists b, snd entry = PyBool b) d ->
  WebUI.json_serializable (PyDict d) = true.
Proof.
  induction 1 as [| [k v] d [b Hb] _ IH].
  - reflexivity.
  - simpl in Hb. subst v.
    change (WebUI.json_serializable (PyDict ((k, PyBool b) :: d)))
      with (WebUI.json_serializable (PyBool b)
            && WebUI.json_serializable (PyDict d)).
    rewrite IH. reflexivity.
Qed.

Lemma dict_set_bools (k : string) (b : bool) (d : dict) :
  Forall (fun entry => exists b, snd entry = PyBool b) d ->
  Forall (fun entry => exists b, snd entry = PyBool b)
    (dict_set k (PyBool b) d).
Proof.
  induction 1 as [| [k' v'] d Hv Hd IH]; simpl.
  - constructor; [exists b; reflexivity | constructor].
  - destruct (String.eqb k k').
    + constructor; [exists b; reflexivity | exact Hd].
    + constructor; [exact Hv | exact IH].
Qed.

Lemma check_provider_health_bools (providers : list AIProvider)
    (health_check : AIProvider -> result bool) :
  Forall (fun entry => exists b, snd entry = PyBool b)
    (Health.check_provider_health providers health_check).
Proof.
  unfold Health.check_provider_health.
  assert (Hgen : forall acc : dict,
             Forall (fun entry => exists b, snd entry = PyBool b) acc ->
             Forall (fun entry => exists b, snd entry = PyBool b)
               (fold_left
                  (fun health_status provider =>
                     match health_check provider with
                     | inr is_healthy =>
                         dict_set (Base.name provider) (PyBool is_healthy)
                           health_status
                     | inl _ =>
                         dict_set (Base.name provider) (PyBool false)
                           health_status
                     end)
                  providers acc)).
  { induction providers as [| p providers IH]; intros acc Hacc; simpl.
    - exact Hacc.
    - apply IH. destruct (health_check p); now apply dict_set_bools. }
  apply Hgen. constructor.
Qed.

(** **** X20.  The health handler always answers with status 200 and the
    health report of the manager (an empty one when there is no manager):
    a provider whose check raises shows up as false, not as an error of
    the handler. *)
Theorem ai_health_handler_status (ai_manager : option (list AIProvider))
    (health_check : AIProvider -> result bool) :
  WebUI.ai_health_handler ai_manager health_check
  = {| WebUI.status := 200;
       WebUI.payload :=
         PyDict
           [("providers",
             PyDict match ai_manager with
                    | Some providers =>
                        Health.check_provider_health providers health_check
                    | None => []
                    end)] |}.
Proof.
  unfold WebUI.ai_health_handler. destruct ai_manager as [providers |];
    [| reflexivity].
  unfold WebUI.json_response.
  assert (Hser : WebUI.json_serializable
                   (PyDict
                      [("providers",
                        PyDict (Health.check_provider_health providers
                                  health_check))]) = true).
  { change (WebUI.json_serializable
              (PyDict (Health.check_provider_health providers health_check))
            && true = true).
    rewrite json_dict_bools by apply check_provider_health_bools.
    reflexivity. }
  rewrite Hser. reflexivity.
Qed.

End WebExtras.

(** * Properties of the prompt *)

Section PromptExtras.
Variable py_str : pyval -> string.
Hypothesis py_str_string : forall s, py_str (PyStr s) = s.

Lemma prefix_append_self (a b : string) : String.prefix a (a ++ b) = true.
Proof.
  induction a as [| c a IH]; simpl.
  - destruct b; reflexivity.
  - destruct (ascii_dec c c); [exact IH | contradiction].
Qed.

Lemma prefix_append_cancel (a x y : string) :
  String.prefix (a ++ x) (a ++ y) = String.prefix x y.
Proof.
  induction a as [| c a IH]; simpl.
  - reflexivity.
  - destruct (ascii_dec c c); [exact IH | contradiction].
Qed.

Lemma contains_prefix (x t : string) :
  String.prefix x t = true -> contains x t = true.
Proof.
  intros Hp. destruct t as [| c t].
  - change (contains x "") with (String.prefix x "" || false).
    now rewrite Hp.
  - change (contains x (String c t))
      with (String.prefix x (String c t) || contains x t).
    now rewrite Hp.
Qed.

Lemma contains_append_right (x a t : string) :
  contains x t = true -> contains x (a ++ t) = true.
Proof.
  intros Ht. induction a as [| c a IH]; [exact Ht |].
  cbn [append contains]. rewrite IH. apply orb_true_r.
Qed.

Lemma prefix_append_left (x a b : string) :
  String.prefix x a = true -> String.prefix x (a ++ b) = true.
Proof.
  revert a. induction x as [| c x IH]; intros a Hp.
  - destruct (a ++ b); reflexivity.
  - destruct a as [| c' a]; simpl in Hp; [discriminate |].
    simpl. destruct (ascii_dec c c'); [now apply IH | discriminate].
Qed.

Lemma contains_append_left (x a b : string) :
  contains x a = true -> contains x (a ++ b) = true.
Proof.
  induction a as [| c a IH]; intros Ha.
  - simpl in Ha. rewrite orb_false_r in Ha.
    apply contains_prefix. now apply (prefix_append_left x "" b).
  - change (contains x (String c a))
      with (String.prefix x (String c a) || contains x a) in Ha.
    change (contains x (String c a ++ b))
      with (String.prefix x (String c a ++ b) || contains x (a ++ b)).
    apply orb_true_iff in Ha. destruct Ha as [Hp | Hr].
    + rewrite (prefix_append_left _ _ b Hp). reflexivity.
    + rewrite (IH Hr). apply orb_true_r.
Qed.

(** A phrase is found where it stands, or further to the right. *)
Ltac find_phrase :=
  first
    [ apply contains_prefix;
      rewrite ?prefix_append_cancel; apply prefix_append_self
    | apply contains_append_right; find_phrase ].

(** **** X21.  The prompt of a token names the token: it holds the lines
    "- Name:", "- Symbol:", "- Platform:", "- Mint Address:" and
    "- Creator:" with the fields of the token.  With market data that is
    not empty it also holds the price line, with "N/A" when the data has
    no price; without market data, or with empty market data, it is the
    same prompt. *)
Theorem prompt_names_the_token (name symbol platform mint creator : string)
    (entry : string * pyval) (market_data : dict) :
  let token_info :=
    {| Prompt.token_name := PyStr name;
       Prompt.symbol := PyStr symbol;
       Prompt.platform_value := PyStr platform;
       Prompt.mint := PyStr mint;
       Prompt.creator := PyStr creator |} in
  (forall data,
      contains ("- Name: " ++ name ++ nl)
        (Prompt.format_token_prompt py_str token_info data) = true
      /\ contains ("- Symbol: " ++ symbol ++ nl)
           (Prompt.format_token_prompt py_str token_info data) = true
      /\ contains ("- Platform: " ++ platform ++ nl)
           (Prompt.format_token_prompt py_str token_info data) = true
      /\ contains ("- Mint Address: " ++ mint ++ nl)
           (Prompt.format_token_prompt py_str token_info data) = true
      /\ contains ("- Creator: " ++ creator ++ nl)
           (Prompt.format_token_prompt py_str token_info data) = true)
  /\ contains
       ("- Current Price: "
          ++ match dict_lookup "price" (entry :: market_data) with
             | Some price => py_str price
             | None => "N/A"
             end ++ " SOL" ++ nl)
       (Prompt.format_token_prompt py_str token_info
          (Some (entry :: market_data))) = true
  /\ Prompt.format_token_prompt py_str token_info (Some [])
     = Prompt.format_token_prompt py_str token_info None.
Proof.
  intros token_info. split; [| split; [| reflexivity]].
  - intros data. unfold Prompt.format_token_prompt, token_info.
    cbn [Prompt.token_name Prompt.symbol Prompt.platform_value Prompt.mint
           Prompt.creator].
    rewrite !py_str_string.
    repeat split; apply contains_append_left;
      (destruct data as [[| e md] |];
       [| apply contains_append_left | ]).
    all: find_phrase.
  - unfold Prompt.format_token_prompt.
    apply contains_append_left. apply contains_append_right.
    unfold Prompt.market_field at 1. unfold dict_get.
    destruct (dict_lookup "price" (entry :: market_data)) as [price |];
      rewrite ?py_str_string; find_phrase.
Qed.

End PromptExtras.

(** * Further properties of the fan-out and of the default configuration *)

Section DefaultsExtras.
Context `{PyStrOps}.
Variable LocalAIProvider : dict -> result AIProvider.

(** **** X22.  [analyze_token] returns no partial result: as long as the
    task of one provider has not finished, the call does not return. *)
Theorem analyze_token_waits_for_all (providers : list AIProvider)
    (net : AIManager.Net) (order : list nat) (i : nat) :
  (i < length providers)%nat ->
  ~ In i order ->
  AIManager.analyze_token providers net order = None.
Proof.
  intros Hlt Hnot. unfold AIManager.analyze_token.
  destruct providers as [| p providers]; [simpl in Hlt; lia |].
  rewrite (gather_waits _ order i); [reflexivity | | exact Hnot].
  rewrite length_map. exact Hlt.
Qed.

(** **** X23.  With the default configuration the registry holds the Ollama
    and the LM Studio providers, then what the LocalAI constructor gives,
    then the Gemini provider exactly when the API key of the environment is
    set and not empty.  The Gemini entry is enabled only with such a key,
    so the constructor of the Gemini adapter is never called without one
    and its configuration error does not occur. *)
Theorem default_config_registry (gemini_api_key : pyval) :
  AIManager.get_provider_names
    (AIManager._setup_providers LocalAIProvider
       (default_ai_config gemini_api_key))
  = (["OllamaProvider"; "LMStudioProvider"]
     ++ map Base.name
          (active "localai" LocalAIProvider
             (providers_section (default_ai_config gemini_api_key)))
     ++ (if truthy gemini_api_key then ["GeminiProvider"] else []))%list
  /\ (forall gcfg,
        dict_lookup "gemini"
          (providers_section (default_ai_config gemini_api_key)) = Some gcfg ->
        truthy (dict_get gcfg "enabled" (PyBool false)) = true ->
        exists provider, GeminiProvider gcfg = inr provider).
Proof.
  split.
  - unfold AIManager.get_provider_names. rewrite setup_providers_blocks.
    rewrite !map_app.
    change (map Base.name
              (active "ollama" OllamaProvider
                 (providers_section (default_ai_config gemini_api_key))))
      with ["OllamaProvider"].
    change (map Base.name
              (active "lmstudio" LMStudioProvider
                 (providers_section (default_ai_config gemini_api_key))))
      with ["LMStudioProvider"].
    assert (Hg : map Base.name
                   (active "gemini" GeminiProvider
                      (providers_section (default_ai_config gemini_api_key)))
                 = if truthy gemini_api_key then ["GeminiProvider"] else []).
    { unfold active, GeminiProvider. cbn.
      destruct (truthy gemini_api_key); reflexivity. }
    rewrite Hg. reflexivity.
  - intros gcfg Hlook Hen. cbn in Hlook. injection Hlook as <-.
    cbn in Hen. unfold GeminiProvider. cbn. rewrite Hen. cbn.
    eexists. reflexivity.
Qed.

End DefaultsExtras.

(** * The further statements at the sample inputs *)

Lemma extremely_risky_scored_as_risky_witness :
  risk_score (Gemini._parse_analysis_response (H := ascii_ops)
                (PyStr "gemini-1.5-flash") (PyStr "Extremely risky token"))
  = 0.8%Q.
Proof.
  destruct (extremely_risky_scored_as_risky (H := ascii_ops)
              (PyStr "gemini-1.5-flash") "Extremely risky token" eq_refl)
    as [Hg _].
  exact Hg.
Defined.

Lemma sample_LocalAIProvider_name (cfg : dict) (provider : AIProvider) :
  sample_LocalAIProvider cfg = inr provider ->
  Base.name provider = "LocalAIProvider".
Proof. intros Hc. injection Hc as <-. reflexivity. Qed.

Lemma registry_names_bounded_witness :
  (AIManager.get_provider_count
     (AIManager._setup_providers (H := ascii_ops) sample_LocalAIProvider
        sample_config) <= 4)%nat.
Proof.
  destruct (registry_names_bounded (H := ascii_ops) sample_LocalAIProvider
              sample_config sample_LocalAIProvider_name) as [Hcount _].
  exact Hcount.
Defined.

Lemma registry_reads_four_entries_witness :
  AIManager._setup_providers (H := ascii_ops) sample_LocalAIProvider
    ollama_only_config
  = AIManager._setup_providers (H := ascii_ops) sample_LocalAIProvider
      ollama_and_unknown_config.
Proof.
  apply (registry_reads_four_entries (H := ascii_ops)).
  intros key [<- | [<- | [<- | [<- | []]]]]; reflexivity.
Defined.

Lemma enabled_ollama_is_first_witness :
  exists provider rest,
    AIManager._setup_providers (H := ascii_ops) sample_LocalAIProvider
      sample_config = provider :: rest
    /\ Base.name provider = "OllamaProvider".
Proof.
  destruct (enabled_ollama_is_first (H := ascii_ops) sample_LocalAIProvider
              sample_config
              [("enabled", PyBool true);
               ("url", PyStr "http://localhost:11434");
               ("model", PyStr "llama3.2"); ("timeout", PyInt 30)]
              eq_refl eq_refl)
    as (provider & rest & Hreg & _ & Hname & _).
  exists provider, rest. split; [exact Hreg | exact Hname].
Defined.

Lemma sample_registry_names :
  List.NoDup
    (map Base.name
       (AIManager._setup_providers (H := ascii_ops) sample_LocalAIProvider
          sample_config)).
Proof. repeat constructor; simpl; intuition discriminate. Qed.

Lemma check_provider_health_entries_witness :
  Health.check_provider_health
    (AIManager._setup_providers (H := ascii_ops) sample_LocalAIProvider
       sample_config)
    (fun provider =>
       if String.eqb (Base.name provider) "OllamaProvider"
       then adapter_health_check (HealthStatus 200)
       else raise (mkExc "RuntimeError" "connection lost"))
  = [("OllamaProvider", PyBool true); ("LocalAIProvider", PyBool false)].
Proof.
  destruct (check_provider_health_entries
              (AIManager._setup_providers (H := ascii_ops)
                 sample_LocalAIProvider sample_config)
              (fun provider =>
                 if String.eqb (Base.name provider) "OllamaProvider"
                 then adapter_health_check (HealthStatus 200)
                 else raise (mkExc "RuntimeError" "connection lost"))
              sample_registry_names) as [Hreport _].
  rewrite Hreport. reflexivity.
Defined.

Lemma consensus_label_error_witness :
  exists e,
    AIManager.consensus (H := ascii_ops) [unlabelled_response] = inl e
    /\ exc_class e = "AttributeError".
Proof.
  apply (consensus_label_error (H := ascii_ops) [unlabelled_response]).
  - discriminate.
  - reflexivity.
Defined.

Lemma consensus_order_independent_witness :
  exists decision decision',
    AIManager.consensus64 (H := ascii_ops) LeftToRight two_buy_one_sell
    = inr decision
    /\ AIManager.consensus64 (H := ascii_ops) LeftToRight
         (rev two_buy_one_sell)
       = inr decision'
    /\ recommendation decision = recommendation decision'
    /\ (Qabs (confidence decision - confidence decision')
        <= 2 # 1000000000)%Q.
Proof.
  assert (Hlen : (Z.of_nat (length two_buy_one_sell) <= 1000000)%Z)
    by (simpl; lia).
  destruct (consensus_order_independent (H := ascii_ops) LeftToRight
              two_buy_one_sell (rev two_buy_one_sell)
              (Permutation_rev two_buy_one_sell)
              ltac:(discriminate) Hlen (proj2 sample_scores_in_range)
              eq_refl)
    as (decision & decision' & Hd & Hd' & Hrec & Hc & _).
  exists decision, decision'. repeat split; assumption.
Defined.

Lemma consensus_strict_majority_witness :
  exists decision,
    AIManager.consensus (H := ascii_ops) two_buy_one_sell = inr decision
    /\ recommendation decision = "buy".
Proof.
  apply (consensus_strict_majority (H := ascii_ops) two_buy_one_sell "buy").
  - simpl. auto.
  - vm_compute. lia.
  - reflexivity.
Defined.

Lemma consensus_of_failures_witness :
  exists decision,
    AIManager.consensus (H := ascii_ops) two_failures = inr decision
    /\ success decision = true
    /\ recommendation decision = "hold".
Proof.
  assert (Hfail : Forall (fun r => exists text meta,
                              r = AIResponse_meta false text meta)
                    two_failures)
    by (repeat constructor; eexists; eexists; reflexivity).
  destruct (consensus_of_failures (H := ascii_ops) two_failures
              ltac:(discriminate) eq_refl Hfail)
    as (decision & Hd & Hs & Hrec & _).
  exists decision. repeat split; assumption.
Defined.

Lemma sample_LocalAIProvider_sound (cfg : dict) (provider : AIProvider)
    (reply : backend_reply) (r : AIResponse) :
  sample_LocalAIProvider cfg = inr provider ->
  Base.analyze_token provider reply = inr r ->
  labelled r = true /\ well_formed 5 r.
Proof. intros Hc Hr. injection Hc as <-. discriminate Hr. Qed.

Lemma consensus_of_registry_returns_witness :
  exists decision,
    AIManager.get_consensus_analysis (H := ascii_ops)
      (AIManager._setup_providers (H := ascii_ops) sample_LocalAIProvider
         sample_config)
      sample_net [1; 0]%nat
    = Some (inr decision)
    /\ well_formed 10 decision.
Proof.
  apply (consensus_of_registry_returns (H := ascii_ops)
           sample_LocalAIProvider sample_config sample_net [1; 0]%nat
           sample_LocalAIProvider_sound (perm_swap 0%nat 1%nat [])).
Defined.

Lemma trade_calls_need_clearance_witness :
  exists analysis,
    success analysis = true /\ recommendation analysis = "buy".
Proof.
  destruct (trade_calls_need_clearance (H := ascii_ops) string (fun m => m)
              first_provider_trader confident_net [0%nat]
              (inr "bought") (inr "sold")
              [AIEnhancedTrader.BuyerExecute] "bought" eq_refl)
    as [_ Hclear].
  destruct (Hclear ltac:(discriminate))
    as (analysis & _ & Hs & _ & _ & Hbuy & _).
  exists analysis. split; [exact Hs | now apply Hbuy].
Defined.

Lemma consensus_trade_needs_plurality_witness :
  exists responses,
    AIManager.analyze_token (AIEnhancedTrader.ai_manager consensus_trader)
      confident_net [0%nat] = Some (inr responses)
    /\ (tally "sell" responses < tally "buy" responses)%nat.
Proof.
  eexists. split; [reflexivity |].
  destruct (consensus_trade_needs_plurality (H := ascii_ops) string
              (fun m => m) consensus_trader confident_net [0%nat]
              (inr "bought") (inr "sold") _
              [AIEnhancedTrader.BuyerExecute] "bought"
              eq_refl eq_refl eq_refl) as [Hbuy _].
  destruct (Hbuy ltac:(left; reflexivity)) as [Hsell _].
  exact Hsell.
Defined.

Lemma one_failure_blocks_trading_witness :
  exists decision,
    AIManager.consensus (H := ascii_ops) one_failed_two_buy = inr decision
    /\ AIEnhancedTrader._should_trade_based_on_analysis consensus_trader
         decision = false.
Proof.
  assert (Hlen : (length one_failed_two_buy <= 4)%nat) by (simpl; lia).
  assert (Hrange : Forall (fun r => 0 <= confidence r /\ confidence r <= 0.9)%Q
                     one_failed_two_buy)
    by (repeat constructor; simpl; unfold Qle; simpl; lia).
  assert (Hzero : Exists (fun r => confidence r == 0)%Q one_failed_two_buy)
    by (left; reflexivity).
  destruct (one_failure_blocks_trading (H := ascii_ops) one_failed_two_buy
              Hlen eq_refl Hrange Hzero)
    as (decision & Hd & _ & Hblock).
  exists decision. split; [exact Hd |]. apply Hblock.
  unfold Qle. simpl. lia.
Defined.

Lemma market_sentiment_on_failure_witness :
  dict_lookup "sentiment"
    (AIEnhancedTrader.get_market_sentiment consensus_trader
       (MarketRaises (mkExc "TimeoutError" "")))
  = Some (PyStr "hold").
Proof.
  destruct (market_sentiment_on_failure (H := ascii_ops) consensus_trader
              [("enabled", PyBool true);
               ("url", PyStr "http://localhost:11434");
               ("model", PyStr "llama3.2"); ("timeout", PyInt 30)]
              _ [] (mkExc "TimeoutError" "")
              (or_introl eq_refl) eq_refl) as [Hsent _].
  rewrite Hsent. reflexivity.
Defined.

Lemma ai_analyze_handler_status_witness :
  exists response,
    WebUI.ai_analyze_handler (H := ascii_ops)
      (Some (AIManager._setup_providers (H := ascii_ops)
               sample_LocalAIProvider ollama_only_config))
      (inr (PyDict [("name", PyStr "Doge Moon"); ("symbol", PyStr "DMOON")]))
      confident_net [0%nat]
    = Some response
    /\ WebUI.status response = 500%Z.
Proof.
  destruct (ai_analyze_handler_status (H := ascii_ops)
              (AIManager._setup_providers (H := ascii_ops)
                 sample_LocalAIProvider ollama_only_config)
              (inr (PyDict [("name", PyStr "Doge Moon");
                            ("symbol", PyStr "DMOON")]))
              confident_net [0%nat]
              ltac:(discriminate) (Permutation_refl [0%nat]))
    as [Hstatus _].
  exact Hstatus.
Defined.

Lemma prompt_names_the_token_witness :
  contains ("- Name: " ++ "Doge Moon" ++ nl)
    (Prompt.format_token_prompt sample_py_str sample_token None) = true.
Proof.
  destruct (prompt_names_the_token sample_py_str (fun s => eq_refl)
              "Doge Moon" "DMOON" "pump_fun"
              "11111111111111111111111111111111" "creator-address"
              ("price", PyInt 1) []) as [Hfields _].
  destruct (Hfields None) as [Hname _].
  exact Hname.
Defined.

Lemma analyze_token_waits_for_all_witness :
  AIManager.analyze_token
    (AIManager._setup_providers (H := ascii_ops) sample_LocalAIProvider
       sample_config)
    sample_net [0%nat]
  = None.
Proof.
  apply (analyze_token_waits_for_all _ sample_net [0%nat] 1%nat).
  - simpl. lia.
  - simpl. intros [E | []]. discriminate E.
Defined.
